(** * mysql-replay: protocol reconstruction (stream/mysql.go) and replay
      (sqlreplay.go), embedded in Rocq.

    Conventions of the embedding.
    - A Go [int] or [uint64] is a [Z]; where the source converts between
      widths the wrap-around is written out ([wrap_int], [wrap_uint64], ...).
      Indices and lengths of slices stay far below 2^62, so index arithmetic
      such as [i<<1] or [pos+8] is plain [Z] arithmetic.
    - A [[]byte] is a [list byte]; a run-time panic (index or slice bound out
      of range, [make] with a negative length) is [None] in the option monad.
    - Logging and statistics counters are side effects only and are left
      out; an argument of a log call that can itself panic is kept. *)

From Stdlib Require Import ZArith Ascii String List Lia DecimalString Bool.
From stdpp Require Import gmap strings list.

Local Open Scope Z_scope.

Abbreviation byte := Byte.byte.

(** ** Go primitives *)

Module Go.

Definition u8 (b : byte) : Z := Z.of_N (Byte.to_N b).

Definition len {A} (s : list A) : Z := Z.of_nat (length s).

(** [s[i]]: panics unless [0 <= i < len(s)]. *)
Definition index {A} (s : list A) (i : Z) : option A :=
  if i <? 0 then None else s !! Z.to_nat i.

(** [s[lo:hi]] on a slice whose capacity equals its length. *)
Definition slice {A} (s : list A) (lo hi : Z) : option (list A) :=
  if (0 <=? lo) && (lo <=? hi) && (hi <=? len s)
  then Some (take (Z.to_nat (hi - lo)) (drop (Z.to_nat lo) s))
  else None.

(** [s[lo:]] *)
Definition slice_from {A} (s : list A) (lo : Z) : option (list A) :=
  slice s lo (len s).

(** [s[:hi]] *)
Definition slice_to {A} (s : list A) (hi : Z) : option (list A) :=
  slice s 0 hi.

(** Conversions between integer widths. *)
Definition wrap_uint8 (z : Z) : Z := z mod 2 ^ 8.
Definition wrap_uint64 (z : Z) : Z := z mod 2 ^ 64.
Definition wrap_signed (w : Z) (z : Z) : Z :=
  (z + 2 ^ (w - 1)) mod 2 ^ w - 2 ^ (w - 1).
Definition wrap_int8 : Z -> Z := wrap_signed 8.
Definition wrap_int16 : Z -> Z := wrap_signed 16.
Definition wrap_int32 : Z -> Z := wrap_signed 32.
Definition wrap_int : Z -> Z := wrap_signed 64.

(** A byte slice together with the bytes that lie behind its length inside
    its capacity.  Go checks a slice expression [s[lo:hi]] against the
    capacity and an index expression [s[i]] against the length, so a slice
    expression may reach into [spare]. *)
Record Slice := mkSlice { vis : list byte; spare : list byte }.

Definition of_list (l : list byte) : Slice := mkSlice l [].

(** [s[lo:hi]] as a list of [hi-lo] bytes: panics unless
    [0 <= lo <= hi <= cap(s)]. *)
Definition slice_cap (s : Slice) (lo hi : Z) : option (list byte) :=
  slice (vis s ++ spare s) lo hi.

(** [encoding/binary]: each reads the first bytes of its argument and
    panics when the argument is shorter. *)
Definition LittleEndian_Uint16 (b : list byte) : option Z :=
  b1 ← index b 1; b0 ← index b 0;
  Some (Z.lor (u8 b0) (Z.shiftl (u8 b1) 8)).

Definition LittleEndian_Uint32 (b : list byte) : option Z :=
  b3 ← index b 3; b0 ← index b 0; b1 ← index b 1; b2 ← index b 2;
  Some (Z.lor (Z.lor (Z.lor (u8 b0) (Z.shiftl (u8 b1) 8))
                     (Z.shiftl (u8 b2) 16)) (Z.shiftl (u8 b3) 24)).

Definition LittleEndian_Uint64 (b : list byte) : option Z :=
  b7 ← index b 7; b0 ← index b 0; b1 ← index b 1; b2 ← index b 2;
  b3 ← index b 3; b4 ← index b 4; b5 ← index b 5; b6 ← index b 6;
  Some (Z.lor (Z.lor (Z.lor (Z.lor (Z.lor (Z.lor (Z.lor
         (u8 b0) (Z.shiftl (u8 b1) 8)) (Z.shiftl (u8 b2) 16))
         (Z.shiftl (u8 b3) 24)) (Z.shiftl (u8 b4) 32))
         (Z.shiftl (u8 b5) 40)) (Z.shiftl (u8 b6) 48))
         (Z.shiftl (u8 b7) 56)).

Definition BigEndian_Uint64 (b : list byte) : option Z :=
  b7 ← index b 7; b0 ← index b 0; b1 ← index b 1; b2 ← index b 2;
  b3 ← index b 3; b4 ← index b 4; b5 ← index b 5; b6 ← index b 6;
  Some (Z.lor (Z.lor (Z.lor (Z.lor (Z.lor (Z.lor (Z.lor
         (u8 b7) (Z.shiftl (u8 b6) 8)) (Z.shiftl (u8 b5) 16))
         (Z.shiftl (u8 b4) 24)) (Z.shiftl (u8 b3) 32))
         (Z.shiftl (u8 b2) 40)) (Z.shiftl (u8 b1) 48))
         (Z.shiftl (u8 b0) 56)).

(** [fmt.Sprintf] verbs: [%d], and [%0wd] on an unsigned integer. *)
Definition fmt_d (v : Z) : string :=
  if v <? 0 then String "-"%char (NilEmpty.string_of_uint (N.to_uint (Z.to_N (- v))))
  else NilEmpty.string_of_uint (N.to_uint (Z.to_N v)).

Fixpoint zeros (n : nat) : string :=
  match n with
  | O => EmptyString
  | S n' => String "0"%char (zeros n')
  end.

Definition fmt_0d (w : nat) (v : Z) : string :=
  let s := fmt_d v in
  (zeros (w - String.length s) ++ s)%string.

(** [string(b)] for a byte slice [b]. *)
Definition string_of_bytes (b : list byte) : string := string_of_list_byte b.

End Go.

Import Go.

(** ** Errors

    One type for the error values of both packages.  [MySQLError] is the
    driver's [*mysql.MySQLError], [StreamMySQLError] the [*MySQLError] of
    package stream; the three sentinels are
    [context.DeadlineExceeded], [sql.ErrConnDone] and [mysql.ErrInvalidConn];
    [Wrapped msg cause] is an error that carries [cause] and gives it back on
    [errors.Unwrap]. *)

Inductive error : Type :=
  | errors_New (msg : string)
  | io_EOF
  | ErrLoadBuffer
  | ErrMalformPkt
  | MySQLError (Number : Z) (Message : string)
  | StreamMySQLError (Number : Z) (Message : string)
  | DeadlineExceeded
  | ErrConnDone
  | ErrInvalidConn
  | Wrapped (msg : string) (cause : error).

(** ** Length-encoded integers (stream/mysql.go) *)

(** [parseLengthEncodedInt(b) (num uint64, isNull bool, n int)]. *)
Definition parseLengthEncodedInt (b : list byte) : option (Z * bool * Z) :=
  b0 ← index b 0;
  if u8 b0 =? 0xfb then
    Some (0, true, 1)
  else if u8 b0 =? 0xfc then
    b1 ← index b 1; b2 ← index b 2;
    Some (Z.lor (u8 b1) (Z.shiftl (u8 b2) 8), false, 3)
  else if u8 b0 =? 0xfd then
    b1 ← index b 1; b2 ← index b 2; b3 ← index b 3;
    Some (Z.lor (Z.lor (u8 b1) (Z.shiftl (u8 b2) 8)) (Z.shiftl (u8 b3) 16),
          false, 4)
  else if u8 b0 =? 0xfe then
    b1 ← index b 1; b2 ← index b 2; b3 ← index b 3; b4 ← index b 4;
    b5 ← index b 5; b6 ← index b 6; b7 ← index b 7; b8 ← index b 8;
    Some (Z.lor (Z.lor (Z.lor (Z.lor (Z.lor (Z.lor (Z.lor
           (u8 b1) (Z.shiftl (u8 b2) 8)) (Z.shiftl (u8 b3) 16))
           (Z.shiftl (u8 b4) 24)) (Z.shiftl (u8 b5) 32))
           (Z.shiftl (u8 b6) 40)) (Z.shiftl (u8 b7) 48))
           (Z.shiftl (u8 b8) 56),
          false, 9)
  else
    Some (u8 b0, false, 1).

(** [parseLengthEncodedBytes(b) ([]byte, bool, int, error)]; a [nil] slice
    is [None] in the first component. *)
Definition parseLengthEncodedBytes (b : list byte)
  : option (option (list byte) * bool * Z * option error) :=
  '(num, isNull, n) ← parseLengthEncodedInt b;
  if num <? 1 then
    Some (None, isNull, n, None)
  else
    let n := wrap_int (n + wrap_int num) in
    if len b >=? n then
      v ← slice b (wrap_int (n - wrap_int num)) n;
      Some (Some v, false, n, None)
    else
      Some (None, false, n, Some io_EOF).

(** [readUint16(data) (uint16, []byte, bool)] *)
Definition readUint16 (data : list byte) : option (Z * list byte * bool) :=
  if len data <? 2 then Some (0, data, false)
  else
    v ← LittleEndian_Uint16 data;
    rest ← slice_from data 2;
    Some (v, rest, true).

(** [readUint32(data) (uint32, []byte, bool)] *)
Definition readUint32 (data : list byte) : option (Z * list byte * bool) :=
  if len data <? 4 then Some (0, data, false)
  else
    v ← LittleEndian_Uint32 data;
    rest ← slice_from data 4;
    Some (v, rest, true).

(** [readBytesN(data, n) ([]byte, []byte, bool)] *)
Definition readBytesN (data : list byte) (n : Z)
  : option (option (list byte) * list byte * bool) :=
  if len data <? n then Some (None, data, false)
  else
    hd ← slice_to data n;
    tl ← slice_from data n;
    Some (Some hd, tl, true).

(** [readBytesNUL(data)]: the bytes before the first zero byte and the bytes
    after it. *)
Fixpoint readBytesNUL_from (i : nat) (data rest : list byte)
  : option (list byte) * list byte * bool :=
  match rest with
  | [] => (None, data, false)
  | b :: rest' =>
      if u8 b =? 0 then (Some (take i data), drop (S i) data, true)
      else readBytesNUL_from (S i) data rest'
  end.

Definition readBytesNUL (data : list byte)
  : option (list byte) * list byte * bool :=
  readBytesNUL_from 0 data data.

(** [readLenEncUint(data) (uint64, []byte, bool)] *)
Definition readLenEncUint (data : list byte) : option (Z * list byte * bool) :=
  if len data <? 1 then Some (0, data, false)
  else
    d0 ← index data 0;
    if u8 d0 <? 0xfb then
      rest ← slice_from data 1;
      Some (u8 d0, rest, true)
    else if u8 d0 =? 0xfc then
      if len data <? 3 then Some (0, data, false)
      else
        d2 ← index data 2; d1 ← index data 1;
        rest ← slice_from data 3;
        Some (Z.lor (u8 d2) (Z.shiftl (u8 d1) 8), rest, true)
    else if u8 d0 =? 0xfd then
      if len data <? 4 then Some (0, data, false)
      else
        d3 ← index data 3; d2 ← index data 2; d1 ← index data 1;
        rest ← slice_from data 4;
        Some (Z.lor (Z.lor (u8 d3) (Z.shiftl (u8 d2) 8)) (Z.shiftl (u8 d1) 16),
              rest, true)
    else if u8 d0 =? 0xfe then
      if len data <? 9 then Some (0, data, false)
      else
        tl ← slice_from data 1;
        v ← BigEndian_Uint64 tl;
        rest ← slice_from data 9;
        Some (v, rest, true)
    else
      Some (0, data, false).

(** ** Protocol constants

    The constants of the wire protocol are declared in a file that is not
    among the sources, so their values are parameters of the development.
    The field types that [parseExecParams] switches on are an enumeration;
    [fieldTypeName] is the table that tells which of them a type byte names
    ([None]: none of them).  Go rejects a switch with two equal constant
    cases, so a byte never names two of them.  [bufferSpare c n] is the
    spare capacity that a [bytes.Buffer] of capacity [c] has after it grew to
    hold [n] bytes; it belongs to the Go library. *)

Inductive fieldTypeConst : Type :=
  | fieldTypeDecimal | fieldTypeTiny | fieldTypeShort | fieldTypeLong
  | fieldTypeFloat | fieldTypeDouble | fieldTypeNULL | fieldTypeTimestamp
  | fieldTypeLongLong | fieldTypeInt24 | fieldTypeDate | fieldTypeTime
  | fieldTypeDateTime | fieldTypeYear | fieldTypeVarChar | fieldTypeBit
  | fieldTypeNewDecimal | fieldTypeEnum | fieldTypeSet | fieldTypeTinyBLOB
  | fieldTypeMediumBLOB | fieldTypeLongBLOB | fieldTypeBLOB
  | fieldTypeVarString | fieldTypeString | fieldTypeGeometry.

Class Consts : Type := {
  maxPacketSize : Z;
  comQuit : byte;
  comQuery : byte;
  comStmtPrepare : byte;
  comStmtExecute : byte;
  comStmtClose : byte;
  handshakeV9 : byte;
  handshakeV10 : byte;
  iOK : byte;
  iLocalInFile : byte;
  iEOF : byte;
  iERR : byte;
  clientConnectWithDB : Z;
  clientProtocol41 : Z;
  clientSecureConn : Z;
  clientPluginAuthLenEncClientData : Z;
  fieldTypeName : byte -> option fieldTypeConst;
  bufferSpare : nat -> nat -> nat
}.

(** ** Prepared statements and decoded parameters *)

Record Stmt := mkStmt {
  ID : Z;
  Query : string;
  NumParams : Z;
  types : option (list byte)
}.

(** The dynamic values stored in [params []interface{}].  Floats are kept as
    their IEEE-754 bit patterns; [Pbytes None] is a [[]byte] that is nil. *)
Inductive param : Type :=
  | Pnil
  | Puint64 (v : Z)
  | Pint64 (v : Z)
  | Pfloat32 (bits : Z)
  | Pfloat64 (bits : Z)
  | Pstring (s : string)
  | Pbytes (v : option (list byte)).

Section BinaryDecoders.

Local Open Scope string_scope.
Local Open Scope Z_scope.

(** [parseBinaryDate(pos, paramValues) (int, string)] *)
Definition parseBinaryDate (pos : Z) (paramValues : Slice) : option (Z * string) :=
  yb ← slice_cap paramValues pos (pos + 2);
  year ← LittleEndian_Uint16 yb;
  let pos := pos + 2 in
  month ← index (vis paramValues) pos;
  let pos := pos + 1 in
  day ← index (vis paramValues) pos;
  let pos := pos + 1 in
  Some (pos, fmt_0d 4 year +:+ "-" +:+ fmt_0d 2 (u8 month) +:+ "-" +:+ fmt_0d 2 (u8 day)).

(** [parseBinaryDateTimeReply(pos, paramValues) (int, string)] *)
Definition parseBinaryDateTimeReply (pos : Z) (paramValues : Slice)
  : option (Z * string) :=
  '(pos, date) ← parseBinaryDate pos paramValues;
  hour ← index (vis paramValues) pos;
  let pos := pos + 1 in
  minute ← index (vis paramValues) pos;
  let pos := pos + 1 in
  second ← index (vis paramValues) pos;
  let pos := pos + 1 in
  Some (pos, date +:+ " " +:+ fmt_0d 2 (u8 hour) +:+ ":" +:+ fmt_0d 2 (u8 minute)
                  +:+ ":" +:+ fmt_0d 2 (u8 second)).

(** [parseBinaryTimestamp(pos, paramValues) (int, string)] *)
Definition parseBinaryTimestamp (pos : Z) (paramValues : Slice)
  : option (Z * string) :=
  '(pos, dateTime) ← parseBinaryDateTimeReply pos paramValues;
  mb ← slice_cap paramValues pos (pos + 4);
  microSecond ← LittleEndian_Uint32 mb;
  let pos := pos + 4 in
  Some (pos, dateTime +:+ "." +:+ fmt_0d 6 microSecond).

(** [parseBinaryTime(pos, paramValues, isNegative) (int, string)] *)
Definition parseBinaryTime (pos : Z) (paramValues : Slice) (isNegative : Z)
  : option (Z * string) :=
  let sign := if isNegative =? 1 then "-" else "" in
  db ← slice_cap paramValues pos (pos + 4);
  days ← LittleEndian_Uint32 db;
  let pos := pos + 4 in
  hours ← index (vis paramValues) pos;
  let pos := pos + 1 in
  minutes ← index (vis paramValues) pos;
  let pos := pos + 1 in
  seconds ← index (vis paramValues) pos;
  let pos := pos + 1 in
  Some (pos, sign +:+ fmt_d days +:+ " " +:+ fmt_0d 2 (u8 hours) +:+ ":"
                  +:+ fmt_0d 2 (u8 minutes) +:+ ":" +:+ fmt_0d 2 (u8 seconds)).

(** [parseBinaryTimeWithMS(pos, paramValues, isNegative) (int, string)] *)
Definition parseBinaryTimeWithMS (pos : Z) (paramValues : Slice) (isNegative : Z)
  : option (Z * string) :=
  '(pos, dur) ← parseBinaryTime pos paramValues isNegative;
  mb ← slice_cap paramValues pos (pos + 4);
  microSecond ← LittleEndian_Uint32 mb;
  let pos := pos + 4 in
  Some (pos, dur +:+ "." +:+ fmt_0d 6 microSecond).

End BinaryDecoders.

(** ** parseExecParams *)

(** What one turn of the loop of [parseExecParams] does: it goes on to the
    next parameter with a new position and parameter vector, or it returns
    [nil, err]. *)
Inductive turn : Type :=
  | Next (pos : Z) (params : list param)
  | Return (err : error).

(** [make([]interface{}, n)]: panics when [n] is negative. *)
Definition make_params (n : Z) : option (list param) :=
  if n <? 0 then None else Some (replicate (Z.to_nat n) Pnil).

(** [params[i] = v] *)
Definition assign (params : list param) (i : Z) (v : param) : option (list param) :=
  if (0 <=? i) && (i <? len params) then Some (<[Z.to_nat i := v]> params) else None.

Section ParseExecParams.

Context {K : Consts}.
Local Open Scope string_scope.
Local Open Scope Z_scope.

Variables (nullBitmap paramTypes : list byte) (paramValues : Slice).

Definition malformed_values : option turn :=
  Some (Return (errors_New "malformed values")).

(** The body of the [for] loop, at parameter [i] and read position [pos]. *)
Definition decodeParam (i pos : Z) (params : list param) : option turn :=
  nb ← index nullBitmap (Z.shiftr i 3);
  if Z.land (u8 nb) (Z.shiftl 1 (i mod 8)) >? 0 then
    params ← assign params i Pnil;
    Some (Next pos params)
  else if Z.shiftl i 1 + 1 >=? len paramTypes then
    Some (Return (errors_New "malformed types"))
  else
    tp ← index paramTypes (Z.shiftl i 1);
    fl ← index paramTypes (Z.shiftl i 1 + 1);
    let unsigned := Z.land (u8 fl) 0x80 >? 0 in
    match fieldTypeName tp with
    | Some fieldTypeNULL =>
        params ← assign params i Pnil;
        Some (Next pos params)
    | Some fieldTypeTiny =>
        if len (vis paramValues) <? pos + 1 then malformed_values
        else
          b ← index (vis paramValues) pos;
          params ← assign params i
            (if unsigned then Puint64 (u8 b) else Pint64 (wrap_int8 (u8 b)));
          Some (Next (pos + 1) params)
    | Some fieldTypeShort | Some fieldTypeYear =>
        if len (vis paramValues) <? pos + 2 then malformed_values
        else
          bs ← slice_cap paramValues pos (pos + 2);
          val ← LittleEndian_Uint16 bs;
          params ← assign params i
            (if unsigned then Puint64 val else Pint64 (wrap_int16 val));
          Some (Next (pos + 2) params)
    | Some fieldTypeInt24 | Some fieldTypeLong =>
        if len (vis paramValues) <? pos + 4 then malformed_values
        else
          bs ← slice_cap paramValues pos (pos + 4);
          val ← LittleEndian_Uint32 bs;
          params ← assign params i
            (if unsigned then Puint64 val else Pint64 (wrap_int32 val));
          Some (Next (pos + 4) params)
    | Some fieldTypeLongLong =>
        if len (vis paramValues) <? pos + 8 then malformed_values
        else
          bs ← slice_cap paramValues pos (pos + 8);
          val ← LittleEndian_Uint64 bs;
          params ← assign params i
            (if unsigned then Puint64 val else Pint64 (wrap_int val));
          Some (Next (pos + 8) params)
    | Some fieldTypeFloat =>
        if len (vis paramValues) <? pos + 4 then malformed_values
        else
          bs ← slice_cap paramValues pos (pos + 4);
          val ← LittleEndian_Uint32 bs;
          params ← assign params i (Pfloat32 val);
          Some (Next (pos + 4) params)
    | Some fieldTypeDouble =>
        if len (vis paramValues) <? pos + 8 then malformed_values
        else
          bs ← slice_cap paramValues pos (pos + 8);
          val ← LittleEndian_Uint64 bs;
          params ← assign params i (Pfloat64 val);
          Some (Next (pos + 8) params)
    | Some fieldTypeDate | Some fieldTypeTimestamp | Some fieldTypeDateTime =>
        if len (vis paramValues) <? pos + 1 then malformed_values
        else
          length ← index (vis paramValues) pos;
          let pos := pos + 1 in
          if u8 length =? 0 then
            params ← assign params i (Pstring "0000-00-00 00:00:00");
            Some (Next pos params)
          else if u8 length =? 4 then
            '(pos, s) ← parseBinaryDate pos paramValues;
            params ← assign params i (Pstring s);
            Some (Next pos params)
          else if u8 length =? 7 then
            '(pos, s) ← parseBinaryDateTimeReply pos paramValues;
            params ← assign params i (Pstring s);
            Some (Next pos params)
          else if u8 length =? 11 then
            '(pos, s) ← parseBinaryTimestamp pos paramValues;
            params ← assign params i (Pstring s);
            Some (Next pos params)
          else malformed_values
    | Some fieldTypeTime =>
        if len (vis paramValues) <? pos + 1 then malformed_values
        else
          length ← index (vis paramValues) pos;
          let pos := pos + 1 in
          if u8 length =? 0 then
            Some (Next pos params)
          else if u8 length =? 8 then
            neg ← index (vis paramValues) pos;
            if u8 neg >? 1 then malformed_values
            else
              let pos := pos + 1 in
              neg ← index (vis paramValues) (pos - 1);
              '(pos, s) ← parseBinaryTime pos paramValues (u8 neg);
              params ← assign params i (Pstring s);
              Some (Next pos params)
          else if u8 length =? 12 then
            neg ← index (vis paramValues) pos;
            if u8 neg >? 1 then malformed_values
            else
              let pos := pos + 1 in
              neg ← index (vis paramValues) (pos - 1);
              '(pos, s) ← parseBinaryTimeWithMS pos paramValues (u8 neg);
              params ← assign params i (Pstring s);
              Some (Next pos params)
          else malformed_values
    | Some fieldTypeNewDecimal | Some fieldTypeDecimal | Some fieldTypeVarChar
    | Some fieldTypeVarString | Some fieldTypeString | Some fieldTypeEnum
    | Some fieldTypeSet | Some fieldTypeGeometry | Some fieldTypeBit =>
        if len (vis paramValues) <? pos + 1 then malformed_values
        else
          b ← slice_from (vis paramValues) pos;
          '(v, isNull, n, err) ← parseLengthEncodedBytes b;
          match err with
          | Some e => Some (Return e)
          | None =>
              let pos := pos + n in
              params ← assign params i
                (if isNull : bool then Pnil
                 else Pstring (string_of_bytes (default [] v)));
              Some (Next pos params)
          end
    | Some fieldTypeBLOB | Some fieldTypeTinyBLOB | Some fieldTypeMediumBLOB
    | Some fieldTypeLongBLOB =>
        if len (vis paramValues) <? pos + 1 then malformed_values
        else
          b ← slice_from (vis paramValues) pos;
          '(v, isNull, n, err) ← parseLengthEncodedBytes b;
          match err with
          | Some e => Some (Return e)
          | None =>
              let pos := pos + n in
              params ← assign params i (if isNull : bool then Pnil else Pbytes v);
              Some (Next pos params)
          end
    | None => Some (Return (errors_New "unknown field type"))
    end.

(** The loop [for i := 0; i < stmt.NumParams; i++], with [n] turns left. *)
Fixpoint paramsLoop (n : nat) (i pos : Z) (params : list param)
  : option (option (list param) * option error) :=
  match n with
  | O => Some (Some params, None)
  | S n' =>
      t ← decodeParam i pos params;
      match t with
      | Next pos params => paramsLoop n' (i + 1) pos params
      | Return err => Some (None, Some err)
      end
  end.

(** The function body before the deferred [recover]: [None] is a panic. *)
Definition parseExecParams_body (stmt : Stmt)
  : option (option (list param) * option error) :=
  params ← make_params (NumParams stmt);
  paramsLoop (Z.to_nat (NumParams stmt)) 0 0 params.

(** [parseExecParams(stmt, nullBitmap, paramTypes, paramValues)
    (params []interface{}, err error)]: the deferred function turns a panic
    of the body into [nil, errors.New("malformed packet")]. *)
Definition parseExecParams (stmt : Stmt) : option (list param) * option error :=
  match parseExecParams_body stmt with
  | Some r => r
  | None => (None, Some (errors_New "malformed packet"))
  end.

End ParseExecParams.

(** The values of the constants in the MySQL client/server protocol, used to
    run the definitions on concrete packets. *)
Definition mysql_fieldTypeName (b : byte) : option fieldTypeConst :=
  match u8 b with
  | 0x00 => Some fieldTypeDecimal | 0x01 => Some fieldTypeTiny
  | 0x02 => Some fieldTypeShort | 0x03 => Some fieldTypeLong
  | 0x04 => Some fieldTypeFloat | 0x05 => Some fieldTypeDouble
  | 0x06 => Some fieldTypeNULL | 0x07 => Some fieldTypeTimestamp
  | 0x08 => Some fieldTypeLongLong | 0x09 => Some fieldTypeInt24
  | 0x0a => Some fieldTypeDate | 0x0b => Some fieldTypeTime
  | 0x0c => Some fieldTypeDateTime | 0x0d => Some fieldTypeYear
  | 0x0f => Some fieldTypeVarChar | 0x10 => Some fieldTypeBit
  | 0xf6 => Some fieldTypeNewDecimal | 0xf7 => Some fieldTypeEnum
  | 0xf8 => Some fieldTypeSet | 0xf9 => Some fieldTypeTinyBLOB
  | 0xfa => Some fieldTypeMediumBLOB | 0xfb => Some fieldTypeLongBLOB
  | 0xfc => Some fieldTypeBLOB | 0xfd => Some fieldTypeVarString
  | 0xfe => Some fieldTypeString | 0xff => Some fieldTypeGeometry
  | _ => None
  end.

Definition mysql_consts : Consts := {|
  maxPacketSize := 2 ^ 24 - 1;
  comQuit := Byte.x01;
  comQuery := Byte.x03;
  comStmtPrepare := Byte.x16;
  comStmtExecute := Byte.x17;
  comStmtClose := Byte.x19;
  handshakeV9 := Byte.x09;
  handshakeV10 := Byte.x0a;
  iOK := Byte.x00;
  iLocalInFile := Byte.xfb;
  iEOF := Byte.xfe;
  iERR := Byte.xff;
  clientConnectWithDB := Z.shiftl 1 3;
  clientProtocol41 := Z.shiftl 1 9;
  clientSecureConn := Z.shiftl 1 15;
  clientPluginAuthLenEncClientData := Z.shiftl 1 21;
  fieldTypeName := mysql_fieldTypeName;
  bufferSpare := fun c n => (2 * c + n)%nat
|}.

(** ** The session state machine (stream/mysql.go) *)

(** The states of [util] that [StateName] switches on. *)
Inductive State : Type :=
  | StateInit | StateUnknown | StateComQuery | StateComQuery1 | StateComQuery2
  | StateComStmtExecute | StateComStmtExecute1 | StateComStmtExecute2
  | StateComStmtClose | StateComStmtPrepare0 | StateComStmtPrepare1
  | StateComQuit | StateHandshake0 | StateHandshake1 | StateSkipPacket.

#[global] Instance State_eq_dec : EqDecision State.
Proof. solve_decision. Defined.

Inductive TCPFlowDirection : Type := TCPDirClientToServer | TCPDirServerToClient.

#[global] Instance TCPFlowDirection_eq_dec : EqDecision TCPFlowDirection.
Proof. solve_decision. Defined.

(** Modelled from the spec: the frame type [MySQLPacket] is declared in a
    file that is not among the sources.  A frame has a sequence number, a
    direction, a capture timestamp ([Time], as Unix nanoseconds), payload
    bytes and the payload length of its header; these are the fields that
    mysql.go reads. *)
Record MySQLPacket := mkPacket {
  Seq : Z;
  Time : Z;
  Len : Z;
  Data : list byte;
  Dir : TCPFlowDirection
}.

(** [driver.Value]: the dynamic types a driver hands out, and [Vother] for a
    value of any other dynamic type. *)
Inductive Value : Type :=
  | Vnil
  | Vint64 (v : Z)
  | Vfloat64 (bits : Z)
  | Vbool (b : bool)
  | Vbytes (b : list byte)
  | Vstring (s : string)
  | Vtime (unixNano : Z)
  | Vother (tag : Z).

Record mysqlField := mkField {
  name : string;
  charSet : byte;
  length_ : Z;
  fieldType : byte;
  flags : Z;
  decimals : byte
}.

(** The result set behind [textRows] and [binaryRows] ([rows.rs]). *)
Record Rows := mkRows {
  columns : list mysqlField;
  columnValue : list (list Value);
  done : bool
}.

Record PacketRes := mkPacketRes {
  errNo : Z;
  errDesc : string;
  affectedRows : Z;
  insertId : Z;
  status : Z;
  parseTime : bool;
  packetnum : Z;
  sqlBeginTime : Z;
  sqlEndTime : Z;
  columnNum : Z;
  bRows : option Rows;
  tRows : option Rows;
  readColEnd : bool;
  ifReadColEndEofPacket : bool;
  ifReadResEnd : bool
}.

(** [new(PacketRes)] *)
Definition new_PacketRes : PacketRes :=
  mkPacketRes 0 "" 0 0 0 false 0 0 0 0 None None false false false.

(** [bytes.Buffer], never read from: its content, and the bytes of its array
    behind the content. *)
Record Buffer := mkBuffer { content : list byte; slack : list byte }.

Record MySQLFSM := mkFSM {
  changed : bool;
  state : State;
  query : string;
  stmt : Stmt;
  params : option (list param);
  schema : string;
  username : string;
  stmts : gmap Z Stmt;
  data : Buffer;
  packets : list MySQLPacket;
  start : Z;
  count : Z;
  pr : option PacketRes
}.

(** Field updates. *)
Definition set_columns v '(mkRows a b c) := mkRows v b c.
Definition set_columnValue v '(mkRows a b c) := mkRows a v c.
Definition set_done v '(mkRows a b c) := mkRows a b v.

Definition set_errNo v '(mkPacketRes a b c d e f g h i j k l m n o) :=
  mkPacketRes v b c d e f g h i j k l m n o.
Definition set_errDesc v '(mkPacketRes a b c d e f g h i j k l m n o) :=
  mkPacketRes a v c d e f g h i j k l m n o.
Definition set_affectedRows v '(mkPacketRes a b c d e f g h i j k l m n o) :=
  mkPacketRes a b v d e f g h i j k l m n o.
Definition set_insertId v '(mkPacketRes a b c d e f g h i j k l m n o) :=
  mkPacketRes a b c v e f g h i j k l m n o.
Definition set_status v '(mkPacketRes a b c d e f g h i j k l m n o) :=
  mkPacketRes a b c d v f g h i j k l m n o.
Definition set_packetnum v '(mkPacketRes a b c d e f g h i j k l m n o) :=
  mkPacketRes a b c d e f v h i j k l m n o.
Definition set_sqlBeginTime v '(mkPacketRes a b c d e f g h i j k l m n o) :=
  mkPacketRes a b c d e f g v i j k l m n o.
Definition set_sqlEndTime v '(mkPacketRes a b c d e f g h i j k l m n o) :=
  mkPacketRes a b c d e f g h v j k l m n o.
Definition set_columnNum v '(mkPacketRes a b c d e f g h i j k l m n o) :=
  mkPacketRes a b c d e f g h i v k l m n o.
Definition set_bRows v '(mkPacketRes a b c d e f g h i j k l m n o) :=
  mkPacketRes a b c d e f g h i j v l m n o.
Definition set_tRows v '(mkPacketRes a b c d e f g h i j k l m n o) :=
  mkPacketRes a b c d e f g h i j k v m n o.
Definition set_readColEnd v '(mkPacketRes a b c d e f g h i j k l m n o) :=
  mkPacketRes a b c d e f g h i j k l v n o.
Definition set_ifReadColEndEofPacket v '(mkPacketRes a b c d e f g h i j k l m n o) :=
  mkPacketRes a b c d e f g h i j k l m v o.
Definition set_ifReadResEnd v '(mkPacketRes a b c d e f g h i j k l m n o) :=
  mkPacketRes a b c d e f g h i j k l m n v.

Definition set_changed v '(mkFSM a b c d e f g h i j k l m) :=
  mkFSM v b c d e f g h i j k l m.
Definition set_state v '(mkFSM a b c d e f g h i j k l m) :=
  mkFSM a v c d e f g h i j k l m.
Definition set_query v '(mkFSM a b c d e f g h i j k l m) :=
  mkFSM a b v d e f g h i j k l m.
Definition set_stmt v '(mkFSM a b c d e f g h i j k l m) :=
  mkFSM a b c v e f g h i j k l m.
Definition set_params v '(mkFSM a b c d e f g h i j k l m) :=
  mkFSM a b c d v f g h i j k l m.
Definition set_schema v '(mkFSM a b c d e f g h i j k l m) :=
  mkFSM a b c d e v g h i j k l m.
Definition set_username v '(mkFSM a b c d e f g h i j k l m) :=
  mkFSM a b c d e f v h i j k l m.
Definition set_stmts v '(mkFSM a b c d e f g h i j k l m) :=
  mkFSM a b c d e f g v i j k l m.
Definition set_data v '(mkFSM a b c d e f g h i j k l m) :=
  mkFSM a b c d e f g h v j k l m.
Definition set_packets v '(mkFSM a b c d e f g h i j k l m) :=
  mkFSM a b c d e f g h i v k l m.
Definition set_start v '(mkFSM a b c d e f g h i j k l m) :=
  mkFSM a b c d e f g h i j v l m.
Definition set_count v '(mkFSM a b c d e f g h i j k l m) :=
  mkFSM a b c d e f g h i j k v m.
Definition set_pr v '(mkFSM a b c d e f g h i j k l m) :=
  mkFSM a b c d e f g h i j k l v.

(** *** Methods: a state monad with an abrupt end.

    A method runs on the object it is called on and either returns a value
    or ends abruptly ([None]: a panic); in both cases the fields it has
    written stay written. *)

Definition StateM (S A : Type) : Type := S -> option A * S.

Definition ret {S A} (a : A) : StateM S A := fun s => (Some a, s).

Definition bind {S A B} (m : StateM S A) (k : A -> StateM S B) : StateM S B :=
  fun s =>
    match m s with
    | (Some a, s') => k a s'
    | (None, s') => (None, s')
    end.

Definition panic {S A} : StateM S A := fun s => (None, s).

(** Runs a computation that can only panic. *)
Definition lift {S A} (o : option A) : StateM S A :=
  fun s => (o, s).

Definition get {S A} (f : S -> A) : StateM S A := fun s => (Some (f s), s).

Definition modify {S} (f : S -> S) : StateM S unit := fun s => (Some tt, f s).

Declare Scope go_scope.
Delimit Scope go_scope with go.
Bind Scope go_scope with StateM.

Notation "x <- m ;; k" := (bind m (fun x => k))
  (at level 100, m at next level, right associativity) : go_scope.
Notation "m ;; k" := (bind m (fun _ => k))
  (at level 100, right associativity) : go_scope.

(** The methods of [*MySQLFSM]. *)
Abbreviation M := (StateM MySQLFSM).

Local Open Scope go_scope.

(** [fsm.pr.f]: a nil [fsm.pr] panics. *)
Definition get_pr {A} (f : PacketRes -> A) : M A :=
  fun fsm =>
    match pr fsm with
    | Some r => (Some (f r), fsm)
    | None => (None, fsm)
    end.

(** [fsm.pr.f = v] *)
Definition modify_pr (f : PacketRes -> PacketRes) : M unit :=
  fun fsm =>
    match pr fsm with
    | Some r => (Some tt, set_pr (Some (f r)) fsm)
    | None => (None, fsm)
    end.

(** The decoders of package stream that the result-set reader calls and that
    are defined in files that are not among the sources.  They are
    parameters: the length-encoded integer and string readers on a byte
    slice ([None]: a panic), and the [Next] methods of [textRows] and
    [binaryRows], which read one row through the machine they point to and
    give back the row's values and an error. *)
Class Readers : Type := {
  readLengthEncodedInteger : list byte -> option (Z * bool * Z);
  skipLengthEncodedString : list byte -> option (Z * option error);
  readLengthEncodedString :
    list byte -> option (option (list byte) * bool * Z * option error);
  textRows_Next : M (list Value * option error);
  binaryRows_Next : M (list Value * option error)
}.

Section FSM.

Context {K : Consts} {R : Readers}.
Local Open Scope string_scope.
Local Open Scope Z_scope.

(** *** bytes.Buffer *)

Definition Buffer_Reset (b : Buffer) : Buffer :=
  mkBuffer [] (content b ++ slack b).

Definition Buffer_Write (p : list byte) (b : Buffer) : Buffer :=
  if (length p <=? length (slack b))%nat then
    mkBuffer (content b ++ p) (drop (length p) (slack b))
  else
    mkBuffer (content b ++ p)
      (replicate (bufferSpare (length (content b) + length (slack b))
                              (length (content b) + length p)) Byte.x00).

Definition Buffer_Bytes (b : Buffer) : Slice := mkSlice (content b) (slack b).

Definition Buffer_Len (b : Buffer) : Z := len (content b).

(** [fsm.data.Bytes()] *)
Definition data_Bytes : M (list byte) := get (fun fsm => content (data fsm)).

(** *** State changes *)

(** [fsm.setStatusWithNoChange(to)] *)
Definition setStatusWithNoChange (to : State) : M unit :=
  modify (set_state to).

(** [fsm.set(to, msg...)] *)
Definition set (to : State) : M unit :=
  from <- get state;;
  modify (set_state to);;
  modify (set_changed (bool_decide (from <> to))).

(** [fsm.Ready()] *)
Definition Ready (fsm : MySQLFSM) : bool :=
  let n := len (packets fsm) in
  (n >? 0) &&
  match index (packets fsm) (n - 1) with
  | Some p => Len p <? maxPacketSize
  | None => false
  end.

(** [fsm.InitValue()] *)
Definition InitValue : M unit :=
  set StateInit;;
  let r := new_PacketRes in
  let r := set_readColEnd false r in
  let r := set_packetnum 0 r in
  let r := set_columnNum 0 r in
  let r := set_sqlBeginTime 0 r in
  let r := set_sqlEndTime 0 r in
  let r := set_bRows None r in
  let r := set_tRows None r in
  let r := set_ifReadColEndEofPacket false r in
  let r := set_ifReadResEnd false r in
  modify (set_pr (Some r));;
  modify (set_packets []).

(** [fsm.nextSeq()] *)
Definition nextSeq (fsm : MySQLFSM) : Z :=
  let n := len (packets fsm) in
  if n =? 0 then 0
  else
    match index (packets fsm) (n - 1) with
    | Some p => wrap_uint8 (Seq p + 1)
    | None => 0
    end.

(** *** load *)

(** The inner loop of [load]: from [j], whose frames onwards are [ps], skip
    the frames whose [Len] is [maxPacketSize]. *)
Fixpoint skipMax (ps : list MySQLPacket) (j : nat) : nat :=
  match ps with
  | [] => j
  | p :: ps' => if Len p =? maxPacketSize then skipMax ps' (S j) else j
  end.

(** The loop [for k <= j] of [load]: writes the payloads of frames [k..j]. *)
Definition writeFrames (ps : list MySQLPacket) (k j : nat) (b : Buffer) : Buffer :=
  foldl (fun b p => Buffer_Write (Data p) b) b (take (S j - k) (drop k ps)).

(** The outer loop of [load], at [i], with [fuel] turns left ([i] grows in
    every turn, so [length (packets fsm)] turns are enough). *)
Fixpoint loadLoop (fuel : nat) (i : nat) (k : Z) (fsm : MySQLFSM) : bool * MySQLFSM :=
  match fuel with
  | O => (false, fsm)
  | S fuel' =>
      if (i <? length (packets fsm))%nat then
        let j := skipMax (drop i (packets fsm)) i in
        if (j =? length (packets fsm))%nat then (false, fsm)
        else if Z.of_nat i =? k then
          let b := writeFrames (packets fsm) i j (Buffer_Reset (data fsm)) in
          (true, set_count (Z.of_nat j - Z.of_nat i + 1)
                   (set_start (Z.of_nat i) (set_data b fsm)))
        else loadLoop fuel' (S j) k fsm
      else (false, fsm)
  end.

(** [fsm.load(k)] *)
Definition load (k : Z) : M bool :=
  fun fsm =>
    let '(r, fsm') := loadLoop (length (packets fsm)) 0 k fsm in
    (Some r, fsm').

(** *** Classification of a command *)

(** [fsm.assertDir(exp)] *)
Definition assertDir (exp : TCPFlowDirection) : M bool :=
  st <- get start;;
  ps <- get packets;;
  if st <? len ps then
    p <- lift (index ps st);;
    ret (bool_decide (Dir p = exp))
  else ret false.

(** [fsm.assertDataByte(offset, exp)] *)
Definition assertDataByte (offset : Z) (exp : byte) : M bool :=
  d <- data_Bytes;;
  if len d <=? offset then ret false
  else
    b <- lift (index d offset);;
    ret (u8 b =? u8 exp).

(** [fsm.isClientCommand(cmd)] *)
Definition isClientCommand (cmd : byte) : M bool :=
  ok <- assertDir TCPDirClientToServer;;
  if negb ok then ret false else assertDataByte 0 cmd.

(** [fsm.isHandshakeRequest()] *)
Definition isHandshakeRequest : M bool :=
  ok <- assertDir TCPDirServerToClient;;
  if negb ok then ret false
  else
    d <- data_Bytes;;
    if len d <? 6 then ret false
    else
      d0 <- lift (index d 0);;
      ret ((u8 d0 =? u8 handshakeV9) || (u8 d0 =? u8 handshakeV10)).

(** [fsm.handleComQueryNoLoad()] *)
Definition handleComQueryNoLoad : M unit :=
  d <- data_Bytes;;
  q <- lift (slice_from d 1);;
  modify (set_query (string_of_bytes q));;
  set StateComQuery.

(** The argument [string(data[:n])] of the warnings, with [n] the smaller of
    [m] and [len(data)]. *)
Definition log_prefix (data : list byte) (m : Z) : M unit :=
  let n := if len data <? m then len data else m in
  _ <- lift (slice_to data n);;
  ret tt.

(** The zero value of [Stmt]. *)
Definition Stmt_zero : Stmt := mkStmt 0 "" 0 None.

(** [fsm.handleComStmtExecuteNoLoad()] *)
Definition handleComStmtExecuteNoLoad : M unit :=
  d <- data_Bytes;;
  sp <- get (fun fsm => slack (data fsm));;
  data <- lift (slice_from d 1);;
  r <- lift (readUint32 data);;
  let '(id, data, ok) := r in
  if negb ok then
    set StateUnknown;;
    log_prefix data 4
  else
    sts <- get stmts;;
    match sts !! id with
    | None => set StateUnknown
    | Some stmt =>
        r <- lift (readBytesN data 5);;
        let '(_, data, ok) := r in
        if negb ok then
          set StateUnknown;;
          log_prefix data 5
        else
          let finish (stmt : Stmt) (params : option (list param)) : M unit :=
            modify (set_stmt stmt);;
            modify (set_params params);;
            set StateComStmtExecute in
          if NumParams stmt >? 0 then
            r <- lift (readBytesN data (Z.shiftr (NumParams stmt + 7) 3));;
            let '(nullBitmaps, data, ok) := r in
            if negb ok then
              set StateUnknown;;
              log_prefix data (NumParams stmt + Z.shiftr 7 3)
            else if len data <? 1 + 2 * NumParams stmt then
              set StateUnknown
            else
              let parse (stmt : Stmt) (paramTypes paramValues : list byte) : M unit :=
                let '(params, err) :=
                  parseExecParams (default [] nullBitmaps) paramTypes
                                  (mkSlice paramValues sp) stmt in
                match err with
                | Some _ => set StateUnknown
                | None => finish stmt params
                end in
              d0 <- lift (index data 0);;
              if u8 d0 =? 1 then
                paramTypes <- lift (slice data 1 (1 + Z.shiftl (NumParams stmt) 1));;
                paramValues <- lift (slice_from data (1 + Z.shiftl (NumParams stmt) 1));;
                let stmt := mkStmt (ID stmt) (Query stmt) (NumParams stmt)
                                   (Some paramTypes) in
                modify (fun fsm => set_stmts (<[id := stmt]> (stmts fsm)) fsm);;
                parse stmt paramTypes paramValues
              else
                match types stmt with
                | None => set StateUnknown
                | Some paramTypes =>
                    paramValues <- lift (slice_from data 1);;
                    parse stmt paramTypes paramValues
                end
          else finish stmt None
    end.

(** [fsm.handleComStmtCloseNoLoad()] *)
Definition handleComStmtCloseNoLoad : M unit :=
  d <- data_Bytes;;
  tl <- lift (slice_from d 1);;
  r <- lift (readUint32 tl);;
  let '(stmtID, _, ok) := r in
  if negb ok then
    set StateUnknown;;
    log_prefix tl 4
  else
    modify (fun fsm => set_stmt (default Stmt_zero (stmts fsm !! stmtID)) fsm);;
    modify (fun fsm => set_stmts (delete stmtID (stmts fsm)) fsm);;
    set StateComStmtClose.

(** [fsm.handleComStmtPrepareRequestNoLoad()] *)
Definition handleComStmtPrepareRequestNoLoad : M unit :=
  d <- data_Bytes;;
  q <- lift (slice_from d 1);;
  modify (set_stmt (mkStmt 0 (string_of_bytes q) 0 None));;
  set StateComStmtPrepare0.

(** [fsm.handleInitPacket()] *)
Definition handleInitPacket : M unit :=
  ok <- load 0;;
  if negb ok then set StateUnknown
  else
    c <- isClientCommand comQuery;;
    if c then handleComQueryNoLoad
    else
    c <- isClientCommand comStmtExecute;;
    if c then handleComStmtExecuteNoLoad
    else
    c <- isClientCommand comStmtPrepare;;
    if c then handleComStmtPrepareRequestNoLoad
    else
    c <- isClientCommand comStmtClose;;
    if c then handleComStmtCloseNoLoad
    else
    c <- isClientCommand comQuit;;
    if c then set StateComQuit
    else
    c <- isHandshakeRequest;;
    if c then set StateHandshake0
    else
      dir <- assertDir TCPDirClientToServer;;
      n <- get (fun fsm => Buffer_Len (data fsm));;
      if dir && (n >? 0) then
        d <- data_Bytes;;
        _ <- lift (index d 0);;
        set StateUnknown
      else
        set StateUnknown;;
        d <- data_Bytes;;
        _ <- lift (index d 0);;
        ret tt.

(** [fsm.handleComStmtPrepareResponse()] *)
Definition handleComStmtPrepareResponse : M unit :=
  ok <- load 1;;
  if negb ok then set StateUnknown
  else
    ok <- assertDir TCPDirServerToClient;;
    if negb ok then set StateUnknown
    else
      ok <- assertDataByte 0 Byte.x00;;
      if negb ok then set StateUnknown
      else
        d <- data_Bytes;;
        data <- lift (slice_from d 1);;
        r <- lift (readUint32 data);;
        let '(stmtID, data, ok) := r in
        if negb ok then
          set StateUnknown;;
          log_prefix data 4
        else
          r <- lift (readUint16 data);;
          let '(_, data, ok) := r in
          if negb ok then
            set StateUnknown;;
            log_prefix data 2
          else
            r <- lift (readUint16 data);;
            let '(numParams, _, ok) := r in
            if negb ok then
              set StateUnknown;;
              log_prefix data 2
            else
              modify (fun fsm =>
                set_stmt (mkStmt stmtID (Query (stmt fsm)) numParams
                                 (types (stmt fsm))) fsm);;
              modify (fun fsm => set_stmts (<[stmtID := stmt fsm]> (stmts fsm)) fsm);;
              set StateComStmtPrepare1.

(** [fsm.handleHandshakeResponse()] *)
Definition handleHandshakeResponse : M unit :=
  ok <- load 1;;
  if negb ok then set StateUnknown
  else
  ok <- assertDir TCPDirClientToServer;;
  if negb ok then set StateUnknown
  else
  data <- data_Bytes;;
  r <- lift (readBytesN data 2);;
  let '(bs, data, ok) := r in
  if negb ok then
    set StateUnknown;;
    log_prefix data 2
  else
  b0 <- lift (index (default [] bs) 0);;
  b1 <- lift (index (default [] bs) 1);;
  let flags := Z.lor (Z.lor 0 (u8 b0)) (Z.shiftl (u8 b1) 8) in
  let readDB (flags : Z) (data : list byte) : M unit :=
    if Z.land flags clientConnectWithDB >? 0 then
      let '(db, data, ok) := readBytesNUL data in
      if negb ok then set StateUnknown
      else
        modify (set_schema (string_of_bytes (default [] db)));;
        set StateHandshake1
    else set StateHandshake1 in
  if Z.land flags clientProtocol41 >? 0 then
    r <- lift (readBytesN data 2);;
    let '(bs, data, ok) := r in
    if negb ok then
      set StateUnknown;;
      log_prefix data 2
    else
    b0 <- lift (index (default [] bs) 0);;
    b1 <- lift (index (default [] bs) 1);;
    let flags := Z.lor (Z.lor flags (Z.shiftl (u8 b0) 16)) (Z.shiftl (u8 b1) 24) in
    r <- lift (readBytesN data 28);;
    let '(_, data, ok) := r in
    if negb ok then set StateUnknown
    else
    let '(username, data, ok) := readBytesNUL data in
    if negb ok then set StateUnknown
    else
    modify (set_username (string_of_bytes (default [] username)));;
    if Z.land flags clientPluginAuthLenEncClientData >? 0 then
      r <- lift (readLenEncUint data);;
      let '(n, data, ok) := r in
      if negb ok then set StateUnknown
      else
      r <- lift (readBytesN data (wrap_int n));;
      let '(_, data, ok) := r in
      if negb ok then set StateUnknown
      else readDB flags data
    else if Z.land flags clientSecureConn >? 0 then
      r <- lift (readBytesN data 1);;
      let '(n, data, ok) := r in
      if negb ok then set StateUnknown
      else
      n0 <- lift (index (default [] n) 0);;
      r <- lift (readBytesN data (u8 n0));;
      let '(_, data, ok) := r in
      if negb ok then set StateUnknown
      else readDB flags data
    else
      let '(_, data, ok) := readBytesNUL data in
      if negb ok then set StateUnknown
      else readDB flags data
  else
    r <- lift (readBytesN data 3);;
    let '(_, data, ok) := r in
    if negb ok then set StateUnknown
    else
    let '(username, data, ok) := readBytesNUL data in
    if negb ok then set StateUnknown
    else
    modify (set_username (string_of_bytes (default [] username)));;
    if Z.land flags clientConnectWithDB >? 0 then
      let '(_, data, ok) := readBytesNUL data in
      if negb ok then set StateUnknown
      else
      let '(db, data, ok) := readBytesNUL data in
      if negb ok then set StateUnknown
      else
        modify (set_schema (string_of_bytes (default [] db)));;
        set StateHandshake1
    else set StateHandshake1.

(** *** Reading a result set *)

(** [fsm.handleOkPacket(data)] *)
Definition handleOkPacket (data : Slice) : M (option error) :=
  d <- lift (slice_from (vis data) 1);;
  r <- lift (readLengthEncodedInteger d);;
  let '(num, _, n) := r in
  modify_pr (set_affectedRows num);;
  d <- lift (slice_from (vis data) (1 + n));;
  r <- lift (readLengthEncodedInteger d);;
  let '(num, _, m) := r in
  modify_pr (set_insertId num);;
  b <- lift (slice_cap data (1 + n + m) (1 + n + m + 2));;
  b0 <- lift (index b 0);;
  b1 <- lift (index b 1);;
  modify_pr (set_status (Z.lor (u8 b0) (Z.shiftl (u8 b1) 8)));;
  ret None.

(** [fsm.handleErrorPacket(data)] *)
Definition handleErrorPacket (data : Slice) : option error :=
  d0 ← index (vis data) 0;
  if negb (u8 d0 =? u8 iERR) then Some ErrMalformPkt
  else
    eb ← slice_cap data 1 3;
    errno ← LittleEndian_Uint16 eb;
    d3 ← index (vis data) 3;
    let pos := if u8 d3 =? 0x23 then 9 else 3 in
    msg ← slice_from (vis data) pos;
    Some (StreamMySQLError errno (string_of_bytes msg)).

(** [fsm.readResultSetHeaderPacket() (int, error)] *)
Definition readResultSetHeaderPacket : M (Z * option error) :=
  modify_pr (set_packetnum 1);;
  k <- get_pr packetnum;;
  res <- load k;;
  if negb res then ret (0, Some ErrLoadBuffer)
  else
    modify_pr (fun r => set_packetnum (packetnum r + 1) r);;
    data <- get (fun fsm => Buffer_Bytes (data fsm));;
    d0 <- lift (index (vis data) 0);;
    if u8 d0 =? u8 iOK then
      e <- handleOkPacket data;;
      ret (0, e)
    else if u8 d0 =? u8 iERR then
      e <- lift (handleErrorPacket data);;
      ret (0, Some e)
    else if u8 d0 =? u8 iLocalInFile then
      ret (0, None)
    else
      r <- lift (parseLengthEncodedInt (vis data));;
      let '(num, _, n) := r in
      if n - len (vis data) =? 0 then ret (wrap_int num, None)
      else ret (0, Some ErrMalformPkt).

(** The zero value of [mysqlField]. *)
Definition mysqlField_zero : mysqlField :=
  mkField "" Byte.x00 0 Byte.x00 0 Byte.x00.

(** [columns[0] = f], after [columns := make([]mysqlField, count)]. *)
Definition set_column0 (columns : list mysqlField) (f : mysqlField)
  : option (list mysqlField) :=
  match columns with
  | [] => None
  | _ :: tl => Some (f :: tl)
  end.

(** [fsm.readColumns(count) ([]mysqlField, error)] *)
Definition readColumns (count : Z) : M (option (list mysqlField) * option error) :=
  k <- get_pr packetnum;;
  res <- load k;;
  if negb res then ret (None, Some ErrLoadBuffer)
  else
    modify_pr (fun r => set_packetnum (packetnum r + 1) r);;
    data <- get (fun fsm => Buffer_Bytes (data fsm));;
    d0 <- lift (index (vis data) 0);;
    if (u8 d0 =? u8 iEOF) && ((len (vis data) =? 5) || (len (vis data) =? 1)) then
      ret (None, Some (errors_New
             ("column count mismatch n:" +:+ fmt_d count +:+ " len:0")))
    else
      columns <- lift (if count <? 0 then None
                       else Some (replicate (Z.to_nat count) mysqlField_zero));;
      (* Catalog *)
      r <- lift (skipLengthEncodedString (vis data));;
      let '(pos, err) := r in
      match err with Some e => ret (None, Some e) | None =>
      (* Database *)
      d <- lift (slice_from (vis data) pos);;
      r <- lift (skipLengthEncodedString d);;
      let '(n, err) := r in
      match err with Some e => ret (None, Some e) | None =>
      let pos := pos + n in
      (* Table *)
      d <- lift (slice_from (vis data) pos);;
      r <- lift (skipLengthEncodedString d);;
      let '(n, err) := r in
      match err with Some e => ret (None, Some e) | None =>
      let pos := pos + n in
      (* Original table *)
      d <- lift (slice_from (vis data) pos);;
      r <- lift (skipLengthEncodedString d);;
      let '(n, err) := r in
      match err with Some e => ret (None, Some e) | None =>
      let pos := pos + n in
      (* Name *)
      d <- lift (slice_from (vis data) pos);;
      r <- lift (readLengthEncodedString d);;
      let '(nm, _, n, err) := r in
      match err with Some e => ret (None, Some e) | None =>
      c0 <- lift (index columns 0);;
      let f_name := string_of_bytes (default [] nm) in
      let pos := pos + n in
      (* Original name *)
      d <- lift (slice_from (vis data) pos);;
      r <- lift (skipLengthEncodedString d);;
      let '(n, err) := r in
      match err with Some e => ret (None, Some e) | None =>
      let pos := pos + n in
      (* Filler *)
      let pos := pos + 1 in
      (* Charset *)
      f_charSet <- lift (index (vis data) pos);;
      let pos := pos + 2 in
      (* Length *)
      b <- lift (slice_cap data pos (pos + 4));;
      f_length <- lift (LittleEndian_Uint32 b);;
      let pos := pos + 4 in
      (* Field type *)
      f_fieldType <- lift (index (vis data) pos);;
      let pos := pos + 1 in
      (* Flags *)
      b <- lift (slice_cap data pos (pos + 2));;
      f_flags <- lift (LittleEndian_Uint16 b);;
      let pos := pos + 2 in
      (* Decimals *)
      f_decimals <- lift (index (vis data) pos);;
      columns <- lift (set_column0 columns
        (mkField f_name f_charSet f_length f_fieldType f_flags f_decimals));;
      ret (Some columns, None)
      end end end end end end.

(** [rows.rs.columnValue = append(rows.rs.columnValue, values)] and the like,
    on the rows that a field of [fsm.pr] points to. *)
Definition modify_tRows (f : Rows -> Rows) : M unit :=
  modify_pr (fun r => set_tRows (f <$> tRows r) r).

Definition modify_bRows (f : Rows -> Rows) : M unit :=
  modify_pr (fun r => set_bRows (f <$> bRows r) r).

(** [fsm.handleReadSQLResult()] *)
Definition handleReadSQLResult : M (option error) :=
  cn <- get_pr columnNum;;
  if cn =? 0 then
    r <- readResultSetHeaderPacket;;
    let '(cn, err) := r in
    modify_pr (set_columnNum cn);;
    match err with
    | Some e =>
        modify_pr (set_ifReadResEnd true);;
        match e with
        | StreamMySQLError n msg =>
            modify_pr (set_errNo n);;
            modify_pr (set_errDesc msg)
        | _ =>
            modify_pr (set_errNo 20000);;
            modify_pr (set_errDesc "exec sql fail and coverted to mysql errorstruct err")
        end;;
        ret (Some e)
    | None =>
        (if cn =? 0 then modify_pr (set_ifReadResEnd true) else ret tt);;
        ret None
    end
  else if cn >? 0 then
    t <- get_pr tRows;;
    match t with
    | None => modify_pr (set_tRows (Some (mkRows [] [] false)))
    | Some _ => ret tt
    end;;
    rce <- get_pr readColEnd;;
    if negb rce then
      r <- readColumns 1;;
      let '(cols, err) := r in
      match err with
      | Some e => ret (Some e)
      | None =>
          modify_tRows (fun rw => set_columns (columns rw ++ default [] cols) rw);;
          rows <- get_pr tRows;;
          cn <- get_pr columnNum;;
          (if len (default [] (columns <$> rows)) =? cn
           then modify_pr (set_readColEnd true) else ret tt);;
          ret None
      end
    else
      k <- get_pr packetnum;;
      res <- load k;;
      d <- data_Bytes;;
      eofSeen <- get_pr ifReadColEndEofPacket;;
      isEOF <- (if res : bool then
                  d0 <- lift (index d 0);;
                  ret ((u8 d0 =? u8 iEOF) && negb eofSeen)
                else ret false);;
      if isEOF : bool then
        modify_pr (fun r => set_packetnum (packetnum r + 1) r);;
        modify_pr (set_ifReadColEndEofPacket true);;
        ret None
      else
        rows <- get_pr tRows;;
        cn <- get_pr columnNum;;
        if (cn =? len (default [] (columns <$> rows)))
           && negb (default false (done <$> rows)) then
          r <- textRows_Next;;
          let '(values, err) := r in
          match err with
          | None =>
              modify_tRows (fun rw => set_columnValue (columnValue rw ++ [values]) rw);;
              ret None
          | Some io_EOF => ret None
          | Some e => ret (Some e)
          end
        else ret None
  else ret None.

(** [fsm.handleReadPrepareExecResult()] *)
Definition handleReadPrepareExecResult : M (option error) :=
  cn <- get_pr columnNum;;
  if cn =? 0 then
    r <- readResultSetHeaderPacket;;
    let '(cn, err) := r in
    modify_pr (set_columnNum cn);;
    match err with
    | Some e =>
        modify_pr (set_ifReadResEnd true);;
        match e with
        | MySQLError n msg =>
            modify_pr (set_errNo n);;
            modify_pr (set_errDesc msg)
        | _ =>
            modify_pr (set_errNo 20000);;
            modify_pr (set_errDesc "exec sql fail and coverted to mysql errorstruct err")
        end;;
        ret (Some e)
    | None =>
        (if cn =? 0 then modify_pr (set_ifReadResEnd true) else ret tt);;
        ret None
    end
  else if cn >? 0 then
    t <- get_pr bRows;;
    match t with
    | None => modify_pr (set_bRows (Some (mkRows [] [] false)))
    | Some _ => ret tt
    end;;
    rce <- get_pr readColEnd;;
    if negb rce then
      r <- readColumns 1;;
      let '(cols, err) := r in
      match err with
      | Some e =>
          modify_pr (set_readColEnd true);;
          ret (Some e)
      | None =>
          modify_bRows (fun rw => set_columns (columns rw ++ default [] cols) rw);;
          rows <- get_pr bRows;;
          cn <- get_pr columnNum;;
          (if len (default [] (columns <$> rows)) =? cn
           then modify_pr (set_readColEnd true) else ret tt);;
          ret None
      end
    else
      k <- get_pr packetnum;;
      res <- load k;;
      d <- data_Bytes;;
      eofSeen <- get_pr ifReadColEndEofPacket;;
      isEOF <- (if res : bool then
                  d0 <- lift (index d 0);;
                  ret ((u8 d0 =? u8 iEOF) && negb eofSeen)
                else ret false);;
      if isEOF : bool then
        modify_pr (fun r => set_packetnum (packetnum r + 1) r);;
        modify_pr (set_ifReadColEndEofPacket true);;
        ret None
      else
        rows <- get_pr bRows;;
        cn <- get_pr columnNum;;
        if (cn =? len (default [] (columns <$> rows)))
           && negb (default false (done <$> rows)) then
          r <- binaryRows_Next;;
          let '(values, err) := r in
          match err with
          | None =>
              modify_bRows (fun rw => set_columnValue (columnValue rw ++ [values]) rw);;
              ret None
          | Some io_EOF => ret None
          | Some e =>
              k <- get_pr packetnum;;
              _ <- load (k - 1);;
              modify_bRows (set_done true);;
              ret (Some e)
          end
        else ret None
  else ret None.

(** *** Handle *)

(** The second half of [Handle], which runs once the frame is in the buffer:
    the command is taken further when it is ready. *)
Definition Handle_ready (pkt : MySQLPacket) : M unit :=
  rdy <- get Ready;;
  if negb rdy then ret tt
  else
    st <- get state;;
    if bool_decide (st = StateInit) then handleInitPacket
    else if bool_decide (st = StateComStmtPrepare0) then handleComStmtPrepareResponse
    else if bool_decide (st = StateHandshake0) then handleHandshakeResponse
    else if bool_decide (st = StateComQuery) || bool_decide (st = StateComQuery1) then
      (if bool_decide (st = StateComQuery)
       then setStatusWithNoChange StateComQuery1 else ret tt);;
      err <- handleReadSQLResult;;
      match err with
      | Some _ => modify_pr (set_ifReadResEnd true)
      | None => ret tt
      end;;
      t <- get_pr tRows;;
      match t with
      | Some rw => if done rw then modify_pr (set_ifReadResEnd true) else ret tt
      | None => ret tt
      end;;
      e <- get_pr ifReadResEnd;;
      if e : bool then
        set StateComQuery2;;
        modify_pr (set_sqlEndTime (wrap_uint64 (Time pkt)))
      else ret tt
    else if bool_decide (st = StateComStmtExecute)
            || bool_decide (st = StateComStmtExecute1) then
      (if bool_decide (st = StateComStmtExecute)
       then setStatusWithNoChange StateComStmtExecute1 else ret tt);;
      err <- handleReadPrepareExecResult;;
      match err with
      | Some _ => modify_pr (set_ifReadResEnd true)
      | None => ret tt
      end;;
      t <- get_pr bRows;;
      match t with
      | Some rw => if done rw then modify_pr (set_ifReadResEnd true) else ret tt
      | None => ret tt
      end;;
      e <- get_pr ifReadResEnd;;
      if e : bool then
        set StateComStmtExecute2;;
        modify_pr (set_sqlEndTime (wrap_uint64 (Time pkt)))
      else ret tt
    else ret tt.

(** [fsm.Handle(pkt)] *)
Definition Handle (pkt : MySQLPacket) : M unit :=
  modify (set_changed false);;
  st <- get state;;
  if bool_decide (st = StateComQuit) then ret tt
  else
    expected <- get nextSeq;;
    if (Seq pkt =? 0) && bool_decide (st <> StateComQuery1)
       && bool_decide (st <> StateComStmtExecute1) then
      InitValue;;
      modify_pr (set_sqlBeginTime (wrap_uint64 (Time pkt)));;
      modify (fun fsm => set_packets (packets fsm ++ [pkt]) fsm);;
      Handle_ready pkt
    else if expected =? Seq pkt then
      modify (fun fsm => set_packets (packets fsm ++ [pkt]) fsm);;
      Handle_ready pkt
    else
      setStatusWithNoChange StateSkipPacket.

End FSM.

(** [NewMySQLFSM(log)] *)
Definition NewMySQLFSM : MySQLFSM :=
  mkFSM false StateInit "" (mkStmt 0 "" 0 None) (Some []) "" "" ∅
        (mkBuffer [] []) [] 0 0 None.

(** Readers to run the machine with: the length-encoded readers follow
    [parseLengthEncodedInt] and [parseLengthEncodedBytes], and the row
    readers report the end of the rows. *)
Definition end_of_rows : M (list Value * option error) :=
  modify_pr (fun r => set_tRows (set_done true <$> tRows r)
                        (set_bRows (set_done true <$> bRows r) r));;
  ret ([], Some io_EOF).

Definition sample_readers : Readers := {|
  readLengthEncodedInteger := parseLengthEncodedInt;
  skipLengthEncodedString := fun b =>
    '(_, _, n, err) ← parseLengthEncodedBytes b; Some (n, err);
  readLengthEncodedString := parseLengthEncodedBytes;
  textRows_Next := end_of_rows;
  binaryRows_Next := end_of_rows
|}.

(** ** The frames of a body and the test for a SELECT (stream/mysql.go) *)

(** [fsm.Packets()]: the frames of the body that [load] has loaded last;
    the inner [None] is nil. *)
Definition Packets (fsm : MySQLFSM) : option (option (list MySQLPacket)) :=
  if start fsm + count fsm >? len (packets fsm) then Some None
  else
    ps ← slice (packets fsm) (start fsm) (start fsm + count fsm);
    Some (Some ps).

Section IsSelectStmtOrSelectPrepare.

Local Open Scope char_scope.

(** The test on the six bytes at the first byte that is not a space. *)
Definition select_at (q : string) : bool :=
  match q with
  | String c0 (String c1 (String c2 (String c3 (String c4 (String c5 _))))) =>
      ((c0 =? "S") || (c0 =? "s")) && ((c1 =? "E") || (c1 =? "e"))
      && ((c2 =? "L") || (c2 =? "l")) && ((c3 =? "E") || (c3 =? "e"))
      && ((c4 =? "C") || (c4 =? "c")) && ((c5 =? "T") || (c5 =? "t"))
  | _ => false
  end.

(** The loop [for i, x := range query], on the part of the query from [i]
    on; [len(query)-i] is the length of that part.  A space is one byte, so
    the loop goes byte by byte up to the first rune that is not a space,
    where it returns. *)
Fixpoint select_scan (q : string) : bool :=
  match q with
  | EmptyString => false
  | String x q' =>
      if x =? " " then select_scan q'
      else if (String.length q <? 6)%nat then false
      else select_at q
  end.

(** [fsm.IsSelectStmtOrSelectPrepare(query)] *)
Definition IsSelectStmtOrSelectPrepare (query : string) : bool :=
  if (String.length query <? 6)%nat then false else select_scan query.

End IsSelectStmtOrSelectPrepare.

(** ** Rendering rows as strings (stream/mysql.go) *)

(** [ConvertAssignRows(a, as)] hands over to [convertAssignRows], which is
    defined in a file that is not among the sources: the conversion of a
    column value to its display string is a parameter.  It gives the string
    or an error. *)
Inductive converted : Type :=
  | Converted (s : string)
  | NotConverted (err : error).

Class Converter : Type := {
  ConvertAssignRows : Value -> converted
}.

Section ConvertResToStr.

Context {C : Converter}.

(** The inner loop of [ConvertResToStr], over the cells of one row that are
    still to come, with the strings appended so far. *)
Fixpoint convertRow (cells : list Value) (rowStr : list string)
  : list string + error :=
  match cells with
  | [] => inl rowStr
  | Vnil :: cells' => convertRow cells' (rowStr ++ [""%string])
  | c :: cells' =>
      match ConvertAssignRows c with
      | NotConverted err => inr err
      | Converted s => convertRow cells' (rowStr ++ [s])
      end
  end.

(** The outer loop. *)
Fixpoint convertRows (rows : list (list Value)) (resSet : list (list string))
  : option (list (list string)) * option error :=
  match rows with
  | [] => (Some resSet, None)
  | row :: rows' =>
      match convertRow row [] with
      | inr err => (None, Some err)
      | inl rowStr => convertRows rows' (resSet ++ [rowStr])
      end
  end.

(** [ConvertResToStr(v) ([][]string, error)] *)
Definition ConvertResToStr (v : list (list Value))
  : option (list (list string)) * option error :=
  convertRows v [].

End ConvertResToStr.

(** A converter to run the definitions with, after [database/sql]: strings
    and byte strings are taken as they are, integers are printed in decimal
    (a float or a time by its raw number: their formats are not modelled),
    and nil and a value of another dynamic type are refused. *)
Definition sample_converter : Converter := {|
  ConvertAssignRows := fun v =>
    match v with
    | Vstring s => Converted s
    | Vbytes b => Converted (string_of_bytes b)
    | Vint64 n => Converted (fmt_d n)
    | Vbool b => Converted (if b then "true" else "false")%string
    | Vfloat64 bits => Converted (fmt_d bits)
    | Vtime t => Converted (fmt_d t)
    | Vnil => NotConverted (errors_New "converting NULL to string is unsupported")
    | Vother _ => NotConverted (errors_New "unsupported Scan")
    end
|}.

(** ** The replay session (sqlreplay.go) *)

Module sqlreplay.

(** The kinds of event of [util] that [ApplyEvent] switches on, and
    [EventOther] for a value of [e.Type] that is none of them. *)
Inductive EventType : Type :=
  | EventQuery | EventStmtPrepare | EventStmtExecute | EventStmtClose
  | EventHandshake | EventQuit | EventOther.

(** [stream.ReplayRes] *)
Record ReplayRes := mkReplayRes {
  ErrNO : Z;
  ErrDesc : string;
  SqlStatment : string;
  Values : list param;
  SqlBeginTime : Z;
  SqlEndTime : Z;
  ColumnNum : Z;
  ColNames : list string;
  ColValues : list (list Value)
}.

(** Modelled from the spec: the event type [stream.MySQLEvent] is declared
    in a file that is not among the sources.  An event has a kind, a
    timestamp, the query text, the statement id, the parameter values, the
    target schema of a handshake and the replay-side result [Rr]; these are
    the fields that sqlreplay.go reads and writes. *)
Record MySQLEvent := mkEvent {
  Type_ : EventType;
  EvTime : Z;
  EvQuery : string;
  StmtID : string;
  Params : list param;
  DB : string;
  Rr : ReplayRes
}.

(** A prepared statement of the session: [handle] is the text the live
    [*sql.Stmt] was prepared from, [None] when the handle is nil. *)
Record statement := mkStatement {
  query : string;
  handle : option string
}.

(** [ReplayEventHandler]: the fields that [ApplyEvent] and the methods it
    calls read and write.  [Dsn] is [cfg.Dsn], [DBName] is
    [MySQLConfig.DBName]; [pool] is the database name the pool was opened
    for, [None] when it is nil; [conn] tells that the connection is not nil. *)
Record ReplayEventHandler := mkHandler {
  Dsn : string;
  DBName : string;
  schema : string;
  pool : option string;
  conn : bool;
  stmts : gmap string statement
}.

(** What the session asks of the driver.  The first five come back with a
    reply of the target; the closes come back with an error that is only
    logged. *)
Inductive call : Type :=
  | sql_Open (dbname : string)
  | pool_Conn
  | conn_QueryContext (query : string)
  | conn_PrepareContext (query : string)
  | stmt_QueryContext (query : string) (args : list param)
  | rows_Close
  | stmt_Close (query : string)
  | conn_Close
  | pool_Close.

(** The reply to a call: the rows of a result (empty for a call that gives
    none), or an error. *)
Inductive reply : Type :=
  | Done (rows : list (list Value))
  | Failed (err : error).

(** The target server and the clock: the reply to the [n]-th call that has
    one, and the [n]-th reading of [time.Now().UnixNano()]. *)
Record Target := mkTarget {
  reply_of : nat -> reply;
  time_of : nat -> Z
}.

(** The state [ApplyEvent] runs on: the handler, the event [e] points to,
    the calls made so far (oldest first), the number of replies and of clock
    readings taken, and the events handed to the outcome sink. *)
Record World := mkWorld {
  h : ReplayEventHandler;
  ev : MySQLEvent;
  calls : list call;
  replies : nat;
  readings : nat;
  sink : list MySQLEvent
}.

Definition set_h v '(mkWorld a b c d e f) := mkWorld v b c d e f.
Definition set_ev v '(mkWorld a b c d e f) := mkWorld a v c d e f.
Definition set_calls v '(mkWorld a b c d e f) := mkWorld a b v d e f.
Definition set_replies v '(mkWorld a b c d e f) := mkWorld a b c v e f.
Definition set_readings v '(mkWorld a b c d e f) := mkWorld a b c d v f.
Definition set_sink v '(mkWorld a b c d e f) := mkWorld a b c d e v.

Definition set_schema v '(mkHandler a b c d e f) := mkHandler a b v d e f.
Definition set_pool v '(mkHandler a b c d e f) := mkHandler a b c v e f.
Definition set_conn v '(mkHandler a b c d e f) := mkHandler a b c d v f.
Definition set_stmts v '(mkHandler a b c d e f) := mkHandler a b c d e v.

Definition set_Rr v '(mkEvent a b c d e f g) := mkEvent a b c d e f v.

Definition set_ErrNO v '(mkReplayRes a b c d e f g h i) := mkReplayRes v b c d e f g h i.
Definition set_ErrDesc v '(mkReplayRes a b c d e f g h i) := mkReplayRes a v c d e f g h i.
Definition set_SqlStatment v '(mkReplayRes a b c d e f g h i) :=
  mkReplayRes a b v d e f g h i.
Definition set_Values v '(mkReplayRes a b c d e f g h i) := mkReplayRes a b c v e f g h i.
Definition set_SqlBeginTime v '(mkReplayRes a b c d e f g h i) :=
  mkReplayRes a b c d v f g h i.
Definition set_SqlEndTime v '(mkReplayRes a b c d e f g h i) :=
  mkReplayRes a b c d e v g h i.
Definition set_ColValues v '(mkReplayRes a b c d e f g h i) :=
  mkReplayRes a b c d e f g h v.

(** The methods of [*ReplayEventHandler]; [None] is a loop that ran out of
    fuel. *)
Abbreviation W := (StateM World).

Definition modify_h (f : ReplayEventHandler -> ReplayEventHandler) : W unit :=
  modify (fun w => set_h (f (h w)) w).

(** [e.Rr.f = v] *)
Definition modify_Rr (f : ReplayRes -> ReplayRes) : W unit :=
  modify (fun w => set_ev (set_Rr (f (Rr (ev w))) (ev w)) w).

Section Replay.

Context {C : Converter} (T : Target).
Local Open Scope string_scope.
Local Open Scope Z_scope.

(** A call that the target replies to. *)
Definition ask (c : call) : W reply :=
  fun w =>
    (Some (reply_of T (replies w)),
     set_replies (S (replies w)) (set_calls (calls w ++ [c]) w)).

(** A close: its error is only logged. *)
Definition tell (c : call) : W unit :=
  modify (fun w => set_calls (calls w ++ [c]) w).

(** [uint64(time.Now().UnixNano())] *)
Definition time_Now : W Z :=
  fun w => (Some (wrap_uint64 (time_of T (readings w))),
            set_readings (S (readings w)) w).

(** [h.open(schema)], which gives a pool and an error: the pool is given by the database
    name of its DSN. *)
Definition open (schema : string) : W (option string * option error) :=
  cfg <- get (fun w => DBName (h w));;
  let dbname :=
    if (0 <? String.length schema)%nat && bool_decide (cfg <> schema)
    then schema else cfg in
  r <- ask (sql_Open dbname);;
  match r with
  | Done _ => ret (Some dbname, None)
  | Failed err => ret (None, Some err)
  end.

(** [h.getConn(ctx)]; only its error is used by the callers. *)
Definition getConn : W (option error) :=
  p <- get (fun w => pool (h w));;
  err <- match p with
         | None =>
             sch <- get (fun w => schema (h w));;
             r <- open sch;;
             modify_h (set_pool (fst r));;
             ret (snd r)
         | Some _ => ret None
         end;;
  match err with
  | Some e => ret (Some e)
  | None =>
      c <- get (fun w => conn (h w));;
      if negb c then
        r <- ask pool_Conn;;
        match r with
        | Done _ => modify_h (set_conn true);; ret None
        | Failed e => modify_h (set_conn false);; ret (Some e)
        end
      else ret None
  end.

(** [h.handshake(ctx, schema)] *)
Definition handshake (schema : string) : W (option error) :=
  r <- open schema;;
  match snd r with
  | Some e => ret (Some e)
  | None =>
      modify_h (set_pool (fst r));;
      modify_h (set_schema schema);;
      getConn
  end.

(** The loop of [quit] over the statements, in the order [range] visits
    them. *)
Fixpoint closeHandles (l : list (string * statement)) : W unit :=
  match l with
  | [] => ret tt
  | (_, st) :: l' =>
      match handle st with
      | Some q => tell (stmt_Close q)
      | None => ret tt
      end;;
      closeHandles l'
  end.

(** [h.quit(reconnect)] *)
Definition quit (reconnect : bool) : W unit :=
  sts <- get (fun w => stmts (h w));;
  closeHandles (map_to_list sts);;
  modify_h (set_stmts
    (if reconnect then (fun st => mkStatement (query st) None) <$> sts else ∅));;
  c <- get (fun w => conn (h w));;
  (if c : bool then tell conn_Close;; modify_h (set_conn false) else ret tt);;
  p <- get (fun w => pool (h w));;
  match p with
  | Some _ => tell pool_Close;; modify_h (set_pool None)
  | None => ret tt
  end.

(** [h.ReadRowValues(f, e)], with [z] the last row fetched.  The loop keeps
    the error of the last column that was converted. *)
Fixpoint readCells (z : list Value) (rr : list Value) (err : option error)
  : list Value * option error :=
  match z with
  | [] => (rr, err)
  | Vnil :: z' => readCells z' (rr ++ [Vnil]) err
  | c :: z' =>
      match ConvertAssignRows c with
      | Converted a => readCells z' (rr ++ [Vstring a]) None
      | NotConverted e => readCells z' rr (Some e)
      end
  end.

Definition ReadRowValues (z : list Value) : W unit :=
  let '(rr, err) := readCells z [] None in
  match err with
  | None => modify_Rr (fun r => set_ColValues (ColValues r ++ [rr]) r)
  | Some _ => ret tt
  end.

(** [for rows.Next() { h.ReadRowValues(rows, e) }] *)
Fixpoint readRows (rows : list (list Value)) : W unit :=
  match rows with
  | [] => ret tt
  | z :: rows' => ReadRowValues z;; readRows rows'
  end.

(** [h.execute(ctx, query, e)] *)
Definition execute (query : string) : W (option error) :=
  err <- getConn;;
  match err with
  | Some e => ret (Some e)
  | None =>
      t <- time_Now;;
      modify_Rr (set_SqlBeginTime t);;
      modify_Rr (set_SqlStatment query);;
      r <- ask (conn_QueryContext query);;
      t <- time_Now;;
      modify_Rr (set_SqlEndTime t);;
      match r with
      | Failed e => ret (Some e)
      | Done rows =>
          readRows rows;;
          tell rows_Close;;
          ret None
      end
  end.

(** [h.stmtPrepare(ctx, id, query)] *)
Definition stmtPrepare (id : string) (query : string) : W (option error) :=
  sts <- get (fun w => stmts (h w));;
  match handle <$> sts !! id with
  | Some (Some q) => tell (stmt_Close q)
  | _ => ret tt
  end;;
  modify_h (set_stmts (delete id sts));;
  err <- getConn;;
  match err with
  | Some e => ret (Some e)
  | None =>
      r <- ask (conn_PrepareContext query);;
      match r with
      | Failed e => ret (Some e)
      | Done _ =>
          modify_h (fun h => set_stmts (<[id := mkStatement query (Some query)]> (stmts h)) h);;
          ret None
      end
  end.

(** [h.getStmt(ctx, id)], which gives a handle and an error: the handle is given by the text
    it was prepared from.  The verb [%d] of the message, on a string, prints
    the string as [%!d(string=id)]. *)
Definition getStmt (id : string) : W (option string * option error) :=
  sts <- get (fun w => stmts (h w));;
  match sts !! id with
  | Some (mkStatement _ (Some q)) => ret (Some q, None)
  | None => ret (None, Some (errors_New ("no such statement #%!d(string=" +:+ id +:+ ")")))
  | Some (mkStatement text None) =>
      err <- getConn;;
      match err with
      | Some e => ret (None, Some e)
      | None =>
          r <- ask (conn_PrepareContext text);;
          match r with
          | Failed e => ret (None, Some e)
          | Done _ =>
              modify_h (fun h =>
                set_stmts (<[id := mkStatement text (Some text)]> (stmts h)) h);;
              ret (Some text, None)
          end
      end
  end.

(** [h.stmtExecute(ctx, id, params, e)] *)
Definition stmtExecute (id : string) (params : list param) : W (option error) :=
  r <- getStmt id;;
  match r with
  | (_, Some e) => ret (Some e)
  | (None, None) => panic
  | (Some q, None) =>
      modify_Rr (set_SqlStatment q);;
      modify_Rr (set_Values params);;
      t <- time_Now;;
      modify_Rr (set_SqlBeginTime t);;
      r <- ask (stmt_QueryContext q params);;
      t <- time_Now;;
      modify_Rr (set_SqlEndTime t);;
      match r with
      | Failed e => ret (Some e)
      | Done rows =>
          readRows rows;;
          tell rows_Close;;
          ret None
      end
  end.

(** [h.stmtClose(id)] *)
Definition stmtClose (id : string) : W unit :=
  sts <- get (fun w => stmts (h w));;
  match sts !! id with
  | None => ret tt
  | Some st =>
      match handle st with
      | Some q => tell (stmt_Close q)
      | None => ret tt
      end;;
      modify_h (set_stmts (delete id sts))
  end.

(** [errors.Unwrap(err)]: the cause an error carries, nil when it carries
    none. *)
Definition Unwrap (err : error) : option error :=
  match err with
  | Wrapped _ cause => Some cause
  | _ => None
  end.

(** The test [sqlErr == context.DeadlineExceeded || sqlErr == sql.ErrConnDone
    || sqlErr == mysql.ErrInvalidConn] on [sqlErr := errors.Unwrap(err)]. *)
Definition connectionLost (err : error) : bool :=
  match Unwrap err with
  | Some DeadlineExceeded | Some ErrConnDone | Some ErrInvalidConn => true
  | _ => false
  end.

(** The test that [err] is a [*mysql.MySQLError] with [Number == 1205]. *)
Definition lockWaitTimeout (err : error) : bool :=
  match err with
  | MySQLError n _ => n =? 1205
  | _ => false
  end.

(** The loop at label [RETRYCOMQUERY], with [fuel] turns left. *)
Fixpoint retryComQuery (fuel : nat) (query : string) : W (option error) :=
  match fuel with
  | O => panic
  | S fuel' =>
      err <- execute query;;
      match err with
      | Some e =>
          if lockWaitTimeout e then
            modify_Rr (set_ColValues []);;
            retryComQuery fuel' query
          else ret (Some e)
      | None => ret None
      end
  end.

(** The loop at label [RETRYCOMSTMTEXECUTE], with [fuel] turns left. *)
Fixpoint retryComStmtExecute (fuel : nat) (id : string) (params : list param)
  : W (option error) :=
  match fuel with
  | O => panic
  | S fuel' =>
      err <- stmtExecute id params;;
      match err with
      | Some e =>
          if lockWaitTimeout e then
            modify_Rr (set_ColValues []);;
            retryComStmtExecute fuel' id params
          else ret (Some e)
      | None => ret None
      end
  end.

(** How the [switch] of [ApplyEvent] ends: control goes on behind it with
    the value of [err], or the function returns from inside it. *)
Inductive switched : Type :=
  | GoesOn (err : option error)
  | Returns (err : option error).

(** The [switch e.Type] of [ApplyEvent]; the loops in it get [fuel] turns. *)
Definition switchType (fuel : nat) : W switched :=
  e <- get ev;;
  match Type_ e with
  | EventQuery =>
      modify_Rr (set_ColValues []);;
      err <- retryComQuery fuel (EvQuery e);;
      ret (GoesOn err)
  | EventStmtPrepare =>
      err <- stmtPrepare (StmtID e) (EvQuery e);;
      match err with
      | None | Some (MySQLError _ _) => ret tt
      | Some _ =>
          modify_Rr (set_ErrNO 20000);;
          modify_Rr (set_ErrDesc "exec sql fail and covert  to mysql error struct err")
      end;;
      ret (GoesOn err)
  | EventStmtExecute =>
      sts <- get (fun w => stmts (h w));;
      match sts !! StmtID e with
      | Some _ =>
          modify_Rr (set_ColValues []);;
          err <- retryComStmtExecute fuel (StmtID e) (Params e);;
          ret (GoesOn err)
      | None =>
          ret (Returns (Some (MySQLError 10000
                 (StmtID e +:+ " is not exist , maybe prepare fail"))))
      end
  | EventStmtClose =>
      stmtClose (StmtID e);;
      ret (GoesOn None)
  | EventHandshake =>
      quit false;;
      err <- handshake (DB e);;
      ret (GoesOn err)
  | EventQuit =>
      quit false;;
      ret (GoesOn None)
  | EventOther => ret (GoesOn None)
  end.

(** [ApplyEvent] from label [LOOP] on, with [fuel] passes left. *)
Fixpoint ApplyEvent_LOOP (fuel : nat) : W (option error) :=
  match fuel with
  | O => panic
  | S fuel' =>
      sw <- switchType (S fuel');;
      match sw with
      | Returns err => ret err
      | GoesOn None => ret None
      | GoesOn (Some err) =>
          if connectionLost err then
            quit true;;
            sch <- get (fun w => schema (h w));;
            err <- handshake sch;;
            match err with
            | Some e => ret (Some e)
            | None => ApplyEvent_LOOP fuel'
            end
          else ret (Some err)
      end
  end.

(** [h.ApplyEvent(ctx, e)], on the event [ev] of the world. *)
Definition ApplyEvent (fuel : nat) : W (option error) :=
  dsn <- get (fun w => Dsn (h w));;
  if (String.length dsn =? 0)%nat then ret None
  else ApplyEvent_LOOP fuel.

(** [h.ReplayEventAndWriteRes(e)]; [h.AsyncWriteResToFile(e)] hands the
    event to the outcome sink. *)
Definition ReplayEventAndWriteRes (fuel : nat) (e : MySQLEvent) : W unit :=
  modify (set_ev e);;
  err <- ApplyEvent fuel;;
  match err with
  | Some (MySQLError n msg) =>
      modify_Rr (set_ErrNO n);;
      modify_Rr (set_ErrDesc msg)
  | Some _ =>
      modify_Rr (set_ErrNO 20000);;
      modify_Rr (set_ErrDesc "Failed to execute SQL and failed to convert to mysql error")
  | None => ret tt
  end;;
  modify (fun w => set_sink (sink w ++ [ev w]) w).

End Replay.

(** A simulated target: it gives the replies of a script in turn, then
    empty results; its clock counts the readings. *)
Definition scripted (script : list reply) : Target :=
  mkTarget (fun n => nth n script (Done [])) (fun n => Z.of_nat n).

(** The number of execution attempts, of reconnects and of all calls with a
    reply, in a list of calls. *)
Definition is_execution (c : call) : bool :=
  match c with
  | conn_QueryContext _ | stmt_QueryContext _ _ => true
  | _ => false
  end.

Definition is_open (c : call) : bool :=
  match c with
  | sql_Open _ => true
  | _ => false
  end.

Definition executions (l : list call) : nat := length (filter is_execution l).

Definition opens (l : list call) : nat := length (filter is_open l).

End sqlreplay.
(** * Properties *)

(** ** Bytes and slices *)

Lemma u8_range (b : byte) : 0 <= u8 b < 256.
Proof.
  unfold u8. pose proof (Byte.to_N_bounded b). lia.
Qed.

Lemma len_nonneg {A} (s : list A) : 0 <= len s.
Proof. unfold len. lia. Qed.

Lemma len_app {A} (s t : list A) : len (s ++ t) = len s + len t.
Proof. unfold len. rewrite length_app. lia. Qed.

Lemma index_Some {A} (s : list A) (i : Z) (x : A) :
  index s i = Some x <-> 0 <= i /\ s !! Z.to_nat i = Some x.
Proof.
  unfold index. destruct (Z.ltb_spec i 0); split; intros H1;
    try discriminate; try tauto; try lia.
Qed.

Lemma index_in_range {A} (s : list A) (i : Z) :
  0 <= i < len s -> exists x, index s i = Some x.
Proof.
  intros [H1 H2]. unfold index, len in *.
  destruct (Z.ltb_spec i 0); [lia|].
  destruct (lookup_lt_is_Some_2 s (Z.to_nat i)) as [x Hx]; [lia|].
  eauto.
Qed.

Lemma index_out_of_range {A} (s : list A) (i : Z) :
  i < 0 \/ len s <= i -> index s i = None.
Proof.
  intros H. unfold index, len in *.
  destruct (Z.ltb_spec i 0); [reflexivity|].
  apply lookup_ge_None. lia.
Qed.

Lemma index_app_l {A} (s t : list A) (i : Z) :
  i < len s -> index (s ++ t) i = index s i.
Proof.
  intros H. unfold index, len in *.
  destruct (Z.ltb_spec i 0); [reflexivity|].
  apply lookup_app_l. lia.
Qed.

Lemma index_app_r {A} (s t : list A) (i : Z) :
  len s <= i -> index (s ++ t) i = index t (i - len s).
Proof.
  intros H. unfold index, len in *.
  destruct (Z.ltb_spec i 0); [lia|].
  destruct (Z.ltb_spec (i - Z.of_nat (length s)) 0); [lia|].
  rewrite lookup_app_r by lia. f_equal. lia.
Qed.

Lemma slice_Some {A} (s : list A) (lo hi : Z) :
  0 <= lo -> lo <= hi -> hi <= len s ->
  slice s lo hi = Some (take (Z.to_nat (hi - lo)) (drop (Z.to_nat lo) s)).
Proof.
  intros H1 H2 H3. unfold slice.
  destruct (Z.leb_spec 0 lo); [|lia].
  destruct (Z.leb_spec lo hi); [|lia].
  destruct (Z.leb_spec hi (len s)); [|lia].
  reflexivity.
Qed.

Lemma slice_from_Some {A} (s : list A) (lo : Z) :
  0 <= lo <= len s -> slice_from s lo = Some (drop (Z.to_nat lo) s).
Proof.
  intros H. unfold slice_from. rewrite slice_Some by lia.
  f_equal. apply take_ge. rewrite length_drop. unfold len. lia.
Qed.

Lemma slice_from_app {A} (s t : list A) :
  slice_from (s ++ t) (len s) = Some t.
Proof.
  rewrite slice_from_Some by (rewrite len_app; pose proof (len_nonneg t);
    pose proof (len_nonneg s); lia).
  unfold len. rewrite Nat2Z.id. f_equal. apply drop_app_length.
Qed.

(** ** The two decoders of length-encoded integers *)

(** On a first byte below 0xfb both decoders give that byte and take one
    byte of the buffer. *)
Lemma lenenc_decoders_one_byte (b0 : byte) (rest : list byte) :
  u8 b0 < 0xfb ->
  parseLengthEncodedInt (b0 :: rest) = Some (u8 b0, false, 1) /\
  readLenEncUint (b0 :: rest) = Some (u8 b0, rest, true).
Proof.
  intros Hlt. split.
  - unfold parseLengthEncodedInt.
    change (index (b0 :: rest) 0) with (Some b0). cbn [mbind option_bind].
    repeat match goal with
           | |- context [?a =? ?b] => destruct (Z.eqb_spec a b); [lia|]
           end.
    reflexivity.
  - unfold readLenEncUint.
    destruct (Z.ltb_spec (len (b0 :: rest)) 1) as [H|H];
      [unfold len in H; cbn [length] in H; lia|].
    change (index (b0 :: rest) 0) with (Some b0). cbn [mbind option_bind].
    destruct (Z.ltb_spec (u8 b0) 251); [|lia].
    rewrite slice_from_Some by (unfold len; cbn [length]; lia).
    reflexivity.
Qed.

(** After the marker 0xfc, [parseLengthEncodedInt] takes the next two bytes
    as a little-endian number and [readLenEncUint] takes them as a
    big-endian number. *)
Lemma lenenc_decoders_two_bytes (b1 b2 : byte) (rest : list byte) :
  parseLengthEncodedInt (Byte.xfc :: b1 :: b2 :: rest)
    = Some (Z.lor (u8 b1) (Z.shiftl (u8 b2) 8), false, 3) /\
  readLenEncUint (Byte.xfc :: b1 :: b2 :: rest)
    = Some (Z.lor (u8 b2) (Z.shiftl (u8 b1) 8), rest, true).
Proof.
  split; [reflexivity|].
  unfold readLenEncUint.
  destruct (Z.ltb_spec (len (Byte.xfc :: b1 :: b2 :: rest)) 1) as [H|H];
    [unfold len in H; cbn [length] in H; lia|].
  change (index (Byte.xfc :: b1 :: b2 :: rest) 0) with (Some Byte.xfc).
  cbn [mbind option_bind].
  change (u8 Byte.xfc <? 251) with false. change (u8 Byte.xfc =? 252) with true.
  cbv iota.
  destruct (Z.ltb_spec (len (Byte.xfc :: b1 :: b2 :: rest)) 3) as [H3|H3];
    [unfold len in H3; cbn [length] in H3; lia|].
  change (index (Byte.xfc :: b1 :: b2 :: rest) 2) with (Some b2).
  change (index (Byte.xfc :: b1 :: b2 :: rest) 1) with (Some b1).
  cbn [mbind option_bind].
  rewrite slice_from_Some by (unfold len; cbn [length]; lia).
  reflexivity.
Qed.

(** C10: the two decoders of length-encoded integers do not agree.  On the
    buffer 0xfc 0x01 0x00 both succeed and both take three bytes, but
    [parseLengthEncodedInt] gives 1 (little-endian, as the protocol has it)
    and [readLenEncUint] gives 256 (it reads the bytes in big-endian order). *)
Theorem lenenc_decoders_differ :
  parseLengthEncodedInt [Byte.xfc; Byte.x01; Byte.x00] = Some (1, false, 3) /\
  readLenEncUint [Byte.xfc; Byte.x01; Byte.x00] = Some (256, [], true).
Proof.
  split; vm_compute; reflexivity.
Qed.

Lemma index_Some_lt {A} (s : list A) (i : Z) (x : A) :
  index s i = Some x -> 0 <= i < len s.
Proof.
  intros H. apply index_Some in H as [H1 H2].
  apply lookup_lt_Some in H2. unfold len. lia.
Qed.

(** ** parseExecParams *)

Lemma assign_Some (ps : list param) (i : Z) (v : param) :
  0 <= i < len ps -> assign ps i v = Some (<[Z.to_nat i := v]> ps).
Proof.
  intros [H1 H2]. unfold assign.
  destruct (Z.leb_spec 0 i); [|lia]. destruct (Z.ltb_spec i (len ps)); [|lia].
  reflexivity.
Qed.

Lemma assign_inv (ps ps' : list param) (i : Z) (v : param) :
  assign ps i v = Some ps' -> 0 <= i < len ps /\ ps' = <[Z.to_nat i := v]> ps.
Proof.
  unfold assign. destruct (Z.leb_spec 0 i); [|discriminate].
  destruct (Z.ltb_spec i (len ps)); [|discriminate].
  cbn. intros [= <-]. split; [lia|reflexivity].
Qed.

Section ParseExecParamsFacts.

Context {K : Consts}.
Variables (nullBitmap paramTypes : list byte) (paramValues : Slice).

Abbreviation decode := (decodeParam nullBitmap paramTypes paramValues).
Abbreviation loop := (paramsLoop nullBitmap paramTypes paramValues).

(** A turn of the loop writes at most [params[i]]. *)
Lemma decodeParam_writes (i pos pos' : Z) (ps ps' : list param) :
  decode i pos ps = Some (Next pos' ps') ->
  ps' = ps \/ exists v, 0 <= i < len ps /\ ps' = <[Z.to_nat i := v]> ps.
Proof.
  unfold decodeParam, malformed_values. intros H.
  repeat match type of H with
  | (?o ≫= _) = _ => destruct o eqn:?; cbn [mbind option_bind] in H; [|discriminate]
  | (if ?b then _ else _) = _ => destruct b eqn:?
  | (match ?x with _ => _ end) = _ => destruct x eqn:?
  | Some (Return _) = Some (Next _ _) => discriminate
  | None = Some _ => discriminate
  | Some (Next _ _) = Some (Next _ _) => injection H as <- <-
  end;
  try (left; reflexivity);
  try (right; match goal with
              | E : assign _ _ ?v = Some _ |- _ =>
                  exists v; apply assign_inv in E; exact E
              end).
Qed.

Lemma decodeParam_length (i pos pos' : Z) (ps ps' : list param) :
  decode i pos ps = Some (Next pos' ps') -> length ps' = length ps.
Proof.
  intros H. apply decodeParam_writes in H as [->|(v & _ & ->)];
    [reflexivity|apply length_insert].
Qed.

(** The loop ends with the parameters and no error, or with nil and an
    error. *)
Lemma paramsLoop_shape (n : nat) (i pos : Z) (ps : list param) r :
  loop n i pos ps = Some r ->
  (exists out, r = (Some out, None) /\ length out = length ps) \/
  (exists err, r = (None, Some err)).
Proof.
  revert i pos ps. induction n as [|n IH]; intros i pos ps; cbn [paramsLoop].
  - intros [= <-]. left. eauto.
  - destruct (decode i pos ps) as [[pos' ps'|err]|] eqn:E;
      cbn [mbind option_bind]; [|intros [= <-]; right; eauto|discriminate].
    intros H. apply IH in H as [(out & -> & Hl)|H]; [|right; exact H].
    left. exists out. split; [reflexivity|].
    rewrite Hl. eapply decodeParam_length; exact E.
Qed.

(** The turns after turn [i] leave [params[j]] alone for [j <= i]. *)
Lemma paramsLoop_keeps (n : nat) (i pos : Z) (ps out : list param) (j : nat) :
  loop n i pos ps = Some (Some out, None) ->
  0 <= i -> (j < Z.to_nat i)%nat -> out !! j = ps !! j.
Proof.
  revert i pos ps. induction n as [|n IH]; intros i pos ps; cbn [paramsLoop].
  - intros [= <-]. reflexivity.
  - destruct (decode i pos ps) as [[pos' ps'|err]|] eqn:E;
      cbn [mbind option_bind]; [|discriminate|discriminate].
    intros H Hi Hj. rewrite (IH _ _ _ H) by lia.
    apply decodeParam_writes in E as [->|(v & _ & ->)]; [reflexivity|].
    apply list_lookup_insert_ne. lia.
Qed.

(** The values are decoded in order: turn [i] decodes [params[i]] at the
    position where turn [i-1] stopped, and the later turns keep it. *)
Lemma paramsLoop_in_order (n : nat) (i pos : Z) (ps out : list param) :
  loop (S n) i pos ps = Some (Some out, None) ->
  0 <= i ->
  exists pos' ps',
    decode i pos ps = Some (Next pos' ps') /\
    loop n (i + 1) pos' ps' = Some (Some out, None) /\
    out !! Z.to_nat i = ps' !! Z.to_nat i.
Proof.
  cbn [paramsLoop].
  destruct (decode i pos ps) as [[pos' ps'|err]|] eqn:E;
    cbn [mbind option_bind]; [|discriminate|discriminate].
  intros H Hi. exists pos', ps'. split; [reflexivity|]. split; [exact H|].
  eapply paramsLoop_keeps; [exact H|lia|lia].
Qed.

(** [parseExecParams] gives [NumParams] values when it gives no error. *)
Lemma parseExecParams_length (stmt : Stmt) (out : list param) :
  parseExecParams nullBitmap paramTypes paramValues stmt = (Some out, None) ->
  len out = NumParams stmt.
Proof.
  unfold parseExecParams, parseExecParams_body, make_params.
  destruct (Z.ltb_spec (NumParams stmt) 0) as [Hn|Hn];
    cbn [mbind option_bind]; [discriminate|].
  destruct (loop _ 0 0 _) as [r|] eqn:E; [|discriminate].
  intros ->. apply paramsLoop_shape in E as [(out' & [= <-] & Hl)|(err & [=])].
  unfold len. rewrite Hl, length_replicate. lia.
Qed.

(** The values that [parseExecParams] gives are the ones the loop leaves,
    run for the parameters 0 to [NumParams - 1] from the position 0 on a
    vector of nils. *)
Lemma parseExecParams_loop (stmt : Stmt) (out : list param) :
  parseExecParams nullBitmap paramTypes paramValues stmt = (Some out, None) ->
  loop (Z.to_nat (NumParams stmt)) 0 0 (replicate (Z.to_nat (NumParams stmt)) Pnil)
    = Some (Some out, None).
Proof.
  unfold parseExecParams, parseExecParams_body, make_params.
  destruct (Z.ltb_spec (NumParams stmt) 0) as [Hn|Hn];
    cbn [mbind option_bind]; [discriminate|].
  destruct (loop _ 0 0 _) as [r|]; [|discriminate].
  intros ->. reflexivity.
Qed.

(** The deferred [recover]: a panic of the body comes out as the error
    "malformed packet", and every outcome is a parameter vector without an
    error or nil with an error. *)
Lemma parseExecParams_total (stmt : Stmt) :
  (parseExecParams_body nullBitmap paramTypes paramValues stmt = None ->
   parseExecParams nullBitmap paramTypes paramValues stmt
     = (None, Some (errors_New "malformed packet"))) /\
  ((exists out, parseExecParams nullBitmap paramTypes paramValues stmt
                  = (Some out, None) /\ len out = NumParams stmt) \/
   (exists err, parseExecParams nullBitmap paramTypes paramValues stmt
                  = (None, Some err))).
Proof.
  split.
  - unfold parseExecParams. intros ->. reflexivity.
  - destruct (parseExecParams nullBitmap paramTypes paramValues stmt)
      as [out err] eqn:E.
    pose proof E as E'. unfold parseExecParams in E'.
    destruct (parseExecParams_body nullBitmap paramTypes paramValues stmt)
      as [r|] eqn:Eb.
    + subst r. unfold parseExecParams_body in Eb.
      destruct (make_params (NumParams stmt)) as [ps|];
        cbn [mbind option_bind] in Eb; [|discriminate].
      apply paramsLoop_shape in Eb as [(out' & [= -> ->] & Hl)|(e & [= -> ->])].
      * left. exists out'. split; [reflexivity|].
        apply parseExecParams_length. exact E.
      * right. eauto.
    + injection E' as <- <-. right. eauto.
Qed.

(** Bit [i] of the null-bitmap is set. *)
Definition null_bit (i : Z) : Prop :=
  exists nb, index nullBitmap (Z.shiftr i 3) = Some nb /\
             (Z.land (u8 nb) (Z.shiftl 1 (i mod 8)) >? 0) = true.

(** Parameter [i] is not null and is declared with the type [t]; [unsigned]
    is the high bit of the flag byte that comes with the type. *)
Definition declared (i : Z) (t : fieldTypeConst) (unsigned : bool) : Prop :=
  exists nb tp fl,
    index nullBitmap (Z.shiftr i 3) = Some nb /\
    (Z.land (u8 nb) (Z.shiftl 1 (i mod 8)) >? 0) = false /\
    index paramTypes (Z.shiftl i 1) = Some tp /\
    index paramTypes (Z.shiftl i 1 + 1) = Some fl /\
    fieldTypeName tp = Some t /\
    unsigned = (Z.land (u8 fl) 0x80 >? 0).

(** The bytes [bs] lie at position [pos] of the parameter values. *)
Definition bytes_at (pos : Z) (bs : list byte) : Prop :=
  exists pre post, vis paramValues = pre ++ bs ++ post /\ len pre = pos.

Lemma bytes_at_index (pos : Z) (bs : list byte) (k : Z) (b : byte) :
  bytes_at pos bs -> index bs k = Some b ->
  index (vis paramValues) (pos + k) = Some b.
Proof.
  intros (pre & post & -> & <-) Hk.
  pose proof (index_Some_lt _ _ _ Hk) as Hr.
  rewrite index_app_r by lia.
  replace (len pre + k - len pre) with k by lia.
  rewrite index_app_l by lia. exact Hk.
Qed.

Lemma bytes_at_len (pos : Z) (bs : list byte) :
  bytes_at pos bs -> 0 <= pos /\ pos + len bs <= len (vis paramValues).
Proof.
  intros (pre & post & -> & <-). rewrite !len_app.
  pose proof (len_nonneg pre). pose proof (len_nonneg post). lia.
Qed.

Lemma bytes_at_slice (pos : Z) (bs : list byte) (lo hi : Z) :
  bytes_at pos bs -> 0 <= lo -> lo <= hi -> hi <= len bs ->
  slice_cap paramValues (pos + lo) (pos + hi)
    = Some (take (Z.to_nat (hi - lo)) (drop (Z.to_nat lo) bs)).
Proof.
  intros (pre & post & Hv & <-) H1 H2 H3. unfold slice_cap. rewrite Hv.
  pose proof (len_nonneg pre) as Hp.
  rewrite slice_Some; [|lia|lia|
    rewrite !len_app; pose proof (len_nonneg post);
    pose proof (len_nonneg (spare paramValues)); lia].
  f_equal. replace (len pre + hi - (len pre + lo)) with (hi - lo) by lia.
  rewrite <- !app_assoc.
  replace (Z.to_nat (len pre + lo)) with (length pre + Z.to_nat lo)%nat
    by (unfold len; lia).
  rewrite drop_app_add'; [|reflexivity].
  rewrite drop_app_le by (unfold len in H3; lia).
  apply take_app_le. rewrite length_drop. unfold len in H3. lia.
Qed.

(** A parameter whose bit is set in the null-bitmap is nil and takes no
    bytes: the position stays. *)
Lemma decodeParam_null (i pos : Z) (ps : list param) :
  0 <= i < len ps -> null_bit i ->
  decode i pos ps = Some (Next pos (<[Z.to_nat i := Pnil]> ps)).
Proof.
  intros Hi (nb & Hnb & Hset). unfold decodeParam.
  rewrite Hnb. cbn [mbind option_bind]. rewrite Hset.
  rewrite assign_Some by exact Hi. reflexivity.
Qed.

(** A one-byte integer: unsigned when the high bit of the flag byte is set,
    signed otherwise. *)
Lemma decodeParam_tiny (i pos : Z) (ps : list param) (unsigned : bool) (b : byte) :
  0 <= i < len ps -> declared i fieldTypeTiny unsigned ->
  bytes_at pos [b] ->
  decode i pos ps =
    Some (Next (pos + 1)
            (<[Z.to_nat i := if unsigned then Puint64 (u8 b)
                             else Pint64 (wrap_int8 (u8 b))]> ps)).
Proof.
  intros Hi (nb & tp & fl & Hnb & Hclear & Htp & Hfl & Ht & ->) Hb.
  unfold decodeParam. rewrite Hnb. cbn [mbind option_bind]. rewrite Hclear.
  pose proof (index_Some_lt _ _ _ Hfl) as Hr.
  destruct (Z.geb_spec (Z.shiftl i 1 + 1) (len paramTypes)); [lia|].
  rewrite Htp, Hfl. cbn [mbind option_bind]. rewrite Ht.
  pose proof (bytes_at_len _ _ Hb) as Hl. change (len [b]) with 1 in Hl.
  destruct (Z.ltb_spec (len (vis paramValues)) (pos + 1)); [lia|].
  pose proof (bytes_at_index pos [b] 0 b Hb eq_refl) as Hx.
  rewrite Z.add_0_r in Hx. rewrite Hx. cbn [mbind option_bind].
  rewrite assign_Some by exact Hi. reflexivity.
Qed.

(** A four-byte integer, little-endian. *)
Lemma decodeParam_long (i pos : Z) (ps : list param) (t : fieldTypeConst)
    (unsigned : bool) (b0 b1 b2 b3 : byte) :
  0 <= i < len ps -> t = fieldTypeInt24 \/ t = fieldTypeLong ->
  declared i t unsigned ->
  bytes_at pos [b0; b1; b2; b3] ->
  let val := Z.lor (Z.lor (Z.lor (u8 b0) (Z.shiftl (u8 b1) 8))
                          (Z.shiftl (u8 b2) 16)) (Z.shiftl (u8 b3) 24) in
  decode i pos ps =
    Some (Next (pos + 4)
            (<[Z.to_nat i := if unsigned then Puint64 val
                             else Pint64 (wrap_int32 val)]> ps)).
Proof.
  intros Hi Hty (nb & tp & fl & Hnb & Hclear & Htp & Hfl & Ht & ->) Hb val.
  unfold decodeParam. rewrite Hnb. cbn [mbind option_bind]. rewrite Hclear.
  pose proof (index_Some_lt _ _ _ Hfl) as Hr.
  destruct (Z.geb_spec (Z.shiftl i 1 + 1) (len paramTypes)); [lia|].
  rewrite Htp, Hfl. cbn [mbind option_bind]. rewrite Ht.
  pose proof (bytes_at_len _ _ Hb) as Hl. change (len [b0; b1; b2; b3]) with 4 in Hl.
  destruct Hty as [-> | ->].
  all: cbv iota.
  all: destruct (Z.ltb_spec (len (vis paramValues)) (pos + 4)); [lia|].
  all: pose proof (bytes_at_slice pos _ 0 4 Hb) as Hs.
  all: rewrite Z.add_0_r in Hs; rewrite Hs by (unfold len; cbn; lia).
  all: cbn [mbind option_bind Z.sub Z.to_nat drop take].
  all: change (LittleEndian_Uint32 _) with (Some val); cbn [mbind option_bind].
  all: rewrite assign_Some by exact Hi; reflexivity.
Qed.

(** A date with the length byte 4: two bytes of year, little-endian, one of
    month and one of day, printed as year-month-day with at least four, two
    and two digits. *)
Lemma decodeParam_date (i pos : Z) (ps : list param) (unsigned : bool)
    (l y0 y1 m d : byte) :
  0 <= i < len ps -> declared i fieldTypeDate unsigned ->
  bytes_at pos [l; y0; y1; m; d] -> u8 l = 4 ->
  decode i pos ps =
    Some (Next (pos + 5)
            (<[Z.to_nat i :=
                 Pstring (fmt_0d 4 (Z.lor (u8 y0) (Z.shiftl (u8 y1) 8))
                          +:+ "-" +:+ fmt_0d 2 (u8 m) +:+ "-" +:+ fmt_0d 2 (u8 d))]>
               ps)).
Proof.
  intros Hi (nb & tp & fl & Hnb & Hclear & Htp & Hfl & Ht & ->) Hb Hl4.
  unfold decodeParam. rewrite Hnb. cbn [mbind option_bind]. rewrite Hclear.
  pose proof (index_Some_lt _ _ _ Hfl) as Hr.
  destruct (Z.geb_spec (Z.shiftl i 1 + 1) (len paramTypes)); [lia|].
  rewrite Htp, Hfl. cbn [mbind option_bind]. rewrite Ht.
  pose proof (bytes_at_len _ _ Hb) as Hl. change (len [l; y0; y1; m; d]) with 5 in Hl.
  destruct (Z.ltb_spec (len (vis paramValues)) (pos + 1)); [lia|].
  pose proof (bytes_at_index pos _ 0 l Hb eq_refl) as Hx.
  rewrite Z.add_0_r in Hx. rewrite Hx. cbn [mbind option_bind].
  rewrite Hl4. cbn [Z.eqb Pos.eqb].
  unfold parseBinaryDate.
  pose proof (bytes_at_slice pos _ 1 3 Hb) as Hs.
  replace (pos + 1 + 2) with (pos + 3) by lia.
  rewrite Hs by (unfold len; cbn; lia).
  cbn [mbind option_bind Z.sub Z.to_nat drop take Pos.to_nat Pos.iter_op Nat.add
       Z.pos_sub Z.succ_double Z.double Pos.pred_double Z.opp].
  change (LittleEndian_Uint16 _) with (Some (Z.lor (u8 y0) (Z.shiftl (u8 y1) 8))).
  cbn [mbind option_bind].
  rewrite (bytes_at_index pos _ 3 m Hb eq_refl). cbn [mbind option_bind].
  replace (pos + 3 + 1) with (pos + 4) by lia.
  rewrite (bytes_at_index pos _ 4 d Hb eq_refl). cbn [mbind option_bind].
  replace (pos + 4 + 1) with (pos + 5) by lia.
  rewrite assign_Some by exact Hi. reflexivity.
Qed.

End ParseExecParamsFacts.

(** ** What parseExecParams decodes *)

(** C6: [parseExecParams] decodes [NumParams] values in order: its loop
    takes the parameters one after the other, each from the position the
    one before it has left, and each turn writes its own entry.  A
    parameter whose bit is set in the null-bitmap is nil and takes no bytes.
    A one-byte parameter is unsigned when the high bit of the flag byte of
    its type is set (0xFF is 255) and signed otherwise (0xFF is -1).  A
    four-byte parameter is read little-endian (01 00 00 00 is 1).  A date
    with the length byte 4 is the string year-month-day of its two year
    bytes, its month byte and its day byte, with at least four, two and two
    digits. *)
Theorem parseExecParams_decodes {K : Consts}
    (nullBitmap paramTypes : list byte) (paramValues : Slice) :
  (forall stmt out,
     parseExecParams nullBitmap paramTypes paramValues stmt = (Some out, None) ->
     len out = NumParams stmt /\
     paramsLoop nullBitmap paramTypes paramValues (Z.to_nat (NumParams stmt)) 0 0
       (replicate (Z.to_nat (NumParams stmt)) Pnil) = Some (Some out, None)) /\
  (forall n i pos ps out,
     0 <= i ->
     paramsLoop nullBitmap paramTypes paramValues (S n) i pos ps
       = Some (Some out, None) ->
     exists pos' ps',
       decodeParam nullBitmap paramTypes paramValues i pos ps
         = Some (Next pos' ps') /\
       paramsLoop nullBitmap paramTypes paramValues n (i + 1) pos' ps'
         = Some (Some out, None) /\
       out !! Z.to_nat i = ps' !! Z.to_nat i) /\
  (forall i pos ps,
     0 <= i < len ps -> null_bit nullBitmap i ->
     decodeParam nullBitmap paramTypes paramValues i pos ps
       = Some (Next pos (<[Z.to_nat i := Pnil]> ps))) /\
  (forall i pos ps unsigned b,
     0 <= i < len ps -> declared nullBitmap paramTypes i fieldTypeTiny unsigned ->
     bytes_at paramValues pos [b] ->
     decodeParam nullBitmap paramTypes paramValues i pos ps
       = Some (Next (pos + 1)
                 (<[Z.to_nat i := if unsigned then Puint64 (u8 b)
                                  else Pint64 (wrap_int8 (u8 b))]> ps))) /\
  (u8 Byte.xff = 255 /\ wrap_int8 (u8 Byte.xff) = -1) /\
  (forall i pos ps t unsigned b0 b1 b2 b3,
     0 <= i < len ps -> t = fieldTypeInt24 \/ t = fieldTypeLong ->
     declared nullBitmap paramTypes i t unsigned ->
     bytes_at paramValues pos [b0; b1; b2; b3] ->
     let val := Z.lor (Z.lor (Z.lor (u8 b0) (Z.shiftl (u8 b1) 8))
                             (Z.shiftl (u8 b2) 16)) (Z.shiftl (u8 b3) 24) in
     decodeParam nullBitmap paramTypes paramValues i pos ps
       = Some (Next (pos + 4)
                 (<[Z.to_nat i := if unsigned then Puint64 val
                                  else Pint64 (wrap_int32 val)]> ps))) /\
  (Z.lor (Z.lor (Z.lor (u8 Byte.x01) (Z.shiftl (u8 Byte.x00) 8))
                (Z.shiftl (u8 Byte.x00) 16)) (Z.shiftl (u8 Byte.x00) 24) = 1 /\
   wrap_int32 1 = 1) /\
  (forall i pos ps unsigned l y0 y1 m d,
     0 <= i < len ps -> declared nullBitmap paramTypes i fieldTypeDate unsigned ->
     bytes_at paramValues pos [l; y0; y1; m; d] -> u8 l = 4 ->
     decodeParam nullBitmap paramTypes paramValues i pos ps
       = Some (Next (pos + 5)
                 (<[Z.to_nat i :=
                      Pstring (fmt_0d 4 (Z.lor (u8 y0) (Z.shiftl (u8 y1) 8))
                               +:+ "-" +:+ fmt_0d 2 (u8 m)
                               +:+ "-" +:+ fmt_0d 2 (u8 d))]> ps))) /\
  (fmt_0d 4 (Z.lor (u8 Byte.xe5) (Z.shiftl (u8 Byte.x07) 8))
     +:+ "-" +:+ fmt_0d 2 (u8 Byte.x0b) +:+ "-" +:+ fmt_0d 2 (u8 Byte.x06)
   = "2021-11-06"%string).
Proof.
  split.
  { intros stmt out H.
    split; [eapply parseExecParams_length|eapply parseExecParams_loop]; exact H. }
  split; [intros n i pos ps out Hi H; eapply paramsLoop_in_order; eassumption|].
  split; [intros i pos ps; apply decodeParam_null|].
  split; [intros i pos ps unsigned b; apply decodeParam_tiny|].
  split; [split; reflexivity|].
  split; [intros i pos ps t unsigned b0 b1 b2 b3; apply decodeParam_long|].
  split; [split; reflexivity|].
  split; [intros i pos ps unsigned l y0 y1 m d; apply decodeParam_date|].
  reflexivity.
Qed.

Lemma parseExecParams_decodes_witness :
  parseExecParams (K := mysql_consts) [Byte.x00] [Byte.x01; Byte.x80]
    (of_list [Byte.xff]) (mkStmt 1 "" 1 None) = (Some [Puint64 255], None) /\
  (len [Puint64 255] = 1 /\
   paramsLoop (K := mysql_consts) [Byte.x00] [Byte.x01; Byte.x80]
     (of_list [Byte.xff]) 1 0 0 [Pnil] = Some (Some [Puint64 255], None)) /\
  decodeParam (K := mysql_consts) [Byte.x00] [Byte.x01; Byte.x80]
    (of_list [Byte.xff]) 0 0 [Pnil] = Some (Next 1 [Puint64 255]) /\
  decodeParam (K := mysql_consts) [Byte.x00] [Byte.x01; Byte.x00]
    (of_list [Byte.xff]) 0 0 [Pnil] = Some (Next 1 [Pint64 (-1)]) /\
  decodeParam (K := mysql_consts) [Byte.x01] [Byte.x01; Byte.x00]
    (of_list [Byte.xff]) 0 0 [Pint64 7] = Some (Next 0 [Pnil]) /\
  decodeParam (K := mysql_consts) [Byte.x00] [Byte.x03; Byte.x00]
    (of_list [Byte.x01; Byte.x00; Byte.x00; Byte.x00]) 0 0 [Pnil]
    = Some (Next 4 [Pint64 1]) /\
  decodeParam (K := mysql_consts) [Byte.x00] [Byte.x0a; Byte.x00]
    (of_list [Byte.x04; Byte.xe5; Byte.x07; Byte.x0b; Byte.x06]) 0 0 [Pnil]
    = Some (Next 5 [Pstring "2021-11-06"]).
Proof.
  split; [reflexivity|].
  split.
  { apply (proj1 (parseExecParams_decodes (K := mysql_consts)
             [Byte.x00] [Byte.x01; Byte.x80] (of_list [Byte.xff]))
             (mkStmt 1 "" 1 None) [Puint64 255]).
    reflexivity. }
  split.
  { apply (proj1 (proj2 (proj2 (proj2 (parseExecParams_decodes (K := mysql_consts)
             [Byte.x00] [Byte.x01; Byte.x80] (of_list [Byte.xff])))))
             0 0 [Pnil] true Byte.xff).
    - vm_compute. split; congruence.
    - exists Byte.x00, Byte.x01, Byte.x80. repeat split; reflexivity.
    - exists [], []. split; reflexivity. }
  split.
  { apply (proj1 (proj2 (proj2 (proj2 (parseExecParams_decodes (K := mysql_consts)
             [Byte.x00] [Byte.x01; Byte.x00] (of_list [Byte.xff])))))
             0 0 [Pnil] false Byte.xff).
    - vm_compute. split; congruence.
    - exists Byte.x00, Byte.x01, Byte.x00. repeat split; reflexivity.
    - exists [], []. split; reflexivity. }
  split.
  { apply (proj1 (proj2 (proj2 (parseExecParams_decodes (K := mysql_consts)
             [Byte.x01] [Byte.x01; Byte.x00] (of_list [Byte.xff]))))
             0 0 [Pint64 7]).
    - vm_compute. split; congruence.
    - exists Byte.x01. split; reflexivity. }
  split.
  { apply (proj1 (proj2 (proj2 (proj2 (proj2 (proj2
             (parseExecParams_decodes (K := mysql_consts)
                [Byte.x00] [Byte.x03; Byte.x00]
                (of_list [Byte.x01; Byte.x00; Byte.x00; Byte.x00])))))))
             0 0 [Pnil] fieldTypeLong false Byte.x01 Byte.x00 Byte.x00 Byte.x00).
    - vm_compute. split; congruence.
    - right. reflexivity.
    - exists Byte.x00, Byte.x03, Byte.x00. repeat split; reflexivity.
    - exists [], []. split; reflexivity. }
  { apply (proj1 (proj2 (proj2 (proj2 (proj2 (proj2 (proj2 (proj2
             (parseExecParams_decodes (K := mysql_consts)
                [Byte.x00] [Byte.x0a; Byte.x00]
                (of_list [Byte.x04; Byte.xe5; Byte.x07; Byte.x0b; Byte.x06])))))))))
             0 0 [Pnil] false Byte.x04 Byte.xe5 Byte.x07 Byte.x0b Byte.x06).
    - vm_compute. split; congruence.
    - exists Byte.x00, Byte.x0a, Byte.x00. repeat split; reflexivity.
    - exists [], []. split; reflexivity.
    - reflexivity. }
Defined.

(** ** load *)

Section LoadFacts.

Context {K : Consts}.

(** The frame that ends the logical body starting at frame [k]: the first
    frame from [k] on whose payload is shorter than the maximum frame size. *)
Fixpoint firstShorter (ps : list MySQLPacket) (j : nat) : option nat :=
  match ps with
  | [] => None
  | p :: ps' => if Len p <? maxPacketSize then Some j else firstShorter ps' (S j)
  end.

Definition terminator (ps : list MySQLPacket) (k : nat) : option nat :=
  firstShorter (drop k ps) k.

(** Frame [k] begins a logical body: it is the first frame, or the frame
    before it is shorter than the maximum frame size. *)
Definition begins_body (ps : list MySQLPacket) (k : nat) : Prop :=
  k = 0%nat \/
  exists k' p, k = S k' /\ ps !! k' = Some p /\ Len p < maxPacketSize.

(** No frame is longer than the maximum frame size. *)
Definition frames_ok (ps : list MySQLPacket) : Prop :=
  Forall (fun p => Len p <= maxPacketSize) ps.

Lemma skipMax_firstShorter (ps : list MySQLPacket) (j : nat) :
  frames_ok ps ->
  skipMax ps j = default (j + length ps)%nat (firstShorter ps j).
Proof.
  intros Hok. revert j. induction Hok as [|p ps Hp Hok IH]; intros j; cbn.
  - lia.
  - destruct (Z.eqb_spec (Len p) maxPacketSize) as [E|E];
      destruct (Z.ltb_spec (Len p) maxPacketSize); try lia.
    + rewrite IH. destruct (firstShorter ps (S j)); cbn; lia.
    + reflexivity.
Qed.

Lemma firstShorter_spec (ps : list MySQLPacket) (j t : nat) :
  firstShorter ps j = Some t ->
  (j <= t)%nat /\
  (exists p, ps !! (t - j)%nat = Some p /\ Len p < maxPacketSize) /\
  (forall i p, (i < t - j)%nat -> ps !! i = Some p -> ~ Len p < maxPacketSize).
Proof.
  revert j. induction ps as [|q ps IH]; intros j; cbn; [discriminate|].
  destruct (Z.ltb_spec (Len q) maxPacketSize) as [Hq|Hq].
  - intros [= <-]. split; [lia|]. replace (j - j)%nat with 0%nat by lia.
    split; [exists q; split; [reflexivity|exact Hq]|]. intros; lia.
  - intros H. apply IH in H as (H1 & (p & Hp & Hlt) & H3).
    split; [lia|]. split.
    + exists p. split; [|exact Hlt].
      replace (t - j)%nat with (S (t - S j)) by lia. exact Hp.
    + intros [|i] p' Hi Hp'; cbn in Hp'.
      * injection Hp' as <-. lia.
      * apply (H3 i p'); [lia|exact Hp'].
Qed.

Lemma firstShorter_None (ps : list MySQLPacket) (j : nat) :
  firstShorter ps j = None ->
  forall i p, ps !! i = Some p -> ~ Len p < maxPacketSize.
Proof.
  revert j. induction ps as [|q ps IH]; intros j; cbn; [intros _ i p [=]|].
  destruct (Z.ltb_spec (Len q) maxPacketSize) as [Hq|Hq]; [discriminate|].
  intros H [|i] p Hp; cbn in Hp.
  - injection Hp as <-. lia.
  - eapply IH; eauto.
Qed.

(** The terminator of the body at [k] is at or behind [k], is shorter than
    the maximum frame size, and every frame from [k] up to it has the
    maximum frame size. *)
Lemma terminator_spec (ps : list MySQLPacket) (k t : nat) :
  frames_ok ps -> terminator ps k = Some t ->
  (k <= t < length ps)%nat /\
  (exists p, ps !! t = Some p /\ Len p < maxPacketSize) /\
  (forall i p, (k <= i < t)%nat -> ps !! i = Some p -> Len p = maxPacketSize).
Proof.
  intros Hok H. unfold terminator in H.
  apply firstShorter_spec in H as (H1 & (p & Hp & Hlt) & H3).
  rewrite lookup_drop in Hp. replace (k + (t - k))%nat with t in Hp by lia.
  split; [split; [exact H1|apply lookup_lt_Some in Hp; exact Hp]|].
  split; [eauto|].
  intros i q Hi Hq.
  assert (Len q <= maxPacketSize) as Hle.
  { unfold frames_ok in Hok. rewrite Forall_forall in Hok. apply Hok.
    eapply list_elem_of_lookup_2; exact Hq. }
  specialize (H3 (i - k)%nat q). rewrite lookup_drop in H3.
  replace (k + (i - k))%nat with i in H3 by lia.
  specialize (H3 ltac:(lia) Hq). lia.
Qed.

(** What a successful [load(k)] leaves: the payloads of frames [k..j] in
    the working buffer, [start] and [count] on that body. *)
Definition loaded (fsm : MySQLFSM) (k j : nat) : MySQLFSM :=
  set_count (Z.of_nat j - Z.of_nat k + 1)
    (set_start (Z.of_nat k)
       (set_data (writeFrames (packets fsm) k j (Buffer_Reset (data fsm))) fsm)).

Lemma loadLoop_spec (fuel i k : nat) (fsm : MySQLFSM) :
  frames_ok (packets fsm) ->
  (i <= k)%nat -> begins_body (packets fsm) i -> begins_body (packets fsm) k ->
  (length (packets fsm) <= fuel + i)%nat ->
  loadLoop fuel i (Z.of_nat k) fsm =
    match terminator (packets fsm) k with
    | Some j => (true, loaded fsm k j)
    | None => (false, fsm)
    end.
Proof.
  intros Hok. revert i. induction fuel as [|fuel IH]; intros i Hik Hbi Hbk Hfuel.
  - (* no frame at or behind [i] *)
    cbn [loadLoop].
    assert (terminator (packets fsm) k = None) as ->; [|reflexivity].
    unfold terminator. rewrite drop_ge by lia. reflexivity.
  - cbn [loadLoop].
    destruct (Nat.ltb_spec i (length (packets fsm))) as [Hlt|Hge].
    2:{ assert (terminator (packets fsm) k = None) as ->; [|reflexivity].
        unfold terminator. rewrite drop_ge by lia. reflexivity. }
    rewrite skipMax_firstShorter
      by (unfold frames_ok in *; apply Forall_drop; exact Hok).
    rewrite length_drop.
    destruct (firstShorter (drop i (packets fsm)) i) as [j|] eqn:Ej;
      cbn [default from_option id].
    + (* the body at [i] ends at [j] *)
      pose proof (terminator_spec _ _ _ Hok Ej) as ((Hij & Hjl) & (p & Hp & Hpl) & Hmax).
      destruct (Nat.eqb_spec j (length (packets fsm))); [lia|].
      destruct (Z.eqb_spec (Z.of_nat i) (Z.of_nat k)) as [E|E].
      * assert (i = k) as -> by lia. unfold terminator. rewrite Ej. reflexivity.
      * (* [k] lies behind the body at [i] *)
        assert (S j <= k)%nat as Hjk.
        { destruct Hbk as [->|(k' & q & -> & Hq & Hql)]; [lia|].
          destruct (Nat.le_gt_cases j k') as [|Hgt]; [lia|].
          assert (Len q = maxPacketSize); [|lia].
          apply (Hmax k' q); [lia|exact Hq]. }
        apply IH; [exact Hjk| |exact Hbk|lia].
        right. exists j, p. auto.
    + (* the body at [i] has no end yet: then [k] is [i] *)
      replace (i + (length (packets fsm) - i))%nat with (length (packets fsm)) by lia.
      rewrite Nat.eqb_refl.
      assert (k = i) as ->.
      { destruct Hbk as [->|(k' & q & -> & Hq & Hql)]; [lia|].
        destruct (Nat.le_gt_cases (S k') i) as [|Hgt]; [lia|].
        exfalso. apply (firstShorter_None _ _ Ej (k' - i)%nat q); [|exact Hql].
        rewrite lookup_drop. replace (i + (k' - i))%nat with k' by lia. exact Hq. }
      unfold terminator. rewrite Ej. reflexivity.
Qed.

Lemma Buffer_Write_content (p : list byte) (b : Buffer) :
  content (Buffer_Write p b) = content b ++ p.
Proof.
  unfold Buffer_Write. destruct (_ <=? _)%nat; reflexivity.
Qed.

Lemma writeFrames_content (ps : list MySQLPacket) (k j : nat) (b : Buffer) :
  content (writeFrames ps k j b)
    = content b ++ concat (Data <$> take (S j - k) (drop k ps)).
Proof.
  unfold writeFrames. generalize (take (S j - k) (drop k ps)) as l.
  intros l. revert b. induction l as [|p l IH]; intros b; cbn [foldl fmap list_fmap concat].
  - rewrite app_nil_r. reflexivity.
  - rewrite IH, Buffer_Write_content, <- app_assoc. reflexivity.
Qed.

End LoadFacts.

(** ** Frame conditions of the methods *)

(** The computation [m] leaves the part [f] of the machine as it is, also
    when it panics. *)
Definition preserves {S A B} (f : S -> B) (m : StateM S A) : Prop :=
  forall s, f (snd (m s)) = f s.

Lemma preserves_ret {S A B} (f : S -> B) (a : A) : preserves f (ret a).
Proof. intros s. reflexivity. Qed.

Lemma preserves_panic {S A B} (f : S -> B) : preserves f (@panic S A).
Proof. intros s. reflexivity. Qed.

Lemma preserves_lift {S A B} (f : S -> B) (o : option A) : preserves f (lift o).
Proof. intros s. reflexivity. Qed.

Lemma preserves_get {S A B} (f : S -> B) (g : S -> A) : preserves f (get g).
Proof. intros s. reflexivity. Qed.

Lemma preserves_modify {S B} (f : S -> B) (g : S -> S) :
  (forall s, f (g s) = f s) -> preserves f (modify g).
Proof. intros H s. apply H. Qed.

Lemma preserves_bind {S A A' B} (f : S -> B) (m : StateM S A) (k : A -> StateM S A') :
  preserves f m -> (forall a, preserves f (k a)) -> preserves f (bind m k).
Proof.
  intros Hm Hk s. unfold bind. specialize (Hm s).
  destruct (m s) as [[a|] s']; cbn [snd] in *.
  - rewrite Hk. exact Hm.
  - exact Hm.
Qed.

Lemma preserves_get_pr {A B} (f : MySQLFSM -> B) (g : PacketRes -> A) :
  preserves f (get_pr g).
Proof. intros s. unfold get_pr. destruct (pr s); reflexivity. Qed.

Lemma preserves_modify_pr {B} (f : MySQLFSM -> B) (g : PacketRes -> PacketRes) :
  (forall r s, f (set_pr r s) = f s) -> preserves f (modify_pr g).
Proof.
  intros H s. unfold modify_pr. destruct (pr s); cbn [snd]; [apply H|reflexivity].
Qed.

Create HintDb frame.

#[global] Hint Resolve preserves_ret preserves_panic preserves_lift preserves_get
  preserves_get_pr : frame.

(** Splits a goal [preserves f m] along the binds, conditionals and matches
    of [m]; the leaves are closed with the lemmas of the database. *)
Ltac frame_step :=
  match goal with
  | |- preserves _ (bind _ _) => apply preserves_bind; [|intros]
  | |- preserves _ (modify _) =>
      apply preserves_modify; intros []; reflexivity
  | |- preserves _ (modify_pr _) =>
      apply preserves_modify_pr; intros ? []; reflexivity
  | |- preserves _ (if ?b then _ else _) => destruct b
  | |- preserves _ (match ?x with _ => _ end) => destruct x
  | |- preserves _ _ => solve [eauto with frame]
  end.

Ltac frame := repeat frame_step.

Section FrameFacts.

Context {K : Consts} {R : Readers}.

Lemma loadLoop_frame (fuel i : nat) (k : Z) (fsm : MySQLFSM) :
  snd (loadLoop fuel i k fsm) = fsm \/
  exists b s c, snd (loadLoop fuel i k fsm) = set_count c (set_start s (set_data b fsm)).
Proof.
  revert i. induction fuel as [|fuel IH]; intros i; cbn [loadLoop].
  - left. reflexivity.
  - repeat match goal with
           | |- context [if ?b then _ else _] => destruct b
           end; cbn [snd]; eauto.
Qed.

Lemma load_frame {B} (f : MySQLFSM -> B) (k : Z) :
  (forall b s c fsm, f (set_count c (set_start s (set_data b fsm))) = f fsm) ->
  preserves f (load k).
Proof.
  intros H fsm. unfold load.
  destruct (loadLoop_frame (length (packets fsm)) 0 k fsm) as [E|(b & s & c & E)];
    destruct (loadLoop _ _ _ _) as [r fsm']; cbn [snd] in *; subst fsm'.
  - reflexivity.
  - apply H.
Qed.

Lemma load_packets (k : Z) : preserves packets (load k).
Proof. apply load_frame. intros b s c []. reflexivity. Qed.

Lemma load_pr (k : Z) : preserves pr (load k).
Proof. apply load_frame. intros b s c []. reflexivity. Qed.

Lemma load_state (k : Z) : preserves state (load k).
Proof. apply load_frame. intros b s c []. reflexivity. Qed.

Hint Resolve load_packets load_pr load_state : frame.

Lemma set_packets' (to : State) : preserves packets (set to).
Proof. unfold set. frame. Qed.

Lemma set_pr' (to : State) : preserves pr (set to).
Proof. unfold set. frame. Qed.

Hint Resolve set_packets' set_pr' : frame.

Lemma handleInitPacket_packets : preserves packets handleInitPacket.
Proof.
  unfold handleInitPacket, handleComQueryNoLoad, handleComStmtExecuteNoLoad,
    handleComStmtPrepareRequestNoLoad, handleComStmtCloseNoLoad,
    isClientCommand, isHandshakeRequest, assertDir, assertDataByte,
    data_Bytes, log_prefix.
  frame.
Qed.

Lemma handleInitPacket_pr : preserves pr handleInitPacket.
Proof.
  unfold handleInitPacket, handleComQueryNoLoad, handleComStmtExecuteNoLoad,
    handleComStmtPrepareRequestNoLoad, handleComStmtCloseNoLoad,
    isClientCommand, isHandshakeRequest, assertDir, assertDataByte,
    data_Bytes, log_prefix.
  frame.
Qed.

Lemma handleComStmtPrepareResponse_packets :
  preserves packets handleComStmtPrepareResponse.
Proof.
  unfold handleComStmtPrepareResponse, assertDir, assertDataByte, data_Bytes,
    log_prefix.
  frame.
Qed.

Lemma handleHandshakeResponse_packets : preserves packets handleHandshakeResponse.
Proof.
  unfold handleHandshakeResponse, assertDir, data_Bytes, log_prefix.
  frame.
Qed.

Lemma readResultSetHeaderPacket_packets : preserves packets readResultSetHeaderPacket.
Proof.
  unfold readResultSetHeaderPacket, handleOkPacket. frame.
Qed.

Lemma readColumns_packets (count : Z) : preserves packets (readColumns count).
Proof.
  unfold readColumns. frame.
Qed.

Hint Resolve readResultSetHeaderPacket_packets readColumns_packets : frame.

(** The row readers are parameters; they read the buffered frames and leave
    the buffer as it is. *)
Hypothesis textRows_Next_packets : preserves packets textRows_Next.
Hypothesis binaryRows_Next_packets : preserves packets binaryRows_Next.

Hint Resolve textRows_Next_packets binaryRows_Next_packets : frame.

Lemma handleReadSQLResult_packets : preserves packets handleReadSQLResult.
Proof.
  unfold handleReadSQLResult, modify_tRows, data_Bytes. frame.
Qed.

Lemma handleReadPrepareExecResult_packets :
  preserves packets handleReadPrepareExecResult.
Proof.
  unfold handleReadPrepareExecResult, modify_bRows, data_Bytes. frame.
Qed.

Hint Resolve handleInitPacket_packets handleComStmtPrepareResponse_packets
  handleHandshakeResponse_packets handleReadSQLResult_packets
  handleReadPrepareExecResult_packets : frame.

Lemma Handle_ready_packets (pkt : MySQLPacket) : preserves packets (Handle_ready pkt).
Proof.
  unfold Handle_ready, setStatusWithNoChange. frame.
Qed.

End FrameFacts.

(** ** The scratch fields of a command *)

(** The computation [m] leaves the part [f] of the machine as it is, or
    ends in a state of [P]. *)
Definition writes_under {A B} (f : MySQLFSM -> B) (P : State -> Prop) (m : M A)
  : Prop :=
  forall s, f (snd (m s)) = f s \/ P (state (snd (m s))).

(** The computation [m] ends in the state [to]. *)
Definition ends_in {A} (to : State) (m : M A) : Prop :=
  forall s, state (snd (m s)) = to.

Lemma writes_under_preserves {A B} (f : MySQLFSM -> B) (P : State -> Prop) (m : M A) :
  preserves f m -> writes_under f P m.
Proof. intros H s. left. apply H. Qed.

Lemma writes_under_ends {A B} (f : MySQLFSM -> B) (P : State -> Prop) (m : M A)
    (to : State) :
  ends_in to m -> P to -> writes_under f P m.
Proof. intros H Hp s. right. rewrite H. exact Hp. Qed.

Lemma writes_under_bind {A A' B} (f : MySQLFSM -> B) (P : State -> Prop)
    (m : M A) (k : A -> M A') :
  preserves f m -> (forall a, writes_under f P (k a)) -> writes_under f P (bind m k).
Proof.
  intros Hm Hk s. unfold bind. specialize (Hm s).
  destruct (m s) as [[a|] s']; cbn [snd] in *.
  - rewrite <- Hm. apply Hk.
  - left. exact Hm.
Qed.

Section ScratchFacts.

Context {K : Consts} {R : Readers}.

Lemma ends_in_set (to : State) : ends_in to (set to).
Proof. intros []. reflexivity. Qed.

Lemma ends_in_modify {A} (to : State) (g : MySQLFSM -> MySQLFSM) (k : unit -> M A) :
  ends_in to (k tt) -> ends_in to (bind (modify g) k).
Proof. intros H s. apply H. Qed.

Lemma load_query (k : Z) : preserves query (load k).
Proof. apply load_frame. intros b s c []. reflexivity. Qed.

Lemma load_stmt (k : Z) : preserves stmt (load k).
Proof. apply load_frame. intros b s c []. reflexivity. Qed.

Lemma load_params (k : Z) : preserves params (load k).
Proof. apply load_frame. intros b s c []. reflexivity. Qed.

Lemma set_query' (to : State) : preserves query (set to).
Proof. unfold set. frame. Qed.

Lemma set_stmt' (to : State) : preserves stmt (set to).
Proof. unfold set. frame. Qed.

Lemma set_params' (to : State) : preserves params (set to).
Proof. unfold set. frame. Qed.

Hint Resolve load_query load_stmt load_params set_query' set_stmt' set_params'
  : frame.

(** Splits a goal [writes_under f P m] along [m]: what comes before the
    last step leaves [f] as it is, and the last step does so too or ends in
    a state of [P]. *)
Ltac scratch_step :=
  match goal with
  | |- writes_under _ _ (bind _ _) =>
      first [ apply writes_under_bind; [solve [frame]|intros]
            | eapply writes_under_ends;
              [repeat apply ends_in_modify; apply ends_in_set|] ]
  | |- writes_under _ _ (if ?b then _ else _) => destruct b
  | |- writes_under _ _ (match ?x with _ => _ end) => destruct x
  | |- writes_under _ _ _ => apply writes_under_preserves; solve [frame]
  | |- writes_under _ _ _ => progress cbv zeta
  end.

Ltac scratch :=
  unfold handleInitPacket, handleComQueryNoLoad, handleComStmtExecuteNoLoad,
    handleComStmtPrepareRequestNoLoad, handleComStmtCloseNoLoad,
    isClientCommand, isHandshakeRequest, assertDir, assertDataByte,
    data_Bytes, log_prefix;
  repeat scratch_step.

(** [handleInitPacket] writes the query text only with the state ComQuery. *)
Lemma handleInitPacket_query :
  writes_under query (fun st => st = StateComQuery) handleInitPacket.
Proof. scratch; reflexivity. Qed.

(** It writes the decoded parameters only with the state ComStmtExecute. *)
Lemma handleInitPacket_params :
  writes_under params (fun st => st = StateComStmtExecute) handleInitPacket.
Proof. scratch; reflexivity. Qed.

(** It writes the target statement only with the states ComStmtExecute,
    ComStmtPrepare0 and ComStmtClose. *)
Lemma handleInitPacket_stmt :
  writes_under stmt
    (fun st => st = StateComStmtExecute \/ st = StateComStmtPrepare0 \/
               st = StateComStmtClose)
    handleInitPacket.
Proof. scratch; auto. Qed.

End ScratchFacts.

(** ** The step contract of Handle *)

Section HandleFacts.

Context {K : Consts} {R : Readers}.

(** With a frame in the buffer, the expected sequence number is the one of
    the last buffered frame plus one, modulo 256. *)
Lemma nextSeq_last (fsm : MySQLFSM) (ps : list MySQLPacket) (p : MySQLPacket) :
  packets fsm = ps ++ [p] -> nextSeq fsm = (Seq p + 1) mod 256.
Proof.
  intros E. unfold nextSeq. rewrite E.
  assert (len (ps ++ [p]) = len ps + 1) as El by (rewrite len_app; reflexivity).
  pose proof (len_nonneg ps).
  destruct (Z.eqb_spec (len (ps ++ [p])) 0); [lia|].
  rewrite El. replace (len ps + 1 - 1) with (len ps) by lia.
  rewrite index_app_r by lia. rewrite Z.sub_diag. reflexivity.
Qed.

Lemma nextSeq_empty (fsm : MySQLFSM) : packets fsm = [] -> nextSeq fsm = 0.
Proof. intros E. unfold nextSeq. rewrite E. reflexivity. Qed.

(** The machine after [InitValue], the begin timestamp and the first frame
    of a new command. *)
Definition started (pkt : MySQLPacket) (fsm : MySQLFSM) : MySQLFSM :=
  set_packets [pkt]
    (set_pr (Some (set_sqlBeginTime (wrap_uint64 (Time pkt)) new_PacketRes))
       (set_changed (bool_decide (state fsm <> StateInit))
          (set_state StateInit fsm))).

Lemma Handle_ready_Init (pkt : MySQLPacket) (fsm : MySQLFSM) :
  state fsm = StateInit ->
  Handle_ready pkt fsm = if Ready fsm then handleInitPacket fsm else (Some tt, fsm).
Proof.
  intros E. unfold Handle_ready, bind at 1, get at 1. cbn [fst snd].
  destruct (Ready fsm); cbn [negb]; [|reflexivity].
  unfold bind at 1, get at 1. rewrite E. reflexivity.
Qed.

Lemma Handle_quit (pkt : MySQLPacket) (fsm : MySQLFSM) :
  state fsm = StateComQuit ->
  Handle pkt fsm = (Some tt, set_changed false fsm).
Proof.
  intros E. destruct fsm. cbn in E. subst. reflexivity.
Qed.

Lemma Handle_start (pkt : MySQLPacket) (fsm : MySQLFSM) :
  state fsm <> StateComQuit -> Seq pkt = 0 ->
  state fsm <> StateComQuery1 -> state fsm <> StateComStmtExecute1 ->
  Handle pkt fsm = Handle_ready pkt (started pkt fsm).
Proof.
  intros H1 H2 H3 H4. destruct fsm as [ch st q sm pa sc us ss d ps sta co r].
  cbn [state] in *. unfold Handle, started.
  cbn [bind modify get set_changed state fst snd].
  rewrite bool_decide_eq_false_2 by exact H1.
  rewrite H2. cbn [Z.eqb].
  rewrite !bool_decide_eq_true_2 by assumption. cbn [andb].
  reflexivity.
Qed.

Lemma Handle_append (pkt : MySQLPacket) (fsm : MySQLFSM) :
  state fsm <> StateComQuit ->
  ~ (Seq pkt = 0 /\ state fsm <> StateComQuery1 /\ state fsm <> StateComStmtExecute1) ->
  Seq pkt = nextSeq fsm ->
  Handle pkt fsm =
    Handle_ready pkt (set_packets (packets fsm ++ [pkt]) (set_changed false fsm)).
Proof.
  intros H1 H2 H3. destruct fsm as [ch st q sm pa sc us ss d ps sta co r].
  cbn [state] in *. unfold Handle.
  cbn [bind modify get set_changed state fst snd].
  rewrite bool_decide_eq_false_2 by exact H1.
  cbn [bind get fst snd].
  match goal with
  | |- (if ?c then _ else _) _ = _ => destruct c eqn:Ec
  end.
  - exfalso. apply H2. apply andb_true_iff in Ec as [Ec Ec3].
    apply andb_true_iff in Ec as [Ec1 Ec2].
    apply Z.eqb_eq in Ec1. apply bool_decide_eq_true_1 in Ec2, Ec3. auto.
  - change (nextSeq _) with (nextSeq (mkFSM ch st q sm pa sc us ss d ps sta co r)).
    rewrite <- H3, Z.eqb_refl. reflexivity.
Qed.

Lemma Handle_skip (pkt : MySQLPacket) (fsm : MySQLFSM) :
  state fsm <> StateComQuit ->
  ~ (Seq pkt = 0 /\ state fsm <> StateComQuery1 /\ state fsm <> StateComStmtExecute1) ->
  Seq pkt <> nextSeq fsm ->
  Handle pkt fsm = (Some tt, set_state StateSkipPacket (set_changed false fsm)).
Proof.
  intros H1 H2 H3. destruct fsm as [ch st q sm pa sc us ss d ps sta co r].
  cbn [state] in *. unfold Handle.
  cbn [bind modify get set_changed state fst snd].
  rewrite bool_decide_eq_false_2 by exact H1.
  cbn [bind get fst snd].
  match goal with
  | |- (if ?c then _ else _) _ = _ => destruct c eqn:Ec
  end.
  - exfalso. apply H2. apply andb_true_iff in Ec as [Ec Ec3].
    apply andb_true_iff in Ec as [Ec1 Ec2].
    apply Z.eqb_eq in Ec1. apply bool_decide_eq_true_1 in Ec2, Ec3. auto.
  - change (nextSeq _) with (nextSeq (mkFSM ch st q sm pa sc us ss d ps sta co r)).
    destruct (Z.eqb_spec (nextSeq (mkFSM ch st q sm pa sc us ss d ps sta co r))
                         (Seq pkt)); [congruence|reflexivity].
Qed.

End HandleFacts.

(** ** The caller of parseExecParams *)

Lemma slice_from_cons {A} (x : A) (s : list A) : slice_from (x :: s) 1 = Some s.
Proof.
  rewrite slice_from_Some by (unfold len; cbn [length]; lia). reflexivity.
Qed.

Lemma readBytesN_app (hd tl : list byte) (n : Z) :
  len hd = n -> readBytesN (hd ++ tl) n = Some (Some hd, tl, true).
Proof.
  intros <-. unfold readBytesN. rewrite len_app.
  pose proof (len_nonneg hd). pose proof (len_nonneg tl).
  destruct (Z.ltb_spec (len hd + len tl) (len hd)); [lia|].
  unfold slice_to. rewrite slice_Some by (rewrite ?len_app; lia).
  rewrite slice_from_app. cbn [mbind option_bind].
  rewrite Z.sub_0_r. unfold len. rewrite Nat2Z.id.
  change (Z.to_nat 0) with 0%nat. rewrite drop_0, take_app_length. reflexivity.
Qed.

Lemma readUint32_cons (i0 i1 i2 i3 : byte) (tl : list byte) :
  readUint32 (i0 :: i1 :: i2 :: i3 :: tl) =
    Some (Z.lor (Z.lor (Z.lor (u8 i0) (Z.shiftl (u8 i1) 8)) (Z.shiftl (u8 i2) 16))
                (Z.shiftl (u8 i3) 24), tl, true).
Proof.
  unfold readUint32.
  destruct (Z.ltb_spec (len (i0 :: i1 :: i2 :: i3 :: tl)) 4) as [H|H];
    [unfold len in H; cbn [length] in H; lia|].
  change (LittleEndian_Uint32 (i0 :: i1 :: i2 :: i3 :: tl)) with
    (Some (Z.lor (Z.lor (Z.lor (u8 i0) (Z.shiftl (u8 i1) 8)) (Z.shiftl (u8 i2) 16))
                 (Z.shiftl (u8 i3) 24))).
  cbn [mbind option_bind].
  rewrite slice_from_Some by (unfold len; cbn [length]; lia).
  reflexivity.
Qed.

Lemma set_run (to : State) (fsm : MySQLFSM) :
  set to fsm
    = (Some tt, set_changed (bool_decide (state fsm <> to)) (set_state to fsm)).
Proof. destruct fsm. reflexivity. Qed.

Lemma set_run_state (to : State) (fsm : MySQLFSM) :
  state (snd (set to fsm)) = to /\
  packets (snd (set to fsm)) = packets fsm /\
  params (snd (set to fsm)) = params fsm.
Proof. destruct fsm. auto. Qed.

(** Running a bind whose first computation is known. *)
Lemma bind_get {S A B} (f : S -> A) (k : A -> StateM S B) (s : S) :
  bind (get f) k s = k (f s) s.
Proof. reflexivity. Qed.

Lemma bind_lift_Some {S A B} (a : A) (k : A -> StateM S B) (s : S) :
  bind (lift (Some a)) k s = k a s.
Proof. reflexivity. Qed.

Lemma bind_modify {S B} (g : S -> S) (k : unit -> StateM S B) (s : S) :
  bind (modify g) k s = k tt (g s).
Proof. reflexivity. Qed.

Lemma bind_ret {S A B} (a : A) (k : A -> StateM S B) (s : S) :
  bind (ret a) k s = k a s.
Proof. reflexivity. Qed.

Lemma index_cons_0 {A} (x : A) (s : list A) : index (x :: s) 0 = Some x.
Proof. reflexivity. Qed.

Section ExecuteFacts.

Context {K : Consts}.

(** The buffer of an execute command: the command byte, four bytes of
    statement id, five bytes of flags and iteration count, the null-bitmap,
    the new-params-bound flag and the rest. *)
Definition execute_body (i0 i1 i2 i3 : byte) (five nullBitmap : list byte)
    (bound : byte) (rest : list byte) : list byte :=
  [i0; i1; i2; i3] ++ five ++ nullBitmap ++ bound :: rest.

Definition stmt_id (i0 i1 i2 i3 : byte) : Z :=
  Z.lor (Z.lor (Z.lor (u8 i0) (Z.shiftl (u8 i1) 8)) (Z.shiftl (u8 i2) 16))
        (Z.shiftl (u8 i3) 24).

(** The types, values and statement that [handleComStmtExecuteNoLoad] hands
    to [parseExecParams]: the types come with the command when the
    new-params-bound flag is 1 and from the statement otherwise. *)
Definition execute_types (stmt : Stmt) (bound : byte) (rest : list byte)
  : option (list byte) :=
  if u8 bound =? 1 then Some (take (Z.to_nat (2 * NumParams stmt)) rest)
  else types stmt.

Definition execute_values (stmt : Stmt) (bound : byte) (rest : list byte)
  : list byte :=
  if u8 bound =? 1 then drop (Z.to_nat (2 * NumParams stmt)) rest else rest.

Definition execute_stmt (stmt : Stmt) (bound : byte) (rest : list byte) : Stmt :=
  if u8 bound =? 1
  then mkStmt (ID stmt) (Query stmt) (NumParams stmt)
              (Some (take (Z.to_nat (2 * NumParams stmt)) rest))
  else stmt.

(** When [parseExecParams] gives an error, [handleComStmtExecuteNoLoad]
    returns with the machine in the state Unknown; it has stored the types
    that came with the command. *)
Lemma handleComStmtExecuteNoLoad_error (fsm : MySQLFSM) (cmd i0 i1 i2 i3 : byte)
    (five nullBitmap : list byte) (bound : byte) (rest paramTypes : list byte)
    (stmt : Stmt) out err :
  content (data fsm) = cmd :: execute_body i0 i1 i2 i3 five nullBitmap bound rest ->
  stmts fsm !! stmt_id i0 i1 i2 i3 = Some stmt ->
  len five = 5 ->
  NumParams stmt > 0 ->
  len nullBitmap = Z.shiftr (NumParams stmt + 7) 3 ->
  2 * NumParams stmt <= len rest ->
  execute_types stmt bound rest = Some paramTypes ->
  parseExecParams nullBitmap paramTypes
    (mkSlice (execute_values stmt bound rest) (slack (data fsm)))
    (execute_stmt stmt bound rest) = (out, Some err) ->
  exists fsm',
    handleComStmtExecuteNoLoad fsm = (Some tt, fsm') /\
    state fsm' = StateUnknown /\
    packets fsm' = packets fsm /\
    params fsm' = params fsm.
Proof.
  intros Hc Hid H5 Hn Hnb Hrest Hty Hparse.
  unfold handleComStmtExecuteNoLoad, data_Bytes.
  rewrite bind_get, Hc, bind_get, slice_from_cons, bind_lift_Some.
  unfold execute_body. cbn [app].
  rewrite readUint32_cons, bind_lift_Some. fold (stmt_id i0 i1 i2 i3).
  cbv beta iota. cbn [negb].
  rewrite bind_get, Hid.
  rewrite (readBytesN_app five _ 5 H5), bind_lift_Some.
  cbv beta iota. cbn [negb].
  destruct (Z.gtb_spec (NumParams stmt) 0) as [_|]; [|lia].
  rewrite (readBytesN_app nullBitmap _ _ Hnb), bind_lift_Some.
  cbv beta iota. cbn [negb].
  assert (len (bound :: rest) = 1 + len rest) as Hl
    by (unfold len; cbn [length]; lia).
  destruct (Z.ltb_spec (len (bound :: rest)) (1 + 2 * NumParams stmt)); [lia|].
  rewrite index_cons_0, bind_lift_Some.
  unfold execute_types, execute_values, execute_stmt in *.
  cbn [default from_option id].
  destruct (u8 bound =? 1).
  - injection Hty as <-.
    pose proof (len_nonneg rest) as Hr0.
    rewrite Z.shiftl_mul_pow2 by lia. change (2 ^ 1) with 2.
    replace (NumParams stmt * 2) with (2 * NumParams stmt) by lia.
    rewrite slice_Some by lia.
    replace (1 + 2 * NumParams stmt - 1) with (2 * NumParams stmt) by lia.
    change (drop (Z.to_nat 1) (bound :: rest)) with rest.
    rewrite bind_lift_Some.
    rewrite slice_from_Some by lia.
    replace (Z.to_nat (1 + 2 * NumParams stmt))
      with (S (Z.to_nat (2 * NumParams stmt))) by lia.
    cbn [drop].
    rewrite bind_lift_Some, bind_modify.
    rewrite Hparse.
    match goal with
    | |- exists _, set _ ?s = _ /\ _ =>
        exists (snd (set StateUnknown s));
        split; [rewrite set_run; reflexivity|];
        destruct (set_run_state StateUnknown s) as (-> & -> & ->)
    end.
    destruct fsm; auto.
  - rewrite Hty.
    rewrite slice_from_cons, bind_lift_Some.
    rewrite Hparse.
    exists (snd (set StateUnknown fsm)).
    split; [rewrite set_run; reflexivity|].
    apply set_run_state.
Qed.
End ExecuteFacts.

(** ** Reassembly, the step contract and malformed execute commands *)

(** C8: for a list of buffered frames none of which is longer than the
    maximum frame size, and a frame [k] that begins a logical body,
    [load(k)] looks for the first frame from [k] on that is shorter than the
    maximum frame size.  When there is one, at [t], the frames from [k] up
    to [t] have the maximum frame size, [load(k)] returns true and the
    working buffer holds the payloads of the frames [k] to [t], in order.
    When there is none, every frame from [k] on has the maximum frame size,
    [load(k)] returns false and the machine is as it was. *)
Theorem load_spec {K : Consts} (fsm : MySQLFSM) (k : nat) :
  frames_ok (packets fsm) -> begins_body (packets fsm) k ->
  match terminator (packets fsm) k with
  | Some t =>
      load (Z.of_nat k) fsm = (Some true, loaded fsm k t) /\
      content (data (loaded fsm k t))
        = concat (Data <$> take (S t - k) (drop k (packets fsm))) /\
      (k <= t < length (packets fsm))%nat /\
      (exists p, packets fsm !! t = Some p /\ Len p < maxPacketSize) /\
      (forall i p, (k <= i < t)%nat -> packets fsm !! i = Some p ->
                   Len p = maxPacketSize)
  | None =>
      load (Z.of_nat k) fsm = (Some false, fsm) /\
      (forall i p, (k <= i)%nat -> packets fsm !! i = Some p ->
                   Len p = maxPacketSize)
  end.
Proof.
  intros Hok Hk.
  assert (load (Z.of_nat k) fsm =
          match terminator (packets fsm) k with
          | Some j => (Some true, loaded fsm k j)
          | None => (Some false, fsm)
          end) as Hload.
  { unfold load.
    rewrite (loadLoop_spec (length (packets fsm)) 0 k fsm Hok); try lia.
    - destruct (terminator (packets fsm) k); reflexivity.
    - left. reflexivity.
    - exact Hk. }
  destruct (terminator (packets fsm) k) as [t|] eqn:Et.
  - split; [exact Hload|].
    split.
    { unfold loaded. destruct fsm as [ch st q sm pa sc us ss d ps sta co r].
      cbn [set_count set_start set_data data packets].
      rewrite writeFrames_content. reflexivity. }
    apply terminator_spec; assumption.
  - split; [exact Hload|].
    intros i p Hi Hp. unfold terminator in Et.
    assert (drop k (packets fsm) !! (i - k)%nat = Some p) as Hd.
    { rewrite lookup_drop. replace (k + (i - k))%nat with i by lia. exact Hp. }
    pose proof (firstShorter_None _ _ Et _ _ Hd) as Hn.
    assert (Len p <= maxPacketSize) as Hle.
    { unfold frames_ok in Hok. rewrite Forall_forall in Hok. apply Hok.
      eapply list_elem_of_lookup_2; exact Hp. }
    lia.
Qed.

(** A machine with two buffered frames, the first of the maximum size. *)
Definition two_frames : MySQLFSM :=
  set_packets
    [mkPacket 0 0 (maxPacketSize (Consts := mysql_consts)) [Byte.x03; Byte.x61]
       TCPDirClientToServer;
     mkPacket 1 0 1 [Byte.x62] TCPDirClientToServer]
    NewMySQLFSM.

Lemma load_spec_witness :
  load (K := mysql_consts) 0 two_frames
    = (Some true, loaded (K := mysql_consts) two_frames 0 1) /\
  content (data (loaded (K := mysql_consts) two_frames 0 1))
    = [Byte.x03; Byte.x61; Byte.x62] /\
  (0 <= 1 < 2)%nat /\
  (exists p, packets two_frames !! 1%nat = Some p /\
             Len p < maxPacketSize (Consts := mysql_consts)) /\
  (forall i p, (0 <= i < 1)%nat -> packets two_frames !! i = Some p ->
               Len p = maxPacketSize (Consts := mysql_consts)).
Proof.
  apply (load_spec (K := mysql_consts) two_frames 0).
  - repeat constructor; vm_compute; congruence.
  - left. reflexivity.
Defined.


Lemma end_of_rows_packets : preserves packets end_of_rows.
Proof.
  unfold end_of_rows. apply preserves_bind.
  - apply preserves_modify_pr. intros r s. destruct s; reflexivity.
  - intros a. apply preserves_ret.
Qed.

(** The first frame of a query, and the frame after it. *)
Definition query_frame : MySQLPacket :=
  mkPacket 0 1636156800000000000 2 [Byte.x03; Byte.x61] TCPDirClientToServer.

Definition reply_frame (seq : Z) : MySQLPacket :=
  mkPacket seq 1636156800000001000 1 [Byte.x00] TCPDirServerToClient.

Definition after_query : MySQLFSM :=
  snd (Handle (K := mysql_consts) (R := sample_readers) query_frame NewMySQLFSM).

(** The first frame of a prepare, and of an execute of the statement 1 with
    one parameter, the tiny integer -1. *)
Definition prepare_frame : MySQLPacket :=
  mkPacket 0 1636156800000002000 2 [Byte.x16; Byte.x62] TCPDirClientToServer.

Definition execute_frame : MySQLPacket :=
  mkPacket 0 1636156800000000000 15
    ([Byte.x17] ++
     execute_body Byte.x01 Byte.x00 Byte.x00 Byte.x00
       [Byte.x00; Byte.x01; Byte.x00; Byte.x00; Byte.x00]
       [Byte.x00] Byte.x01 [Byte.x01; Byte.x00; Byte.xff])
    TCPDirClientToServer.

Definition after_execute : MySQLFSM :=
  snd (Handle (K := mysql_consts) (R := sample_readers) execute_frame
         (set_stmts {[ 1 := mkStmt 1 "select ?" 1 None ]} NewMySQLFSM)).



(** C7: [parseExecParams] returns for every null-bitmap, type vector and
    value bytes: it gives a parameter vector of [NumParams] entries and no
    error, or nil and an error; a panic of its body comes out as the error
    "malformed packet".  When it gives an error, its caller
    [handleComStmtExecuteNoLoad] returns with the machine in the state
    Unknown, which is not the final state Quit: the next frame with the
    sequence number 0 starts a command as in every other state. *)
Theorem parseExecParams_never_panics {K : Consts} {R : Readers} :
  (forall nullBitmap paramTypes paramValues stmt,
     (exists out,
        parseExecParams nullBitmap paramTypes paramValues stmt = (Some out, None) /\
        len out = NumParams stmt) \/
     (exists err,
        parseExecParams nullBitmap paramTypes paramValues stmt = (None, Some err))) /\
  (forall nullBitmap paramTypes paramValues stmt,
     parseExecParams_body nullBitmap paramTypes paramValues stmt = None ->
     parseExecParams nullBitmap paramTypes paramValues stmt
       = (None, Some (errors_New "malformed packet"))) /\
  (forall fsm cmd i0 i1 i2 i3 five nullBitmap bound rest paramTypes stmt out err,
     content (data fsm) = cmd :: execute_body i0 i1 i2 i3 five nullBitmap bound rest ->
     stmts fsm !! stmt_id i0 i1 i2 i3 = Some stmt ->
     len five = 5 ->
     NumParams stmt > 0 ->
     len nullBitmap = Z.shiftr (NumParams stmt + 7) 3 ->
     2 * NumParams stmt <= len rest ->
     execute_types stmt bound rest = Some paramTypes ->
     parseExecParams nullBitmap paramTypes
       (mkSlice (execute_values stmt bound rest) (slack (data fsm)))
       (execute_stmt stmt bound rest) = (out, Some err) ->
     exists fsm',
       handleComStmtExecuteNoLoad fsm = (Some tt, fsm') /\
       state fsm' = StateUnknown /\
       packets fsm' = packets fsm /\
       params fsm' = params fsm) /\
  StateUnknown <> StateComQuit /\
  (forall pkt fsm,
     state fsm = StateUnknown -> Seq pkt = 0 ->
     Handle pkt fsm = Handle_ready pkt (started pkt fsm) /\
     state (started pkt fsm) = StateInit).
Proof.
  split.
  { intros nullBitmap paramTypes paramValues stmt.
    apply (parseExecParams_total nullBitmap paramTypes paramValues stmt). }
  split.
  { intros nullBitmap paramTypes paramValues stmt.
    apply (parseExecParams_total nullBitmap paramTypes paramValues stmt). }
  split.
  { intros fsm cmd i0 i1 i2 i3 five nullBitmap bound rest paramTypes stmt out err.
    apply handleComStmtExecuteNoLoad_error. }
  split; [discriminate|].
  intros pkt fsm Es E0. split.
  - apply Handle_start; [| exact E0 | |]; rewrite Es; discriminate.
  - destruct fsm; reflexivity.
Qed.

(** A machine that knows the statement 1, with one parameter, and has the
    body of an execute command for it in its working buffer: the types say
    that the parameter is a date, its length byte says that four bytes
    follow, and there is one. *)
Definition short_execute : MySQLFSM :=
  set_stmts {[ 1 := mkStmt 1 "select ?" 1 None ]}
    (set_data
       (mkBuffer
          ([Byte.x17] ++
           execute_body Byte.x01 Byte.x00 Byte.x00 Byte.x00
             [Byte.x00; Byte.x01; Byte.x00; Byte.x00; Byte.x00]
             [Byte.x00] Byte.x01 [Byte.x0a; Byte.x00; Byte.x04; Byte.x01]) [])
       NewMySQLFSM).

Lemma parseExecParams_never_panics_witness :
  parseExecParams (K := mysql_consts) [Byte.x00] [Byte.x0a; Byte.x00]
    (mkSlice [Byte.x04; Byte.x01] [])
    (mkStmt 1 "select ?" 1 (Some [Byte.x0a; Byte.x00]))
    = (None, Some (errors_New "malformed packet")) /\
  exists fsm',
    handleComStmtExecuteNoLoad (K := mysql_consts) short_execute = (Some tt, fsm') /\
    state fsm' = StateUnknown /\
    packets fsm' = packets short_execute /\
    params fsm' = params short_execute.
Proof.
  pose proof (parseExecParams_never_panics (K := mysql_consts) (R := sample_readers))
    as (_ & Hm & He & _).
  assert (parseExecParams (K := mysql_consts) [Byte.x00] [Byte.x0a; Byte.x00]
            (mkSlice [Byte.x04; Byte.x01] [])
            (mkStmt 1 "select ?" 1 (Some [Byte.x0a; Byte.x00]))
          = (None, Some (errors_New "malformed packet"))) as Hp.
  { apply Hm. reflexivity. }
  split; [exact Hp|].
  apply (He short_execute Byte.x17 Byte.x01 Byte.x00 Byte.x00 Byte.x00
            [Byte.x00; Byte.x01; Byte.x00; Byte.x00; Byte.x00]
            [Byte.x00] Byte.x01 [Byte.x0a; Byte.x00; Byte.x04; Byte.x01]
            [Byte.x0a; Byte.x00]
            (mkStmt 1 "select ?" 1 None) None (errors_New "malformed packet")).
  - reflexivity.
  - reflexivity.
  - reflexivity.
  - reflexivity.
  - reflexivity.
  - vm_compute. discriminate.
  - reflexivity.
  - exact Hp.
Defined.

(** ** Further properties of the decoders and the state machine *)

(** ** The readers of the packet body *)

Lemma slice_to_Some {A} (s : list A) (hi : Z) :
  0 <= hi <= len s -> slice_to s hi = Some (take (Z.to_nat hi) s).
Proof.
  intros H. unfold slice_to. rewrite slice_Some by lia.
  rewrite Z.sub_0_r. reflexivity.
Qed.

Lemma slice_None {A} (s : list A) (lo hi : Z) :
  lo < 0 \/ hi < lo \/ len s < hi -> slice s lo hi = None.
Proof.
  intros H. unfold slice.
  destruct (Z.leb_spec 0 lo); [|reflexivity].
  destruct (Z.leb_spec lo hi); [|reflexivity].
  destruct (Z.leb_spec hi (len s)); [lia|reflexivity].
Qed.

Lemma readUint16_spec (data : list byte) :
  exists v,
    readUint16 data
      = Some (if len data <? 2 then (0, data, false)
              else (v, drop 2 data, true)) /\
    (2 <= len data -> LittleEndian_Uint16 data = Some v).
Proof.
  unfold readUint16. destruct (Z.ltb_spec (len data) 2) as [H|H].
  - exists 0. split; [reflexivity|lia].
  - rewrite slice_from_Some by lia.
    destruct data as [|b0 [|b1 data]]; try (unfold len in H; cbn in H; lia).
    eexists. split; [|intros _; reflexivity]. reflexivity.
Qed.

Lemma readUint32_spec (data : list byte) :
  exists v,
    readUint32 data
      = Some (if len data <? 4 then (0, data, false)
              else (v, drop 4 data, true)) /\
    (4 <= len data -> LittleEndian_Uint32 data = Some v).
Proof.
  unfold readUint32. destruct (Z.ltb_spec (len data) 4) as [H|H].
  - exists 0. split; [reflexivity|lia].
  - rewrite slice_from_Some by lia.
    destruct data as [|b0 [|b1 [|b2 [|b3 data]]]];
      try (unfold len in H; cbn in H; lia).
    eexists. split; [|intros _; reflexivity]. reflexivity.
Qed.

Lemma readBytesN_spec (data : list byte) (n : Z) :
  0 <= n ->
  readBytesN data n
    = Some (if len data <? n then (None, data, false)
            else (Some (take (Z.to_nat n) data), drop (Z.to_nat n) data, true)).
Proof.
  intros Hn. unfold readBytesN.
  destruct (Z.ltb_spec (len data) n) as [H|H]; [reflexivity|].
  rewrite slice_to_Some, slice_from_Some by lia. reflexivity.
Qed.

Lemma readBytesN_negative (data : list byte) (n : Z) :
  n < 0 -> readBytesN data n = None.
Proof.
  intros Hn. unfold readBytesN.
  pose proof (len_nonneg data).
  destruct (Z.ltb_spec (len data) n); [lia|].
  unfold slice_to. rewrite slice_None by lia. reflexivity.
Qed.

(** X1: the fixed-width readers and [readBytesN] return for every buffer
    (for [readBytesN], for every count that is not negative).  When they
    fail they give back the buffer they were given, with the value 0 or nil;
    when they succeed the buffer holds at least the bytes asked for, the
    rest is the buffer without them, and [readBytesN] gives exactly those
    bytes.  [readBytesN] with a negative count panics. *)
Theorem readers_consume_or_give_back (data : list byte) :
  (exists v,
     readUint16 data
       = Some (if len data <? 2 then (0, data, false)
               else (v, drop 2 data, true)) /\
     (2 <= len data -> LittleEndian_Uint16 data = Some v)) /\
  (exists v,
     readUint32 data
       = Some (if len data <? 4 then (0, data, false)
               else (v, drop 4 data, true)) /\
     (4 <= len data -> LittleEndian_Uint32 data = Some v)) /\
  (forall n, 0 <= n ->
     readBytesN data n
       = Some (if len data <? n then (None, data, false)
               else (Some (take (Z.to_nat n) data), drop (Z.to_nat n) data, true)) /\
     (n <= len data ->
      data = take (Z.to_nat n) data ++ drop (Z.to_nat n) data /\
      len (take (Z.to_nat n) data) = n)) /\
  (forall n, n < 0 -> readBytesN data n = None).
Proof.
  split; [apply readUint16_spec|].
  split; [apply readUint32_spec|].
  split; [|apply readBytesN_negative].
  intros n Hn. split; [apply readBytesN_spec; exact Hn|].
  intros Hle. split.
  - symmetry. apply take_drop.
  - unfold len in *. rewrite length_take. lia.
Qed.

Lemma readers_consume_or_give_back_witness :
  readBytesN [Byte.x01; Byte.x02; Byte.x03] 2
    = Some (Some [Byte.x01; Byte.x02], [Byte.x03], true) /\
  readBytesN [Byte.x01; Byte.x02; Byte.x03] 4
    = Some (None, [Byte.x01; Byte.x02; Byte.x03], false) /\
  readBytesN [Byte.x01; Byte.x02; Byte.x03] (-1) = None /\
  LittleEndian_Uint16 [Byte.x01; Byte.x02; Byte.x03] = Some 513.
Proof.
  pose proof (readers_consume_or_give_back [Byte.x01; Byte.x02; Byte.x03])
    as ((v & Hv & Hle) & _ & Hn & Hneg).
  split; [apply (Hn 2); lia|].
  split; [apply (Hn 4); lia|].
  split; [apply (Hneg (-1)); lia|].
  reflexivity.
Defined.

Lemma readBytesNUL_from_spec (data s rest : list byte) (i : nat) :
  Forall (fun b => u8 b <> 0) s ->
  i = length (take i data) -> drop i data = s ++ Byte.x00 :: rest ->
  readBytesNUL_from i data (drop i data)
    = (Some (take i data ++ s), rest, true).
Proof.
  intros Hs. revert i. induction Hs as [|b s Hb Hs IH]; intros i Hi Hd.
  - rewrite Hd. cbn [readBytesNUL_from app]. change (u8 Byte.x00 =? 0) with true.
    cbv iota. rewrite app_nil_r.
    assert (drop (S i) data = rest) as ->; [|reflexivity].
    replace (S i) with (i + 1)%nat by lia.
    rewrite <- drop_drop, Hd. reflexivity.
  - rewrite Hd. cbn [readBytesNUL_from app].
    destruct (Z.eqb_spec (u8 b) 0) as [E|_]; [contradiction|].
    assert (drop (S i) data = s ++ Byte.x00 :: rest) as Hd'.
    { replace (S i) with (i + 1)%nat by lia.
      rewrite <- drop_drop, Hd. reflexivity. }
    assert (take (S i) data = take i data ++ [b]) as Ht.
    { rewrite <- (take_drop i data) at 1. rewrite Hd.
      rewrite take_app_ge by lia.
      replace (S i - length (take i data))%nat with 1%nat by lia.
      reflexivity. }
    rewrite <- Hd'. rewrite IH.
    + rewrite Ht, <- app_assoc. reflexivity.
    + rewrite Ht, length_app. cbn. lia.
    + exact Hd'.
Qed.

Lemma readBytesNUL_from_none (data rest : list byte) (i : nat) :
  Forall (fun b => u8 b <> 0) rest ->
  readBytesNUL_from i data rest = (None, data, false).
Proof.
  intros Hr. revert i. induction Hr as [|b rest Hb Hr IH]; intros i;
    cbn [readBytesNUL_from]; [reflexivity|].
  destruct (Z.eqb_spec (u8 b) 0); [contradiction|apply IH].
Qed.

Lemma readBytesNUL_app (s rest : list byte) :
  Forall (fun b => u8 b <> 0) s ->
  readBytesNUL (s ++ Byte.x00 :: rest) = (Some s, rest, true).
Proof.
  intros Hs. unfold readBytesNUL.
  apply (readBytesNUL_from_spec (s ++ Byte.x00 :: rest) s rest 0 Hs);
    reflexivity.
Qed.

(** X2: [readBytesNUL] cuts the buffer at its first zero byte: it gives the
    bytes before it and the bytes behind it, without the zero byte.  A
    buffer without a zero byte is given back as it is, with nil. *)
Theorem readBytesNUL_first_zero (s rest : list byte) :
  Forall (fun b => u8 b <> 0) s ->
  readBytesNUL (s ++ Byte.x00 :: rest) = (Some s, rest, true) /\
  readBytesNUL s = (None, s, false).
Proof.
  intros Hs. split.
  - apply readBytesNUL_app. exact Hs.
  - apply readBytesNUL_from_none. exact Hs.
Qed.

Lemma readBytesNUL_first_zero_witness :
  readBytesNUL ([Byte.x72; Byte.x6f; Byte.x6f; Byte.x74]
                  ++ Byte.x00 :: [Byte.x14; Byte.x00])
    = (Some [Byte.x72; Byte.x6f; Byte.x6f; Byte.x74], [Byte.x14; Byte.x00], true) /\
  readBytesNUL [Byte.x72; Byte.x6f; Byte.x6f; Byte.x74]
    = (None, [Byte.x72; Byte.x6f; Byte.x6f; Byte.x74], false).
Proof.
  apply (readBytesNUL_first_zero [Byte.x72; Byte.x6f; Byte.x6f; Byte.x74]
           [Byte.x14; Byte.x00]).
  repeat constructor; vm_compute; discriminate.
Defined.

Lemma wrap_int_small (z : Z) : - 2 ^ 63 <= z < 2 ^ 63 -> wrap_int z = z.
Proof.
  intros H. unfold wrap_int, wrap_signed.
  change (2 ^ (64 - 1)) with (2 ^ 63). change (2 ^ 64) with (2 * 2 ^ 63).
  rewrite Z.mod_small by lia. lia.
Qed.

(** X3: a string whose length is written in one byte (a length below 251)
    is read back by [parseLengthEncodedBytes] with the number of bytes
    taken, header included.  The length 0 gives a nil slice that is not
    null, the marker 0xfb gives null, and a buffer that ends before the
    string does gives the error [io.EOF] with the count the whole string
    would have taken.  An empty buffer makes it panic. *)
Theorem parseLengthEncodedBytes_one_byte_header (l : byte) (s rest : list byte) :
  u8 l < 0xfb ->
  (u8 l = len s -> 0 < len s ->
   parseLengthEncodedBytes (l :: s ++ rest) = Some (Some s, false, 1 + len s, None)) /\
  (u8 l = 0 -> parseLengthEncodedBytes (l :: rest) = Some (None, false, 1, None)) /\
  (len rest < u8 l ->
   parseLengthEncodedBytes (l :: rest) = Some (None, false, 1 + u8 l, Some io_EOF)) /\
  parseLengthEncodedBytes (Byte.xfb :: rest) = Some (None, true, 1, None) /\
  parseLengthEncodedBytes [] = None.
Proof.
  intros Hl. pose proof (u8_range l) as Hr.
  assert (forall tl, parseLengthEncodedInt (l :: tl) = Some (u8 l, false, 1)) as Hint.
  { intros tl. apply (lenenc_decoders_one_byte l tl Hl). }
  split.
  { intros El Hpos. unfold parseLengthEncodedBytes. rewrite Hint.
    cbn [mbind option_bind].
    destruct (Z.ltb_spec (u8 l) 1); [lia|].
    rewrite !(wrap_int_small (u8 l)) by lia.
    rewrite (wrap_int_small (1 + u8 l)) by lia.
    replace (1 + u8 l - u8 l) with 1 by lia.
    rewrite (wrap_int_small 1) by lia.
    assert (len (l :: s ++ rest) = 1 + len s + len rest) as Elen.
    { change (l :: s ++ rest) with ([l] ++ s ++ rest). rewrite !len_app.
      change (len [l]) with 1. lia. }
    pose proof (len_nonneg rest).
    destruct (Z.geb_spec (len (l :: s ++ rest)) (1 + u8 l)); [|lia].
    rewrite slice_Some by lia. cbn [mbind option_bind].
    replace (1 + u8 l - 1) with (len s) by lia.
    change (Z.to_nat 1) with 1%nat. cbn [drop].
    replace (Z.to_nat (len s)) with (length s) by (unfold len; lia).
    rewrite drop_0, take_app_length, El. reflexivity. }
  split.
  { intros E0. unfold parseLengthEncodedBytes. rewrite Hint.
    cbn [mbind option_bind]. rewrite E0. reflexivity. }
  split.
  { intros Hshort. unfold parseLengthEncodedBytes. rewrite Hint.
    cbn [mbind option_bind]. pose proof (len_nonneg rest).
    destruct (Z.ltb_spec (u8 l) 1); [lia|].
    rewrite !(wrap_int_small (u8 l)) by lia.
    rewrite (wrap_int_small (1 + u8 l)) by lia.
    assert (len (l :: rest) = 1 + len rest) as Elen.
    { change (l :: rest) with ([l] ++ rest). rewrite len_app.
      change (len [l]) with 1. lia. }
    destruct (Z.geb_spec (len (l :: rest)) (1 + u8 l)); [lia|]. reflexivity. }
  split; reflexivity.
Qed.

Lemma parseLengthEncodedBytes_one_byte_header_witness :
  parseLengthEncodedBytes (Byte.x02 :: [Byte.x61; Byte.x62] ++ [Byte.x63])
    = Some (Some [Byte.x61; Byte.x62], false, 3, None) /\
  parseLengthEncodedBytes (Byte.x00 :: [Byte.x63]) = Some (None, false, 1, None) /\
  parseLengthEncodedBytes (Byte.x02 :: [Byte.x63])
    = Some (None, false, 3, Some io_EOF).
Proof.
  split.
  - apply (proj1 (parseLengthEncodedBytes_one_byte_header Byte.x02
             [Byte.x61; Byte.x62] [Byte.x63] ltac:(vm_compute; reflexivity)));
      [reflexivity|vm_compute; reflexivity].
  - split.
    + apply (proj1 (proj2 (parseLengthEncodedBytes_one_byte_header Byte.x00
               [] [Byte.x63] ltac:(vm_compute; reflexivity)))).
      reflexivity.
    + apply (proj1 (proj2 (proj2 (parseLengthEncodedBytes_one_byte_header Byte.x02
               [] [Byte.x63] ltac:(vm_compute; reflexivity))))).
      vm_compute. reflexivity.
Defined.

(** ** Parameter values and the capacity of the buffer *)

Section SpareCapacity.

Context {K : Consts}.
Variables (nullBitmap paramTypes : list byte).

(** X4: a timestamp parameter whose length byte says 11 and whose bytes end
    after the seven bytes of date and time, at the end of the parameter
    values: the four bytes of the microseconds are taken by a slice
    expression, which Go checks against the capacity.  With four bytes or
    more of capacity behind the values the parameter is decoded, with
    microseconds read from bytes that are not part of the values, and the
    read position ends behind the values; without that capacity the decoder
    panics, which [parseExecParams] reports as a malformed packet. *)
Theorem timestamp_microseconds_from_spare_capacity
    (i : Z) (ps : list param) (t : fieldTypeConst) (unsigned : bool)
    (pre more : list byte) (l y0 y1 m d h mi s u0 u1 u2 u3 : byte) :
  0 <= i < len ps ->
  t = fieldTypeDate \/ t = fieldTypeTimestamp \/ t = fieldTypeDateTime ->
  declared nullBitmap paramTypes i t unsigned ->
  u8 l = 11 ->
  let values := pre ++ [l; y0; y1; m; d; h; mi; s] in
  let micro := Z.lor (Z.lor (Z.lor (u8 u0) (Z.shiftl (u8 u1) 8))
                            (Z.shiftl (u8 u2) 16)) (Z.shiftl (u8 u3) 24) in
  decodeParam nullBitmap paramTypes
    (mkSlice values (u0 :: u1 :: u2 :: u3 :: more)) i (len pre) ps
    = Some (Next (len values + 4)
              (<[Z.to_nat i :=
                   Pstring (((fmt_0d 4 (Z.lor (u8 y0) (Z.shiftl (u8 y1) 8))
                              +:+ "-" +:+ fmt_0d 2 (u8 m) +:+ "-" +:+ fmt_0d 2 (u8 d))
                             +:+ " " +:+ fmt_0d 2 (u8 h) +:+ ":" +:+ fmt_0d 2 (u8 mi)
                             +:+ ":" +:+ fmt_0d 2 (u8 s))
                            +:+ "." +:+ fmt_0d 6 micro)]> ps)) /\
  decodeParam nullBitmap paramTypes (mkSlice values []) i (len pre) ps = None.
Proof.
  intros Hi Hty (nb & tp & fl & Hnb & Hclear & Htp & Hfl & Ht & ->) Hl11 values micro.
  set (pos := len pre).
  assert (forall sp, bytes_at (mkSlice values sp) pos [l; y0; y1; m; d; h; mi; s])
    as Hb.
  { intros sp. exists pre, []. cbn [vis]. rewrite app_nil_r. split; reflexivity. }
  assert (len values = pos + 8) as Hlen.
  { unfold values. rewrite len_app. reflexivity. }
  pose proof (len_nonneg pre) as Hpre. fold pos in Hpre.
  assert (forall sp,
    decodeParam nullBitmap paramTypes (mkSlice values sp) i pos ps =
      '(p, dateTime) ← Some (pos + 8,
          ((fmt_0d 4 (Z.lor (u8 y0) (Z.shiftl (u8 y1) 8))
            +:+ "-" +:+ fmt_0d 2 (u8 m) +:+ "-" +:+ fmt_0d 2 (u8 d))
           +:+ " " +:+ fmt_0d 2 (u8 h) +:+ ":" +:+ fmt_0d 2 (u8 mi)
           +:+ ":" +:+ fmt_0d 2 (u8 s))%string);
      mb ← slice_cap (mkSlice values sp) p (p + 4);
      microSecond ← LittleEndian_Uint32 mb;
      params ← assign ps i (Pstring (dateTime +:+ "." +:+ fmt_0d 6 microSecond));
      Some (Next (p + 4) params)) as Hrun.
  { intros sp. specialize (Hb sp).
    unfold decodeParam. rewrite Hnb. cbn [mbind option_bind]. rewrite Hclear.
    pose proof (index_Some_lt _ _ _ Hfl) as Hr.
    destruct (Z.geb_spec (Z.shiftl i 1 + 1) (len paramTypes)); [lia|].
    rewrite Htp, Hfl. cbn [mbind option_bind]. rewrite Ht.
    destruct Hty as [-> | [-> | ->]].
    all: cbv iota.
    all: cbn [vis].
    all: destruct (Z.ltb_spec (len values) (pos + 1)); [lia|].
    all: pose proof (bytes_at_index _ pos _ 0 l Hb eq_refl) as Hx.
    all: rewrite Z.add_0_r in Hx; cbn [vis] in Hx; rewrite Hx.
    all: cbn [mbind option_bind].
    all: rewrite Hl11; cbn [Z.eqb Pos.eqb].
    all: unfold parseBinaryTimestamp, parseBinaryDateTimeReply, parseBinaryDate.
    all: cbn [vis].
    all: pose proof (bytes_at_slice _ pos _ 1 3 Hb) as Hs.
    all: replace (pos + 1 + 2) with (pos + 3) by lia.
    all: rewrite Hs by (unfold len; cbn; lia).
    all: cbn [mbind option_bind Z.sub Z.to_nat drop take Pos.to_nat Pos.iter_op
              Nat.add Z.pos_sub Z.succ_double Z.double Pos.pred_double Z.opp].
    all: change (LittleEndian_Uint16 _)
           with (Some (Z.lor (u8 y0) (Z.shiftl (u8 y1) 8))).
    all: cbn [mbind option_bind].
    all: pose proof (bytes_at_index _ pos _ 3 m Hb eq_refl) as H3.
    all: pose proof (bytes_at_index _ pos _ 4 d Hb eq_refl) as H4.
    all: pose proof (bytes_at_index _ pos _ 5 h Hb eq_refl) as H5.
    all: pose proof (bytes_at_index _ pos _ 6 mi Hb eq_refl) as H6.
    all: pose proof (bytes_at_index _ pos _ 7 s Hb eq_refl) as H7.
    all: cbn [vis] in H3, H4, H5, H6, H7.
    all: rewrite H3; cbn [mbind option_bind].
    all: replace (pos + 3 + 1) with (pos + 4) by lia.
    all: rewrite H4; cbn [mbind option_bind].
    all: replace (pos + 4 + 1) with (pos + 5) by lia.
    all: rewrite H5; cbn [mbind option_bind].
    all: replace (pos + 5 + 1) with (pos + 6) by lia.
    all: rewrite H6; cbn [mbind option_bind].
    all: replace (pos + 6 + 1) with (pos + 7) by lia.
    all: rewrite H7; cbn [mbind option_bind].
    all: replace (pos + 7 + 1) with (pos + 8) by lia.
    all: destruct (slice_cap _ (pos + 8) (pos + 8 + 4)) as [mb|];
      cbn [mbind option_bind]; [|reflexivity].
    all: destruct (LittleEndian_Uint32 mb); cbn [mbind option_bind];
      [|reflexivity].
    all: destruct (assign ps i _); reflexivity. }
  split.
  - rewrite Hrun. cbn [mbind option_bind].
    assert (slice_cap (mkSlice values (u0 :: u1 :: u2 :: u3 :: more))
              (pos + 8) (pos + 8 + 4) = Some [u0; u1; u2; u3]) as ->.
    { unfold slice_cap. cbn [vis spare].
      pose proof (len_nonneg more).
      rewrite slice_Some; [|lia|lia|
        rewrite len_app, Hlen;
        change (u0 :: u1 :: u2 :: u3 :: more) with ([u0; u1; u2; u3] ++ more);
        rewrite len_app; change (len [u0; u1; u2; u3]) with 4; lia].
      f_equal. replace (pos + 8 + 4 - (pos + 8)) with 4 by lia.
      replace (Z.to_nat (pos + 8)) with (length values)
        by (unfold len in Hlen; lia).
      rewrite drop_app_length. reflexivity. }
    cbn [mbind option_bind].
    change (LittleEndian_Uint32 [u0; u1; u2; u3]) with (Some micro).
    cbn [mbind option_bind]. rewrite assign_Some by exact Hi.
    cbn [mbind option_bind]. rewrite Hlen.
    reflexivity.
  - rewrite Hrun. cbn [mbind option_bind].
    unfold slice_cap. cbn [vis spare]. rewrite app_nil_r.
    rewrite slice_None by lia. reflexivity.
Qed.

End SpareCapacity.

Lemma timestamp_microseconds_from_spare_capacity_witness :
  decodeParam (K := mysql_consts) [Byte.x00] [Byte.x07; Byte.x00]
    (mkSlice ([] ++ [Byte.x0b; Byte.xe5; Byte.x07; Byte.x0b; Byte.x06;
                     Byte.x0c; Byte.x1e; Byte.x2d])
       [Byte.x01; Byte.x00; Byte.x00; Byte.x00; Byte.xff]) 0 (len (@nil byte)) [Pnil]
    = Some (Next 12 [Pstring "2021-11-06 12:30:45.000001"]) /\
  decodeParam (K := mysql_consts) [Byte.x00] [Byte.x07; Byte.x00]
    (mkSlice ([] ++ [Byte.x0b; Byte.xe5; Byte.x07; Byte.x0b; Byte.x06;
                     Byte.x0c; Byte.x1e; Byte.x2d]) []) 0 (len (@nil byte)) [Pnil]
    = None.
Proof.
  apply (timestamp_microseconds_from_spare_capacity (K := mysql_consts)
           [Byte.x00] [Byte.x07; Byte.x00] 0 [Pnil] fieldTypeTimestamp false
           [] [Byte.xff] Byte.x0b Byte.xe5 Byte.x07 Byte.x0b Byte.x06
           Byte.x0c Byte.x1e Byte.x2d Byte.x01 Byte.x00 Byte.x00 Byte.x00).
  - vm_compute. split; congruence.
  - right. left. reflexivity.
  - exists Byte.x00, Byte.x07, Byte.x00. repeat split; reflexivity.
  - reflexivity.
Defined.

(** ** The first frame of a command *)

Lemma run_bind {S A B} (m : StateM S A) (k : A -> StateM S B) (s s' : S) (a : A) :
  m s = (Some a, s') -> bind m k s = k a s'.
Proof. intros E. unfold bind. rewrite E. reflexivity. Qed.

Lemma run_bind_panic {S A B} (m : StateM S A) (k : A -> StateM S B) (s s' : S) :
  m s = (None, s') -> bind m k s = (None, s').
Proof. intros E. unfold bind. rewrite E. reflexivity. Qed.

Section FirstFrame.

Context {K : Consts} {R : Readers}.

(** The machine after [load(0)] on a buffer that holds one frame. *)
Lemma load_single (pkt : MySQLPacket) (fsm : MySQLFSM) :
  packets fsm = [pkt] -> Len pkt < maxPacketSize ->
  load 0 fsm = (Some true, loaded fsm 0 0).
Proof.
  intros E Hl. unfold load. rewrite E. cbn [length loadLoop Nat.ltb Nat.leb].
  rewrite E. cbn [length Nat.ltb Nat.leb drop skipMax].
  destruct (Z.eqb_spec (Len pkt) maxPacketSize); [lia|].
  cbn [Nat.eqb Z.of_nat Z.eqb]. unfold loaded. rewrite E. reflexivity.
Qed.

Lemma loaded_single (pkt : MySQLPacket) (fsm : MySQLFSM) :
  packets fsm = [pkt] ->
  content (data (loaded fsm 0 0)) = Data pkt /\
  packets (loaded fsm 0 0) = [pkt] /\
  start (loaded fsm 0 0) = 0 /\
  state (loaded fsm 0 0) = state fsm /\
  changed (loaded fsm 0 0) = changed fsm /\
  stmts (loaded fsm 0 0) = stmts fsm /\
  pr (loaded fsm 0 0) = pr fsm.
Proof.
  intros E. unfold loaded.
  destruct fsm as [ch st q sm pa sc us ss d ps sta co r]. cbn in E. subst ps.
  cbn [set_count set_start set_data data packets start state changed stmts pr].
  rewrite writeFrames_content. cbn. rewrite app_nil_r. repeat split; reflexivity.
Qed.

Lemma assertDir_run (exp : TCPFlowDirection) (pkt : MySQLPacket) (fsm : MySQLFSM) :
  index (packets fsm) (start fsm) = Some pkt ->
  assertDir exp fsm = (Some (bool_decide (Dir pkt = exp)), fsm).
Proof.
  intros Hp. pose proof (index_Some_lt _ _ _ Hp) as Hr.
  unfold assertDir. rewrite !bind_get.
  destruct (Z.ltb_spec (start fsm) (len (packets fsm))); [|lia].
  rewrite Hp, bind_lift_Some. reflexivity.
Qed.

Lemma assertDataByte_0 (exp : byte) (fsm : MySQLFSM) :
  assertDataByte 0 exp fsm
    = (Some (match content (data fsm) with
             | [] => false
             | b :: _ => u8 b =? u8 exp
             end), fsm).
Proof.
  unfold assertDataByte, data_Bytes. rewrite bind_get.
  destruct (content (data fsm)) as [|b d]; [reflexivity|].
  assert ((len (b :: d) <=? 0) = false) as ->.
  { apply Z.leb_gt. change (b :: d) with ([b] ++ d). rewrite len_app.
    pose proof (len_nonneg d). change (len [b]) with 1. lia. }
  rewrite index_cons_0, bind_lift_Some. reflexivity.
Qed.

(** The test for a client command, on a machine whose loaded body starts at
    the frame [pkt]. *)
Lemma isClientCommand_run (cmd : byte) (pkt : MySQLPacket) (fsm : MySQLFSM) :
  index (packets fsm) (start fsm) = Some pkt ->
  isClientCommand cmd fsm
    = (Some (bool_decide (Dir pkt = TCPDirClientToServer)
             && match content (data fsm) with
                | [] => false
                | b :: _ => u8 b =? u8 cmd
                end), fsm).
Proof.
  intros Hp. unfold isClientCommand.
  rewrite (run_bind _ _ _ _ _ (assertDir_run _ pkt fsm Hp)).
  destruct (bool_decide (Dir pkt = TCPDirClientToServer)); cbn [negb andb];
    [|reflexivity].
  apply assertDataByte_0.
Qed.

Lemma isHandshakeRequest_client (pkt : MySQLPacket) (fsm : MySQLFSM) :
  index (packets fsm) (start fsm) = Some pkt ->
  Dir pkt = TCPDirClientToServer ->
  isHandshakeRequest fsm = (Some false, fsm).
Proof.
  intros Hp Hd. unfold isHandshakeRequest.
  rewrite (run_bind _ _ _ _ _ (assertDir_run _ pkt fsm Hp)), Hd. reflexivity.
Qed.

(** A frame with the sequence number 0 outside the states that read a
    result, short of the maximum frame size: [Handle] runs
    [handleInitPacket] on the machine that holds the frame alone, loaded. *)
Lemma Handle_first_frame (pkt : MySQLPacket) (fsm : MySQLFSM) :
  state fsm <> StateComQuit -> state fsm <> StateComQuery1 ->
  state fsm <> StateComStmtExecute1 ->
  Seq pkt = 0 -> Len pkt < maxPacketSize ->
  Handle pkt fsm = handleInitPacket (started pkt fsm) /\
  load 0 (started pkt fsm) = (Some true, loaded (started pkt fsm) 0 0) /\
  index (packets (loaded (started pkt fsm) 0 0))
        (start (loaded (started pkt fsm) 0 0)) = Some pkt /\
  content (data (loaded (started pkt fsm) 0 0)) = Data pkt /\
  state (loaded (started pkt fsm) 0 0) = StateInit.
Proof.
  intros H1 H2 H3 H0 Hl.
  assert (packets (started pkt fsm) = [pkt]) as Ep by (destruct fsm; reflexivity).
  assert (state (started pkt fsm) = StateInit) as Es by (destruct fsm; reflexivity).
  destruct (loaded_single pkt (started pkt fsm) Ep) as (L1 & L2 & L3 & L4 & _).
  split.
  { rewrite (Handle_start pkt fsm H1 H0 H2 H3).
    rewrite (Handle_ready_Init pkt _ Es).
    unfold Ready. rewrite Ep. cbn [len length Z.of_nat Z.gtb Z.compare andb].
    change (Z.of_nat 1 - 1) with 0. rewrite index_cons_0.
    destruct (Z.ltb_spec (Len pkt) maxPacketSize); [reflexivity|lia]. }
  split; [apply (load_single pkt _ Ep Hl)|].
  split; [rewrite L2, L3; reflexivity|].
  split; [exact L1|]. rewrite L4. exact Es.
Qed.

Lemma isHandshakeRequest_short (pkt : MySQLPacket) (fsm : MySQLFSM) :
  index (packets fsm) (start fsm) = Some pkt ->
  len (content (data fsm)) < 6 ->
  isHandshakeRequest fsm = (Some false, fsm).
Proof.
  intros Hp Hd. unfold isHandshakeRequest.
  rewrite (run_bind _ _ _ _ _ (assertDir_run _ pkt fsm Hp)).
  destruct (bool_decide (Dir pkt = TCPDirServerToClient)); cbn [negb];
    [|reflexivity].
  unfold data_Bytes. rewrite bind_get.
  destruct (Z.ltb_spec (len (content (data fsm))) 6); [reflexivity|lia].
Qed.

(** X5: a client frame with the sequence number 0 that holds a whole
    command (it is shorter than the maximum frame size), outside the state
    Quit and the two states that read a result, is classified by its first
    byte.  A query leaves the state ComQuery and the bytes behind the
    command byte as the query text; a prepare leaves the state
    ComStmtPrepare0 and a statement with that text; a quit leaves the state
    Quit; a byte that is none of the five commands leaves the state Unknown.
    In each case the flag [changed] is set, the frame is buffered alone and
    the call returns. *)
Theorem Handle_classifies_first_frame (pkt : MySQLPacket) (fsm : MySQLFSM)
    (c : byte) (q : list byte) :
  state fsm <> StateComQuit -> state fsm <> StateComQuery1 ->
  state fsm <> StateComStmtExecute1 ->
  Seq pkt = 0 -> Len pkt < maxPacketSize ->
  Dir pkt = TCPDirClientToServer -> Data pkt = c :: q ->
  let fsm0 := loaded (started pkt fsm) 0 0 in
  (packets fsm0 = [pkt] /\ stmts fsm0 = stmts fsm /\
   content (data fsm0) = c :: q) /\
  (u8 c = u8 comQuery ->
   Handle pkt fsm
     = (Some tt, set_changed true (set_state StateComQuery
                   (set_query (string_of_bytes q) fsm0)))) /\
  (u8 c <> u8 comQuery -> u8 c <> u8 comStmtExecute -> u8 c = u8 comStmtPrepare ->
   Handle pkt fsm
     = (Some tt, set_changed true (set_state StateComStmtPrepare0
                   (set_stmt (mkStmt 0 (string_of_bytes q) 0 None) fsm0)))) /\
  (u8 c <> u8 comQuery -> u8 c <> u8 comStmtExecute -> u8 c <> u8 comStmtPrepare ->
   u8 c <> u8 comStmtClose -> u8 c = u8 comQuit ->
   Handle pkt fsm = (Some tt, set_changed true (set_state StateComQuit fsm0))) /\
  (u8 c <> u8 comQuery -> u8 c <> u8 comStmtExecute -> u8 c <> u8 comStmtPrepare ->
   u8 c <> u8 comStmtClose -> u8 c <> u8 comQuit ->
   Handle pkt fsm = (Some tt, set_changed true (set_state StateUnknown fsm0))).
Proof.
  intros H1 H2 H3 H0 Hl Hdir Hdata fsm0.
  destruct (Handle_first_frame pkt fsm H1 H2 H3 H0 Hl) as (EH & Eload & Eidx & Ec & Es).
  fold fsm0 in Eload, Eidx, Ec, Es. rewrite Hdata in Ec.
  assert (forall cmd, isClientCommand cmd fsm0 = (Some (u8 c =? u8 cmd), fsm0)) as Hcmd.
  { intros cmd. rewrite (isClientCommand_run cmd pkt fsm0 Eidx), Ec.
    rewrite bool_decide_eq_true_2 by exact Hdir. reflexivity. }
  assert (forall to, to <> StateInit ->
            set to fsm0 = (Some tt, set_changed true (set_state to fsm0))) as Hset.
  { intros to Hto. rewrite set_run, Es.
    rewrite bool_decide_eq_true_2 by congruence. reflexivity. }
  assert (Handle pkt fsm =
    (c0 <- isClientCommand comQuery;;
     if c0 then handleComQueryNoLoad
     else
     c0 <- isClientCommand comStmtExecute;;
     if c0 then handleComStmtExecuteNoLoad
     else
     c0 <- isClientCommand comStmtPrepare;;
     if c0 then handleComStmtPrepareRequestNoLoad
     else
     c0 <- isClientCommand comStmtClose;;
     if c0 then handleComStmtCloseNoLoad
     else
     c0 <- isClientCommand comQuit;;
     if c0 then set StateComQuit
     else
     c0 <- isHandshakeRequest;;
     if c0 then set StateHandshake0
     else
       dir <- assertDir TCPDirClientToServer;;
       n <- get (fun fsm => Buffer_Len (data fsm));;
       if dir && (n >? 0) then
         d <- data_Bytes;;
         _ <- lift (index d 0);;
         set StateUnknown
       else
         set StateUnknown;;
         d <- data_Bytes;;
         _ <- lift (index d 0);;
         ret tt) fsm0) as Hdispatch.
  { rewrite EH. unfold handleInitPacket.
    rewrite (run_bind _ _ _ _ _ Eload). reflexivity. }
  split.
  { destruct (loaded_single pkt (started pkt fsm)) as (_ & L2 & _ & _ & _ & L6 & _);
      [destruct fsm; reflexivity|].
    fold fsm0 in L2, L6. split; [exact L2|]. split; [|exact Ec].
    rewrite L6. destruct fsm; reflexivity. }
  split.
  { intros Eq. rewrite Hdispatch, (run_bind _ _ _ _ _ (Hcmd comQuery)).
    rewrite Eq, Z.eqb_refl. unfold handleComQueryNoLoad, data_Bytes.
    rewrite bind_get, Ec, slice_from_cons, bind_lift_Some, bind_modify.
    rewrite set_run.
    assert (state (set_query (string_of_bytes q) fsm0) = StateInit) as ->
      by (destruct fsm0; exact Es).
    rewrite bool_decide_eq_true_2 by discriminate. reflexivity. }
  split.
  { intros N1 N2 Eq. rewrite Hdispatch.
    rewrite (run_bind _ _ _ _ _ (Hcmd comQuery)).
    destruct (Z.eqb_spec (u8 c) (u8 comQuery)); [contradiction|].
    rewrite (run_bind _ _ _ _ _ (Hcmd comStmtExecute)).
    destruct (Z.eqb_spec (u8 c) (u8 comStmtExecute)); [contradiction|].
    rewrite (run_bind _ _ _ _ _ (Hcmd comStmtPrepare)).
    rewrite Eq, Z.eqb_refl. unfold handleComStmtPrepareRequestNoLoad, data_Bytes.
    rewrite bind_get, Ec, slice_from_cons, bind_lift_Some, bind_modify.
    rewrite set_run.
    assert (state (set_stmt (mkStmt 0 (string_of_bytes q) 0 None) fsm0) = StateInit)
      as -> by (destruct fsm0; exact Es).
    rewrite bool_decide_eq_true_2 by discriminate. reflexivity. }
  split.
  { intros N1 N2 N3 N4 Eq. rewrite Hdispatch.
    rewrite (run_bind _ _ _ _ _ (Hcmd comQuery)).
    destruct (Z.eqb_spec (u8 c) (u8 comQuery)); [contradiction|].
    rewrite (run_bind _ _ _ _ _ (Hcmd comStmtExecute)).
    destruct (Z.eqb_spec (u8 c) (u8 comStmtExecute)); [contradiction|].
    rewrite (run_bind _ _ _ _ _ (Hcmd comStmtPrepare)).
    destruct (Z.eqb_spec (u8 c) (u8 comStmtPrepare)); [contradiction|].
    rewrite (run_bind _ _ _ _ _ (Hcmd comStmtClose)).
    destruct (Z.eqb_spec (u8 c) (u8 comStmtClose)); [contradiction|].
    rewrite (run_bind _ _ _ _ _ (Hcmd comQuit)).
    rewrite Eq, Z.eqb_refl. apply Hset. discriminate. }
  intros N1 N2 N3 N4 N5. rewrite Hdispatch.
  rewrite (run_bind _ _ _ _ _ (Hcmd comQuery)).
  destruct (Z.eqb_spec (u8 c) (u8 comQuery)); [contradiction|].
  rewrite (run_bind _ _ _ _ _ (Hcmd comStmtExecute)).
  destruct (Z.eqb_spec (u8 c) (u8 comStmtExecute)); [contradiction|].
  rewrite (run_bind _ _ _ _ _ (Hcmd comStmtPrepare)).
  destruct (Z.eqb_spec (u8 c) (u8 comStmtPrepare)); [contradiction|].
  rewrite (run_bind _ _ _ _ _ (Hcmd comStmtClose)).
  destruct (Z.eqb_spec (u8 c) (u8 comStmtClose)); [contradiction|].
  rewrite (run_bind _ _ _ _ _ (Hcmd comQuit)).
  destruct (Z.eqb_spec (u8 c) (u8 comQuit)); [contradiction|].
  rewrite (run_bind _ _ _ _ _ (isHandshakeRequest_client pkt fsm0 Eidx Hdir)).
  rewrite (run_bind _ _ _ _ _ (assertDir_run _ pkt fsm0 Eidx)).
  rewrite bool_decide_eq_true_2 by exact Hdir.
  rewrite bind_get. unfold Buffer_Len. rewrite Ec.
  assert ((len (c :: q) >? 0) = true) as ->.
  { apply Z.gtb_lt. change (c :: q) with ([c] ++ q). rewrite len_app.
    pose proof (len_nonneg q). change (len [c]) with 1. lia. }
  cbn [andb]. unfold data_Bytes. rewrite bind_get, Ec, index_cons_0, bind_lift_Some.
  apply Hset. discriminate.
Qed.

(** X6: a frame with the sequence number 0 and no payload, outside the
    state Quit and the two states that read a result, makes [Handle] panic:
    no command matches, and the warning that is logged then indexes the
    first byte of the empty body.  The state is Unknown by then. *)
Theorem Handle_empty_first_frame_panics (pkt : MySQLPacket) (fsm : MySQLFSM) :
  state fsm <> StateComQuit -> state fsm <> StateComQuery1 ->
  state fsm <> StateComStmtExecute1 ->
  Seq pkt = 0 -> Len pkt < maxPacketSize -> Data pkt = [] ->
  Handle pkt fsm
    = (None, set_changed true
               (set_state StateUnknown (loaded (started pkt fsm) 0 0))).
Proof.
  intros H1 H2 H3 H0 Hl Hdata. set (fsm0 := loaded (started pkt fsm) 0 0).
  destruct (Handle_first_frame pkt fsm H1 H2 H3 H0 Hl) as (EH & Eload & Eidx & Ec & Es).
  fold fsm0 in Eload, Eidx, Ec, Es. rewrite Hdata in Ec.
  assert (forall cmd, isClientCommand cmd fsm0 = (Some false, fsm0)) as Hcmd.
  { intros cmd. rewrite (isClientCommand_run cmd pkt fsm0 Eidx), Ec.
    rewrite andb_false_r. reflexivity. }
  rewrite EH. unfold handleInitPacket.
  rewrite (run_bind _ _ _ _ _ Eload). cbn [negb].
  rewrite !(run_bind _ _ _ _ _ (Hcmd _)).
  rewrite (run_bind _ _ _ _ _ (isHandshakeRequest_short pkt fsm0 Eidx
             ltac:(rewrite Ec; reflexivity))).
  rewrite (run_bind _ _ _ _ _ (assertDir_run _ pkt fsm0 Eidx)).
  rewrite bind_get. unfold Buffer_Len. rewrite Ec.
  change (len [] >? 0) with false. rewrite andb_false_r.
  rewrite (run_bind _ _ _ _ _ (set_run StateUnknown fsm0)), Es.
  rewrite bool_decide_eq_true_2 by discriminate.
  unfold data_Bytes. rewrite bind_get.
  assert (content (data (set_changed true (set_state StateUnknown fsm0))) = [])
    as -> by (destruct fsm0; exact Ec).
  reflexivity.
Qed.

End FirstFrame.

Lemma Handle_classifies_first_frame_witness :
  Handle (K := mysql_consts) (R := sample_readers) query_frame NewMySQLFSM
    = (Some tt,
       set_changed true
         (set_state StateComQuery
            (set_query "a"
               (loaded (K := mysql_consts) (started query_frame NewMySQLFSM) 0 0)))).
Proof.
  apply (proj1 (proj2 (Handle_classifies_first_frame (K := mysql_consts)
           (R := sample_readers) query_frame NewMySQLFSM Byte.x03 [Byte.x61]
           ltac:(discriminate) ltac:(discriminate) ltac:(discriminate)
           eq_refl eq_refl eq_refl eq_refl))).
  reflexivity.
Defined.

(** A frame without payload. *)
Definition empty_frame : MySQLPacket := mkPacket 0 0 0 [] TCPDirClientToServer.

Lemma Handle_empty_first_frame_panics_witness :
  fst (Handle (K := mysql_consts) (R := sample_readers) empty_frame NewMySQLFSM)
    = None /\
  state (snd (Handle (K := mysql_consts) (R := sample_readers) empty_frame
                NewMySQLFSM)) = StateUnknown.
Proof.
  rewrite (Handle_empty_first_frame_panics (K := mysql_consts)
             (R := sample_readers) empty_frame NewMySQLFSM
             ltac:(discriminate) ltac:(discriminate) ltac:(discriminate)
             eq_refl eq_refl eq_refl).
  split; reflexivity.
Defined.

(** ** Statements: prepare, execute and close *)

Section Statements.

Context {K : Consts}.

(** X7: a close command with a whole statement id takes the statement out
    of the table of the session, whether it was there or not, leaves the
    other statements, keeps the statement it took out (the zero statement
    if there was none) as the current one and leaves the state
    ComStmtClose.  With fewer than four bytes of id the state is Unknown
    and the table is as it was. *)
Theorem handleComStmtCloseNoLoad_forgets (fsm : MySQLFSM) (cmd : byte)
    (body : list byte) :
  content (data fsm) = cmd :: body ->
  (forall i0 i1 i2 i3 rest, body = i0 :: i1 :: i2 :: i3 :: rest ->
     exists fsm',
       handleComStmtCloseNoLoad fsm = (Some tt, fsm') /\
       state fsm' = StateComStmtClose /\
       stmt fsm' = default Stmt_zero (stmts fsm !! stmt_id i0 i1 i2 i3) /\
       stmts fsm' !! stmt_id i0 i1 i2 i3 = None /\
       (forall j, j <> stmt_id i0 i1 i2 i3 -> stmts fsm' !! j = stmts fsm !! j)) /\
  (len body < 4 ->
     exists fsm',
       handleComStmtCloseNoLoad fsm = (Some tt, fsm') /\
       state fsm' = StateUnknown /\ stmts fsm' = stmts fsm /\ stmt fsm' = stmt fsm).
Proof.
  intros Hc. split.
  - intros i0 i1 i2 i3 rest ->.
    unfold handleComStmtCloseNoLoad, data_Bytes.
    rewrite bind_get, Hc, slice_from_cons, bind_lift_Some.
    rewrite readUint32_cons, bind_lift_Some. fold (stmt_id i0 i1 i2 i3).
    cbv beta iota. cbn [negb]. rewrite !bind_modify, set_run.
    eexists. split; [reflexivity|].
    destruct fsm as [ch st q sm pa sc us ss d ps sta co r].
    cbn [set_changed set_state set_stmts set_stmt state stmt stmts].
    split; [reflexivity|]. split; [reflexivity|].
    split; [apply lookup_delete_eq|].
    intros j Hj. apply lookup_delete_ne. congruence.
  - intros Hshort.
    unfold handleComStmtCloseNoLoad, data_Bytes.
    rewrite bind_get, Hc, slice_from_cons, bind_lift_Some.
    unfold readUint32. destruct (Z.ltb_spec (len body) 4); [|lia].
    rewrite bind_lift_Some. cbv beta iota. cbn [negb].
    rewrite (run_bind _ _ _ _ _ (set_run StateUnknown fsm)).
    unfold log_prefix. destruct (Z.ltb_spec (len body) 4); [|lia].
    pose proof (len_nonneg body).
    rewrite slice_to_Some by lia. rewrite bind_lift_Some.
    eexists. split; [reflexivity|]. destruct fsm; auto.
Qed.

(** What [handleComStmtExecuteNoLoad] does with the parameters of a
    statement that has some: it stores the types that come with the
    command, and leaves the state Unknown or the decoded parameters by what
    [parseExecParams] returns. *)
Lemma handleComStmtExecuteNoLoad_params (fsm : MySQLFSM) (cmd i0 i1 i2 i3 : byte)
    (five nullBitmap : list byte) (bound : byte) (rest paramTypes : list byte)
    (stmt : Stmt) out err :
  content (data fsm) = cmd :: execute_body i0 i1 i2 i3 five nullBitmap bound rest ->
  stmts fsm !! stmt_id i0 i1 i2 i3 = Some stmt ->
  len five = 5 ->
  NumParams stmt > 0 ->
  len nullBitmap = Z.shiftr (NumParams stmt + 7) 3 ->
  2 * NumParams stmt <= len rest ->
  execute_types stmt bound rest = Some paramTypes ->
  parseExecParams nullBitmap paramTypes
    (mkSlice (execute_values stmt bound rest) (slack (data fsm)))
    (execute_stmt stmt bound rest) = (out, err) ->
  let fsm1 :=
    if u8 bound =? 1
    then set_stmts (<[stmt_id i0 i1 i2 i3 := execute_stmt stmt bound rest]>
                      (stmts fsm)) fsm
    else fsm in
  handleComStmtExecuteNoLoad fsm =
    match err with
    | Some _ => set StateUnknown fsm1
    | None =>
        set StateComStmtExecute
          (set_params out (set_stmt (execute_stmt stmt bound rest) fsm1))
    end.
Proof.
  intros Hc Hid H5 Hn Hnb Hrest Hty Hparse fsm1. subst fsm1.
  unfold handleComStmtExecuteNoLoad, data_Bytes.
  rewrite bind_get, Hc, bind_get, slice_from_cons, bind_lift_Some.
  unfold execute_body. cbn [app].
  rewrite readUint32_cons, bind_lift_Some. fold (stmt_id i0 i1 i2 i3).
  cbv beta iota. cbn [negb].
  rewrite bind_get, Hid.
  rewrite (readBytesN_app five _ 5 H5), bind_lift_Some.
  cbv beta iota. cbn [negb].
  destruct (Z.gtb_spec (NumParams stmt) 0) as [_|]; [|lia].
  rewrite (readBytesN_app nullBitmap _ _ Hnb), bind_lift_Some.
  cbv beta iota. cbn [negb].
  assert (len (bound :: rest) = 1 + len rest) as Hl
    by (unfold len; cbn [length]; lia).
  destruct (Z.ltb_spec (len (bound :: rest)) (1 + 2 * NumParams stmt)); [lia|].
  rewrite index_cons_0, bind_lift_Some.
  unfold execute_types, execute_values, execute_stmt in *.
  cbn [default from_option id].
  destruct (u8 bound =? 1).
  - injection Hty as <-.
    pose proof (len_nonneg rest) as Hr0.
    rewrite Z.shiftl_mul_pow2 by lia. change (2 ^ 1) with 2.
    replace (NumParams stmt * 2) with (2 * NumParams stmt) by lia.
    rewrite slice_Some by lia.
    replace (1 + 2 * NumParams stmt - 1) with (2 * NumParams stmt) by lia.
    change (drop (Z.to_nat 1) (bound :: rest)) with rest.
    rewrite bind_lift_Some.
    rewrite slice_from_Some by lia.
    replace (Z.to_nat (1 + 2 * NumParams stmt))
      with (S (Z.to_nat (2 * NumParams stmt))) by lia.
    cbn [drop].
    rewrite bind_lift_Some, bind_modify.
    assert (slack (data fsm)
            = slack (data (set_stmts
                (<[stmt_id i0 i1 i2 i3 :=
                     mkStmt (ID stmt) (Query stmt) (NumParams stmt)
                       (Some (take (Z.to_nat (2 * NumParams stmt)) rest))]>
                   (stmts fsm)) fsm))) as Hsl by (destruct fsm; reflexivity).
    rewrite Hparse.
    destruct err as [e|]; [reflexivity|].
    rewrite !bind_modify. reflexivity.
  - rewrite Hty.
    rewrite slice_from_cons, bind_lift_Some.
    rewrite Hparse.
    destruct err as [e|]; [reflexivity|].
    rewrite !bind_modify. reflexivity.
Qed.

(** X8: an execute command for a statement id that is not in the table of
    the session leaves the state Unknown and the table, the current
    statement and the parameters as they were.  For a statement without
    parameters it leaves the state ComStmtExecute with that statement as the
    current one and nil parameters; the bytes behind the five bytes of flags
    and iteration count are not read. *)
Theorem handleComStmtExecuteNoLoad_without_params (fsm : MySQLFSM)
    (cmd i0 i1 i2 i3 : byte) (rest : list byte) :
  content (data fsm) = cmd :: i0 :: i1 :: i2 :: i3 :: rest ->
  (stmts fsm !! stmt_id i0 i1 i2 i3 = None ->
   exists fsm',
     handleComStmtExecuteNoLoad fsm = (Some tt, fsm') /\
     state fsm' = StateUnknown /\ stmts fsm' = stmts fsm /\
     stmt fsm' = stmt fsm /\ params fsm' = params fsm) /\
  (forall s, stmts fsm !! stmt_id i0 i1 i2 i3 = Some s ->
   NumParams s <= 0 -> 5 <= len rest ->
   exists fsm',
     handleComStmtExecuteNoLoad fsm = (Some tt, fsm') /\
     state fsm' = StateComStmtExecute /\ stmts fsm' = stmts fsm /\
     stmt fsm' = s /\ params fsm' = None).
Proof.
  intros Hc. split.
  - intros Hid. unfold handleComStmtExecuteNoLoad, data_Bytes.
    rewrite bind_get, Hc, bind_get, slice_from_cons, bind_lift_Some.
    rewrite readUint32_cons, bind_lift_Some. fold (stmt_id i0 i1 i2 i3).
    cbv beta iota. cbn [negb]. rewrite bind_get, Hid, set_run.
    eexists. split; [reflexivity|]. destruct fsm; auto.
  - intros s Hid Hn H5. unfold handleComStmtExecuteNoLoad, data_Bytes.
    rewrite bind_get, Hc, bind_get, slice_from_cons, bind_lift_Some.
    rewrite readUint32_cons, bind_lift_Some. fold (stmt_id i0 i1 i2 i3).
    cbv beta iota. cbn [negb]. rewrite bind_get, Hid.
    rewrite (readBytesN_spec rest 5) by lia.
    destruct (Z.ltb_spec (len rest) 5); [lia|].
    rewrite bind_lift_Some. cbv beta iota. cbn [negb].
    destruct (Z.gtb_spec (NumParams s) 0); [lia|].
    rewrite !bind_modify, set_run.
    eexists. split; [reflexivity|]. destruct fsm; auto.
Qed.

(** X9: an execute command for a statement with parameters, with a whole
    body.  When the new-params-bound flag is 1 the types that come with the
    command are stored with the statement in the table, before the values
    are decoded and whatever the decoding gives, so that a later execute
    without types decodes with them.  When [parseExecParams] gives no error
    the state is ComStmtExecute, with the values it gave as the parameters
    and the statement as the current one; the other statements of the table
    are left. *)
Theorem handleComStmtExecuteNoLoad_stores_types (fsm : MySQLFSM)
    (cmd i0 i1 i2 i3 : byte) (five nullBitmap : list byte) (bound : byte)
    (rest paramTypes : list byte) (s : Stmt) out err :
  content (data fsm) = cmd :: execute_body i0 i1 i2 i3 five nullBitmap bound rest ->
  stmts fsm !! stmt_id i0 i1 i2 i3 = Some s ->
  len five = 5 ->
  NumParams s > 0 ->
  len nullBitmap = Z.shiftr (NumParams s + 7) 3 ->
  2 * NumParams s <= len rest ->
  execute_types s bound rest = Some paramTypes ->
  parseExecParams nullBitmap paramTypes
    (mkSlice (execute_values s bound rest) (slack (data fsm)))
    (execute_stmt s bound rest) = (out, err) ->
  exists fsm',
    handleComStmtExecuteNoLoad fsm = (Some tt, fsm') /\
    stmts fsm' !! stmt_id i0 i1 i2 i3 = Some (execute_stmt s bound rest) /\
    (forall j, j <> stmt_id i0 i1 i2 i3 -> stmts fsm' !! j = stmts fsm !! j) /\
    (forall bound' rest', u8 bound' <> 1 ->
       execute_types (execute_stmt s bound rest) bound' rest' = Some paramTypes) /\
    (err = None ->
       state fsm' = StateComStmtExecute /\ params fsm' = out /\
       stmt fsm' = execute_stmt s bound rest) /\
    (err <> None -> state fsm' = StateUnknown).
Proof.
  intros Hc Hid H5 Hn Hnb Hrest Hty Hparse.
  pose proof (handleComStmtExecuteNoLoad_params fsm cmd i0 i1 i2 i3 five
                nullBitmap bound rest paramTypes s out err
                Hc Hid H5 Hn Hnb Hrest Hty Hparse) as Hrun.
  cbv zeta in Hrun.
  assert (forall bound' rest', u8 bound' <> 1 ->
            execute_types (execute_stmt s bound rest) bound' rest' = Some paramTypes)
    as Hlater.
  { intros bound' rest' Hb. unfold execute_types in *.
    destruct (Z.eqb_spec (u8 bound') 1); [contradiction|].
    unfold execute_stmt. destruct (u8 bound =? 1); [|exact Hty].
    cbn [types]. exact Hty. }
  set (fsm1 := if u8 bound =? 1
               then set_stmts (<[stmt_id i0 i1 i2 i3 := execute_stmt s bound rest]>
                                 (stmts fsm)) fsm
               else fsm) in Hrun.
  assert (stmts fsm1 !! stmt_id i0 i1 i2 i3 = Some (execute_stmt s bound rest) /\
          forall j, j <> stmt_id i0 i1 i2 i3 -> stmts fsm1 !! j = stmts fsm !! j)
    as (Hin & Hout).
  { subst fsm1. unfold execute_stmt. destruct (u8 bound =? 1).
    - destruct fsm as [ch st q sm pa sc us ss d ps sta co r]. cbn [set_stmts stmts].
      split; [apply lookup_insert_eq|].
      intros j Hj. apply lookup_insert_ne. congruence.
    - split; [exact Hid|reflexivity]. }
  rewrite Hrun. destruct err as [e|]; rewrite set_run; eexists;
    (split; [reflexivity|]).
  - destruct fsm1 as [ch st q sm pa sc us ss d ps sta co r].
    cbn [set_changed set_state stmts state params stmt] in *.
    split; [exact Hin|]. split; [exact Hout|]. split; [exact Hlater|].
    split; [discriminate|reflexivity].
  - destruct fsm1 as [ch st q sm pa sc us ss d ps sta co r].
    cbn [set_changed set_state set_params set_stmt stmts state params stmt] in *.
    split; [exact Hin|]. split; [exact Hout|]. split; [exact Hlater|].
    split; [intros _; repeat split; reflexivity|congruence].
Qed.

End Statements.

(** A machine that knows the statement 1, with one parameter, and has the
    body of an execute command for it in its working buffer: the types say
    that the parameter is a signed one-byte integer, and the value is 0xff. *)
Definition tiny_execute : MySQLFSM :=
  set_stmts {[ 1 := mkStmt 1 "select ?" 1 None ]}
    (set_data
       (mkBuffer
          ([Byte.x17] ++
           execute_body Byte.x01 Byte.x00 Byte.x00 Byte.x00
             [Byte.x00; Byte.x01; Byte.x00; Byte.x00; Byte.x00]
             [Byte.x00] Byte.x01 [Byte.x01; Byte.x00; Byte.xff]) [])
       NewMySQLFSM).

Lemma handleComStmtCloseNoLoad_forgets_witness :
  exists fsm',
    handleComStmtCloseNoLoad tiny_execute = (Some tt, fsm') /\
    state fsm' = StateComStmtClose /\
    stmt fsm' = mkStmt 1 "select ?" 1 None /\
    stmts fsm' !! 1 = None /\
    (forall j, j <> 1 -> stmts fsm' !! j = stmts tiny_execute !! j).
Proof.
  apply (proj1 (handleComStmtCloseNoLoad_forgets tiny_execute Byte.x17 _ eq_refl)
           Byte.x01 Byte.x00 Byte.x00 Byte.x00 _ eq_refl).
Defined.

Lemma handleComStmtExecuteNoLoad_without_params_witness :
  exists fsm',
    handleComStmtExecuteNoLoad (K := mysql_consts)
      (set_stmts ∅ tiny_execute) = (Some tt, fsm') /\
    state fsm' = StateUnknown /\
    stmts fsm' = stmts (set_stmts ∅ tiny_execute) /\
    stmt fsm' = stmt (set_stmts ∅ tiny_execute) /\
    params fsm' = params (set_stmts ∅ tiny_execute).
Proof.
  apply (proj1 (handleComStmtExecuteNoLoad_without_params (K := mysql_consts)
           (set_stmts ∅ tiny_execute) Byte.x17 Byte.x01 Byte.x00 Byte.x00 Byte.x00
           _ eq_refl)).
  reflexivity.
Defined.

Lemma handleComStmtExecuteNoLoad_stores_types_witness :
  exists fsm',
    handleComStmtExecuteNoLoad (K := mysql_consts) tiny_execute = (Some tt, fsm') /\
    stmts fsm' !! 1 = Some (mkStmt 1 "select ?" 1 (Some [Byte.x01; Byte.x00])) /\
    (forall j, j <> 1 -> stmts fsm' !! j = stmts tiny_execute !! j) /\
    (forall bound' rest', u8 bound' <> 1 ->
       execute_types (mkStmt 1 "select ?" 1 (Some [Byte.x01; Byte.x00])) bound' rest'
         = Some [Byte.x01; Byte.x00]) /\
    (@None error = None ->
       state fsm' = StateComStmtExecute /\ params fsm' = Some [Pint64 (-1)] /\
       stmt fsm' = mkStmt 1 "select ?" 1 (Some [Byte.x01; Byte.x00])) /\
    (@None error <> None -> state fsm' = StateUnknown).
Proof.
  apply (handleComStmtExecuteNoLoad_stores_types (K := mysql_consts) tiny_execute
           Byte.x17 Byte.x01 Byte.x00 Byte.x00 Byte.x00
           [Byte.x00; Byte.x01; Byte.x00; Byte.x00; Byte.x00]
           [Byte.x00] Byte.x01 [Byte.x01; Byte.x00; Byte.xff] [Byte.x01; Byte.x00]
           (mkStmt 1 "select ?" 1 None) (Some [Pint64 (-1)]) None).
  - reflexivity.
  - reflexivity.
  - reflexivity.
  - reflexivity.
  - reflexivity.
  - vm_compute. discriminate.
  - reflexivity.
  - reflexivity.
Defined.

(** ** The response to a prepare *)

Section PrepareResponse.

Context {K : Consts} {R : Readers}.

Lemma load_second (p0 p1 : MySQLPacket) (fsm : MySQLFSM) :
  packets fsm = [p0; p1] -> Len p0 < maxPacketSize -> Len p1 < maxPacketSize ->
  load 1 fsm = (Some true, loaded fsm 1 1).
Proof.
  intros E H0 H1. unfold load.
  rewrite (loadLoop_spec (length (packets fsm)) 0 1 fsm).
  - unfold terminator. rewrite E. cbn [drop firstShorter].
    destruct (Z.ltb_spec (Len p1) maxPacketSize); [reflexivity|lia].
  - rewrite E. repeat constructor; lia.
  - lia.
  - left. reflexivity.
  - right. exists 0%nat, p0. rewrite E. auto.
  - lia.
Qed.

Lemma loaded_second (p0 p1 : MySQLPacket) (fsm : MySQLFSM) :
  packets fsm = [p0; p1] ->
  content (data (loaded fsm 1 1)) = Data p1 /\
  index (packets (loaded fsm 1 1)) (start (loaded fsm 1 1)) = Some p1 /\
  state (loaded fsm 1 1) = state fsm /\
  stmts (loaded fsm 1 1) = stmts fsm /\
  stmt (loaded fsm 1 1) = stmt fsm.
Proof.
  intros E. unfold loaded.
  destruct fsm as [ch st q sm pa sc us ss d ps sta co r]. cbn in E. subst ps.
  cbn [set_count set_start set_data data packets start state stmts stmt].
  rewrite writeFrames_content. cbn. rewrite app_nil_r. repeat split; reflexivity.
Qed.

Lemma Handle_ready_Prepare0 (pkt : MySQLPacket) (fsm : MySQLFSM) :
  state fsm = StateComStmtPrepare0 -> Ready fsm = true ->
  Handle_ready pkt fsm = handleComStmtPrepareResponse fsm.
Proof.
  intros E Hr. unfold Handle_ready. rewrite bind_get, Hr. cbn [negb].
  rewrite bind_get, E. reflexivity.
Qed.

(** X10: the frame that follows a prepare request, from the server, whole
    and with the first byte 0: [Handle] reads the statement id and the
    number of parameters from it, little-endian, enters the statement with
    the text of the request in the table of the session under that id and
    leaves the state ComStmtPrepare1.  With another first byte the state is
    Unknown and the table is as it was. *)
Theorem Handle_prepare_response (req resp : MySQLPacket) (fsm : MySQLFSM)
    (b0 : byte) (body : list byte) :
  state fsm = StateComStmtPrepare0 -> packets fsm = [req] ->
  Len req < maxPacketSize -> Len resp < maxPacketSize ->
  Seq resp = (Seq req + 1) mod 256 -> Seq resp <> 0 ->
  Dir resp = TCPDirServerToClient -> Data resp = b0 :: body ->
  (forall i0 i1 i2 i3 c0 c1 n0 n1 rest,
     u8 b0 = 0 -> body = i0 :: i1 :: i2 :: i3 :: c0 :: c1 :: n0 :: n1 :: rest ->
     let registered :=
       mkStmt (stmt_id i0 i1 i2 i3) (Query (stmt fsm))
              (Z.lor (u8 n0) (Z.shiftl (u8 n1) 8)) (types (stmt fsm)) in
     exists fsm',
       Handle resp fsm = (Some tt, fsm') /\
       state fsm' = StateComStmtPrepare1 /\
       stmt fsm' = registered /\
       stmts fsm' !! stmt_id i0 i1 i2 i3 = Some registered /\
       (forall j, j <> stmt_id i0 i1 i2 i3 -> stmts fsm' !! j = stmts fsm !! j) /\
       packets fsm' = [req; resp]) /\
  (u8 b0 <> 0 ->
     exists fsm',
       Handle resp fsm = (Some tt, fsm') /\
       state fsm' = StateUnknown /\ stmts fsm' = stmts fsm /\
       packets fsm' = [req; resp]).
Proof.
  intros Es Ep Hl0 Hl1 Hseq Hnz Hdir Hdata.
  set (fsm1 := set_packets (packets fsm ++ [resp]) (set_changed false fsm)).
  assert (packets fsm1 = [req; resp]) as Ep1.
  { subst fsm1. rewrite Ep. destruct fsm; reflexivity. }
  assert (state fsm1 = StateComStmtPrepare0) as Es1.
  { subst fsm1. destruct fsm; exact Es. }
  assert (stmts fsm1 = stmts fsm /\ stmt fsm1 = stmt fsm) as (Est & Esm).
  { subst fsm1. destruct fsm; auto. }
  assert (Handle resp fsm = handleComStmtPrepareResponse fsm1) as EH.
  { rewrite (Handle_append resp fsm).
    - fold fsm1. apply Handle_ready_Prepare0; [exact Es1|].
      unfold Ready. rewrite Ep1. change (len [req; resp]) with 2.
      change (2 >? 0) with true. cbn [andb].
      change (index [req; resp] (2 - 1)) with (Some resp).
      apply Z.ltb_lt. exact Hl1.
    - rewrite Es. discriminate.
    - intros (E0 & _). contradiction.
    - rewrite (nextSeq_last fsm [] req Ep). exact Hseq. }
  set (fsm2 := loaded fsm1 1 1).
  pose proof (load_second req resp fsm1 Ep1 Hl0 Hl1) as Eload. fold fsm2 in Eload.
  destruct (loaded_second req resp fsm1 Ep1) as (Ec & Eidx & Es2 & Est2 & Esm2).
  fold fsm2 in Ec, Eidx, Es2, Est2, Esm2. rewrite Hdata in Ec.
  assert (packets fsm2 = [req; resp]) as Ep2.
  { subst fsm2. unfold loaded. destruct fsm1; exact Ep1. }
  assert (handleComStmtPrepareResponse fsm1 =
    (if negb (u8 b0 =? u8 Byte.x00) then set StateUnknown
     else
       d <- data_Bytes;;
       data <- lift (slice_from d 1);;
       r <- lift (readUint32 data);;
       let '(stmtID, data, ok) := r in
       if negb ok then
         set StateUnknown;;
         log_prefix data 4
       else
         r <- lift (readUint16 data);;
         let '(_, data, ok) := r in
         if negb ok then
           set StateUnknown;;
           log_prefix data 2
         else
           r <- lift (readUint16 data);;
           let '(numParams, _, ok) := r in
           if negb ok then
             set StateUnknown;;
             log_prefix data 2
           else
             modify (fun fsm =>
               set_stmt (mkStmt stmtID (Query (stmt fsm)) numParams
                                (types (stmt fsm))) fsm);;
             modify (fun fsm => set_stmts (<[stmtID := stmt fsm]> (stmts fsm)) fsm);;
             set StateComStmtPrepare1) fsm2) as Hrun.
  { unfold handleComStmtPrepareResponse.
    rewrite (run_bind _ _ _ _ _ Eload). cbn [negb].
    rewrite (run_bind _ _ _ _ _ (assertDir_run _ resp fsm2 Eidx)).
    rewrite bool_decide_eq_true_2 by exact Hdir. cbn [negb].
    rewrite (run_bind _ _ _ _ _ (assertDataByte_0 Byte.x00 fsm2)), Ec.
    reflexivity. }
  split.
  - intros i0 i1 i2 i3 c0 c1 n0 n1 rest Hb0 -> registered.
    rewrite EH, Hrun. change (u8 Byte.x00) with 0. rewrite Hb0. cbn [Z.eqb negb].
    unfold data_Bytes. rewrite bind_get, Ec, slice_from_cons, bind_lift_Some.
    rewrite readUint32_cons, bind_lift_Some. fold (stmt_id i0 i1 i2 i3).
    cbv beta iota. cbn [negb].
    destruct (readUint16_spec (c0 :: c1 :: n0 :: n1 :: rest)) as (v & Hv & _).
    rewrite Hv. cbn [len length Z.of_nat].
    assert ((len (c0 :: c1 :: n0 :: n1 :: rest) <? 2) = false) as Hlt.
    { apply Z.ltb_ge. unfold len. cbn [length]. lia. }
    rewrite Hlt. rewrite bind_lift_Some. cbv beta iota. cbn [negb drop].
    destruct (readUint16_spec (n0 :: n1 :: rest)) as (v' & Hv' & Hle).
    rewrite Hv'.
    assert ((len (n0 :: n1 :: rest) <? 2) = false) as Hlt'.
    { apply Z.ltb_ge. unfold len. cbn [length]. lia. }
    rewrite Hlt'. rewrite bind_lift_Some. cbv beta iota. cbn [negb].
    assert (v' = Z.lor (u8 n0) (Z.shiftl (u8 n1) 8)) as ->.
    { assert (Some v' = Some (Z.lor (u8 n0) (Z.shiftl (u8 n1) 8))) as [= ->];
        [|reflexivity].
      rewrite <- Hle; [reflexivity|]. unfold len. cbn [length]. lia. }
    rewrite !bind_modify, set_run.
    eexists. split; [reflexivity|].
    rewrite Esm in Esm2. rewrite Est in Est2. clearbody fsm2. clear Hrun Eload.
    destruct fsm2 as [ch st q sm pa sc us ss d ps sta co r].
    cbn [set_changed set_state set_stmts set_stmt state stmt stmts packets] in *.
    subst sm ss ps. subst registered.
    split; [reflexivity|]. split; [reflexivity|].
    split; [apply lookup_insert_eq|].
    split; [|reflexivity].
    intros j Hj. apply lookup_insert_ne. congruence.
  - intros Hb0. rewrite EH, Hrun. change (u8 Byte.x00) with 0.
    destruct (Z.eqb_spec (u8 b0) 0); [contradiction|]. cbn [negb].
    rewrite set_run. eexists. split; [reflexivity|].
    rewrite Est in Est2. clearbody fsm2. clear Hrun Eload.
    destruct fsm2 as [ch st q sm pa sc us ss d ps sta co r].
    cbn [set_changed set_state state stmts packets] in *. subst ss ps.
    repeat split; reflexivity.
Qed.

End PrepareResponse.

(** The machine after the request to prepare the statement "a", and the
    response that gives it the id 7 and one parameter. *)
Definition prepare_request : MySQLPacket :=
  mkPacket 0 0 2 [Byte.x16; Byte.x61] TCPDirClientToServer.

Definition prepare_ok : MySQLPacket :=
  mkPacket 1 0 12
    [Byte.x00; Byte.x07; Byte.x00; Byte.x00; Byte.x00; Byte.x00; Byte.x00;
     Byte.x01; Byte.x00; Byte.x00; Byte.x00; Byte.x00]
    TCPDirServerToClient.

Definition after_prepare_request : MySQLFSM :=
  snd (Handle (K := mysql_consts) (R := sample_readers) prepare_request NewMySQLFSM).

Lemma Handle_prepare_response_witness :
  exists fsm',
    Handle (K := mysql_consts) (R := sample_readers) prepare_ok
      after_prepare_request = (Some tt, fsm') /\
    state fsm' = StateComStmtPrepare1 /\
    stmt fsm' = mkStmt 7 "a" 1 None /\
    stmts fsm' !! 7 = Some (mkStmt 7 "a" 1 None) /\
    (forall j, j <> 7 -> stmts fsm' !! j = stmts after_prepare_request !! j) /\
    packets fsm' = [prepare_request; prepare_ok].
Proof.
  apply (proj1 (Handle_prepare_response (K := mysql_consts) (R := sample_readers)
           prepare_request prepare_ok after_prepare_request Byte.x00 _
           eq_refl eq_refl eq_refl eq_refl eq_refl ltac:(discriminate)
           eq_refl eq_refl)
           Byte.x07 Byte.x00 Byte.x00 Byte.x00 Byte.x00 Byte.x00 Byte.x01 Byte.x00
           _ eq_refl eq_refl).
Defined.

(** ** Error packets *)

Section ErrorPacket.

Context {K : Consts} {R : Readers}.

(** X11: [handleErrorPacket] on a packet that starts with the error marker
    gives an error with the number of the two bytes behind the marker,
    little-endian, and the message: the bytes behind the number, or behind
    the six bytes of SQL state when the byte behind the number is '#'.  A
    packet with another first byte gives the error of a malformed packet.
    A packet that ends with the number, or with '#' and fewer than five
    bytes of SQL state, makes it panic. *)
Theorem handleErrorPacket_fields (e n0 n1 : byte) (sp : list byte) :
  u8 e = u8 iERR ->
  (forall s0 s1 s2 s3 s4 msg,
     handleErrorPacket
       (mkSlice (e :: n0 :: n1 :: Byte.x23 :: s0 :: s1 :: s2 :: s3 :: s4 :: msg) sp)
       = Some (StreamMySQLError (Z.lor (u8 n0) (Z.shiftl (u8 n1) 8))
                 (string_of_bytes msg))) /\
  (forall c msg, u8 c <> 0x23 ->
     handleErrorPacket (mkSlice (e :: n0 :: n1 :: c :: msg) sp)
       = Some (StreamMySQLError (Z.lor (u8 n0) (Z.shiftl (u8 n1) 8))
                 (string_of_bytes (c :: msg)))) /\
  (forall e' rest, u8 e' <> u8 iERR ->
     handleErrorPacket (mkSlice (e' :: rest) sp) = Some ErrMalformPkt) /\
  handleErrorPacket (mkSlice [e; n0; n1] sp) = None /\
  (forall state, len state < 5 ->
     handleErrorPacket (mkSlice (e :: n0 :: n1 :: Byte.x23 :: state) sp) = None).
Proof.
  intros He.
  assert (forall rest,
    handleErrorPacket (mkSlice (e :: n0 :: n1 :: rest) sp) =
      d3 ← index (e :: n0 :: n1 :: rest) 3;
      let pos := if u8 d3 =? 0x23 then 9 else 3 in
      msg ← slice_from (e :: n0 :: n1 :: rest) pos;
      Some (StreamMySQLError (Z.lor (u8 n0) (Z.shiftl (u8 n1) 8))
              (string_of_bytes msg))) as Hrun.
  { intros rest. unfold handleErrorPacket. cbn [vis].
    rewrite index_cons_0. cbn [mbind option_bind].
    rewrite He, Z.eqb_refl. cbn [negb].
    unfold slice_cap. cbn [vis spare].
    rewrite slice_Some; [|lia|lia|].
    2:{ change (e :: n0 :: n1 :: rest) with ([e; n0; n1] ++ rest).
        rewrite !len_app. change (len [e; n0; n1]) with 3.
        pose proof (len_nonneg rest). pose proof (len_nonneg sp). lia. }
    reflexivity. }
  split.
  { intros s0 s1 s2 s3 s4 msg. rewrite Hrun.
    change (index _ 3) with (Some Byte.x23). cbn [mbind option_bind].
    change (u8 Byte.x23 =? 35) with true. cbv iota.
    change (e :: n0 :: n1 :: Byte.x23 :: s0 :: s1 :: s2 :: s3 :: s4 :: msg)
      with ([e; n0; n1; Byte.x23; s0; s1; s2; s3; s4] ++ msg).
    change 9 with (len [e; n0; n1; Byte.x23; s0; s1; s2; s3; s4]).
    rewrite slice_from_app. reflexivity. }
  split.
  { intros c msg Hc. rewrite Hrun.
    change (index _ 3) with (Some c). cbn [mbind option_bind].
    destruct (Z.eqb_spec (u8 c) 35); [contradiction|].
    change (e :: n0 :: n1 :: c :: msg) with ([e; n0; n1] ++ c :: msg).
    change 3 with (len [e; n0; n1]).
    rewrite slice_from_app. reflexivity. }
  split.
  { intros e' rest He'. unfold handleErrorPacket. cbn [vis].
    rewrite index_cons_0. cbn [mbind option_bind].
    destruct (Z.eqb_spec (u8 e') (u8 iERR)); [contradiction|]. reflexivity. }
  split.
  { rewrite Hrun. reflexivity. }
  intros state Hs. rewrite Hrun.
  change (index _ 3) with (Some Byte.x23). cbn [mbind option_bind].
  change (u8 Byte.x23 =? 35) with true. cbv iota.
  unfold slice_from. rewrite slice_None; [reflexivity|].
  right. left.
  change (e :: n0 :: n1 :: Byte.x23 :: state)
    with ([e; n0; n1; Byte.x23] ++ state).
  rewrite len_app. change (len [e; n0; n1; Byte.x23]) with 4. lia.
Qed.

End ErrorPacket.

Lemma handleErrorPacket_fields_witness :
  handleErrorPacket (K := mysql_consts)
    (mkSlice (Byte.xff :: Byte.x7a :: Byte.x04 :: Byte.x23 :: Byte.x34 :: Byte.x32
              :: Byte.x53 :: Byte.x30 :: Byte.x32 :: [Byte.x6e; Byte.x6f]) [])
    = Some (StreamMySQLError 1146 "no") /\
  handleErrorPacket (K := mysql_consts)
    (mkSlice (Byte.xff :: Byte.x7a :: Byte.x04 :: Byte.x6e :: [Byte.x6f]) [])
    = Some (StreamMySQLError 1146 "no") /\
  handleErrorPacket (K := mysql_consts) (mkSlice (Byte.x00 :: [Byte.x01]) [])
    = Some ErrMalformPkt /\
  handleErrorPacket (K := mysql_consts)
    (mkSlice (Byte.xff :: Byte.x7a :: Byte.x04 :: Byte.x23 :: [Byte.x34]) [])
    = None.
Proof.
  pose proof (handleErrorPacket_fields (K := mysql_consts) Byte.xff Byte.x7a
                Byte.x04 [] eq_refl) as (H1 & H2 & H3 & _ & H5).
  split; [apply H1|].
  split; [apply H2; vm_compute; discriminate|].
  split; [apply H3; vm_compute; discriminate|].
  apply H5. vm_compute. reflexivity.
Defined.

(** ** The handshake response *)

Lemma lor_shiftl_add (a b k : Z) :
  0 <= k -> 0 <= a < 2 ^ k -> Z.lor a (Z.shiftl b k) = a + b * 2 ^ k.
Proof.
  intros Hk Ha.
  assert (Z.land a (Z.shiftl b k) = 0) as Hland.
  { apply Z.bits_inj'. intros n Hn. rewrite Z.land_spec, Z.bits_0.
    destruct (Z.ltb_spec n k).
    - rewrite Z.shiftl_spec_low by lia. apply andb_false_r.
    - destruct (Z.eq_dec a 0) as [->|Hz]; [rewrite Z.bits_0; reflexivity|].
      rewrite (Z.bits_above_log2 a n); [reflexivity|lia|].
      assert (Z.log2 a < k) by (apply Z.log2_lt_pow2; lia). lia. }
  rewrite <- Z.lxor_lor by exact Hland.
  rewrite <- Z.add_nocarry_lxor by exact Hland.
  rewrite Z.shiftl_mul_pow2 by lia. reflexivity.
Qed.

(** The eight bytes behind the marker 0xfe, as [readLenEncUint] reads them:
    with the high bit of the first of them set the number is 2^63 or more. *)
Lemma BigEndian_Uint64_high (b1 b2 b3 b4 b5 b6 b7 b8 : byte) (rest : list byte) :
  128 <= u8 b1 ->
  exists n,
    BigEndian_Uint64 (b1 :: b2 :: b3 :: b4 :: b5 :: b6 :: b7 :: b8 :: rest) = Some n /\
    2 ^ 63 <= n < 2 ^ 64.
Proof.
  intros Hb. eexists. split; [reflexivity|].
  pose proof (u8_range b1). pose proof (u8_range b2). pose proof (u8_range b3).
  pose proof (u8_range b4). pose proof (u8_range b5). pose proof (u8_range b6).
  pose proof (u8_range b7). pose proof (u8_range b8).
  rewrite (lor_shiftl_add (u8 b8) (u8 b7) 8) by lia.
  rewrite (lor_shiftl_add _ (u8 b6) 16) by lia.
  rewrite (lor_shiftl_add _ (u8 b5) 24) by lia.
  rewrite (lor_shiftl_add _ (u8 b4) 32) by lia.
  rewrite (lor_shiftl_add _ (u8 b3) 40) by lia.
  rewrite (lor_shiftl_add _ (u8 b2) 48) by lia.
  rewrite (lor_shiftl_add _ (u8 b1) 56) by lia.
  lia.
Qed.

Lemma wrap_int_high (n : Z) : 2 ^ 63 <= n < 2 ^ 64 -> wrap_int n < 0.
Proof.
  intros H. unfold wrap_int, wrap_signed.
  change (2 ^ (64 - 1)) with (2 ^ 63). change (2 ^ 64) with (2 * 2 ^ 63) in *.
  replace (n + 2 ^ 63) with (n - 2 ^ 63 + 1 * (2 * 2 ^ 63)) by lia.
  rewrite Z.mod_add by lia. rewrite Z.mod_small by lia. lia.
Qed.

Section Handshake.

Context {K : Consts} {R : Readers}.

(** The capability flags of a handshake response, from its first two and
    its first four bytes. *)
Definition flags2 (f0 f1 : byte) : Z :=
  Z.lor (Z.lor 0 (u8 f0)) (Z.shiftl (u8 f1) 8).

Definition flags4 (f0 f1 f2 f3 : byte) : Z :=
  Z.lor (Z.lor (flags2 f0 f1) (Z.shiftl (u8 f2) 16)) (Z.shiftl (u8 f3) 24).

(** The handler up to the user name, on a response of the protocol 4.1:
    what is left is the part that reads the authentication data and the
    database. *)
Lemma handleHandshakeResponse_username (p0 p1 : MySQLPacket) (fsm : MySQLFSM)
    (f0 f1 f2 f3 : byte) (filler user tail : list byte) :
  packets fsm = [p0; p1] -> Len p0 < maxPacketSize -> Len p1 < maxPacketSize ->
  Dir p1 = TCPDirClientToServer ->
  Data p1 = [f0; f1] ++ [f2; f3] ++ filler ++ user ++ Byte.x00 :: tail ->
  len filler = 28 -> Forall (fun b => u8 b <> 0) user ->
  (Z.land (flags2 f0 f1) clientProtocol41 >? 0) = true ->
  let flags := flags4 f0 f1 f2 f3 in
  let readDB (data : list byte) : M unit :=
    if Z.land flags clientConnectWithDB >? 0 then
      let '(db, data, ok) := readBytesNUL data in
      if negb ok then set StateUnknown
      else
        modify (set_schema (string_of_bytes (default [] db)));;
        set StateHandshake1
    else set StateHandshake1 in
  handleHandshakeResponse fsm =
    (if Z.land flags clientPluginAuthLenEncClientData >? 0 then
       r <- lift (readLenEncUint tail);;
       let '(n, data, ok) := r in
       if negb ok then set StateUnknown
       else
       r <- lift (readBytesN data (wrap_int n));;
       let '(_, data, ok) := r in
       if negb ok then set StateUnknown
       else readDB data
     else if Z.land flags clientSecureConn >? 0 then
       r <- lift (readBytesN tail 1);;
       let '(n, data, ok) := r in
       if negb ok then set StateUnknown
       else
       n0 <- lift (index (default [] n) 0);;
       r <- lift (readBytesN data (u8 n0));;
       let '(_, data, ok) := r in
       if negb ok then set StateUnknown
       else readDB data
     else
       let '(_, data, ok) := readBytesNUL tail in
       if negb ok then set StateUnknown
       else readDB data)
      (set_username (string_of_bytes user) (loaded fsm 1 1)).
Proof.
  intros Ep Hl0 Hl1 Hdir Hdata Hfill Huser H41 flags readDB.
  pose proof (load_second p0 p1 fsm Ep Hl0 Hl1) as Eload.
  destruct (loaded_second p0 p1 fsm Ep) as (Ec & Eidx & _).
  rewrite Hdata in Ec.
  unfold handleHandshakeResponse.
  rewrite (run_bind _ _ _ _ _ Eload). cbn [negb].
  rewrite (run_bind _ _ _ _ _ (assertDir_run _ p1 _ Eidx)).
  rewrite bool_decide_eq_true_2 by exact Hdir. cbn [negb].
  unfold data_Bytes. rewrite bind_get, Ec.
  rewrite (readBytesN_app [f0; f1] _ 2 eq_refl), bind_lift_Some.
  cbv beta iota. cbn [negb default from_option id].
  change (index [f0; f1] 0) with (Some f0). change (index [f0; f1] 1) with (Some f1).
  rewrite !bind_lift_Some. fold (flags2 f0 f1). rewrite H41.
  rewrite (readBytesN_app [f2; f3] _ 2 eq_refl), bind_lift_Some.
  cbv beta iota. cbn [negb default from_option id].
  change (index [f2; f3] 0) with (Some f2). change (index [f2; f3] 1) with (Some f3).
  rewrite !bind_lift_Some. fold (flags4 f0 f1 f2 f3). fold flags.
  rewrite (readBytesN_app filler _ 28 Hfill), bind_lift_Some.
  cbv beta iota. cbn [negb].
  rewrite (readBytesNUL_app user tail Huser).
  cbv beta iota. cbn [negb default from_option id].
  rewrite bind_modify. reflexivity.
Qed.

(** X12: a handshake response of the protocol 4.1 that carries the
    authentication data with a one-byte length and names a database: the
    handler takes the user name and the database name, each up to its zero
    byte, and leaves the state Handshake1. *)
Theorem handleHandshakeResponse_user_and_database (p0 p1 : MySQLPacket)
    (fsm : MySQLFSM) (f0 f1 f2 f3 alen : byte)
    (filler user auth db rest : list byte) :
  packets fsm = [p0; p1] -> Len p0 < maxPacketSize -> Len p1 < maxPacketSize ->
  Dir p1 = TCPDirClientToServer ->
  Data p1 = [f0; f1] ++ [f2; f3] ++ filler ++ user
              ++ Byte.x00 :: [alen] ++ auth ++ db ++ Byte.x00 :: rest ->
  len filler = 28 -> u8 alen = len auth ->
  Forall (fun b => u8 b <> 0) user -> Forall (fun b => u8 b <> 0) db ->
  (Z.land (flags2 f0 f1) clientProtocol41 >? 0) = true ->
  (Z.land (flags4 f0 f1 f2 f3) clientPluginAuthLenEncClientData >? 0) = false ->
  (Z.land (flags4 f0 f1 f2 f3) clientSecureConn >? 0) = true ->
  (Z.land (flags4 f0 f1 f2 f3) clientConnectWithDB >? 0) = true ->
  exists fsm',
    handleHandshakeResponse fsm = (Some tt, fsm') /\
    state fsm' = StateHandshake1 /\
    username fsm' = string_of_bytes user /\
    schema fsm' = string_of_bytes db /\
    stmts fsm' = stmts fsm.
Proof.
  intros Ep Hl0 Hl1 Hdir Hdata Hfill Halen Huser Hdb H41 Hplug Hsec Hwith.
  rewrite (handleHandshakeResponse_username p0 p1 fsm f0 f1 f2 f3 filler user
             _ Ep Hl0 Hl1 Hdir Hdata Hfill Huser H41).
  rewrite Hplug, Hsec, Hwith.
  rewrite (readBytesN_app [alen] _ 1 eq_refl), bind_lift_Some.
  cbv beta iota. cbn [negb default from_option id].
  change (index [alen] 0) with (Some alen). rewrite bind_lift_Some.
  rewrite (readBytesN_app auth _ (u8 alen) (eq_sym Halen)), bind_lift_Some.
  cbv beta iota. cbn [negb].
  rewrite (readBytesNUL_app db rest Hdb).
  cbv beta iota. cbn [negb default from_option id].
  rewrite bind_modify, set_run.
  eexists. split; [reflexivity|].
  destruct (loaded_second p0 p1 fsm Ep) as (_ & _ & _ & Est & _).
  destruct (loaded fsm 1 1) as [ch st q sm pa sc us ss d ps sta co r].
  cbn [set_changed set_state set_schema set_username state username schema stmts] in *.
  auto.
Qed.

(** X13: a handshake response of the protocol 4.1 that carries the
    authentication data with a length-encoded length, where that length is
    written with the marker 0xfe and the first byte behind the marker has
    its high bit set: [readLenEncUint] gives 2^63 or more, the conversion to
    [int] makes it negative, and [readBytesN] panics on the negative count.
    The user name has been stored by then. *)
Theorem handleHandshakeResponse_panics_on_long_auth (p0 p1 : MySQLPacket)
    (fsm : MySQLFSM) (f0 f1 f2 f3 b1 b2 b3 b4 b5 b6 b7 b8 : byte)
    (filler user rest : list byte) :
  packets fsm = [p0; p1] -> Len p0 < maxPacketSize -> Len p1 < maxPacketSize ->
  Dir p1 = TCPDirClientToServer ->
  Data p1 = [f0; f1] ++ [f2; f3] ++ filler ++ user
              ++ Byte.x00 :: Byte.xfe :: b1 :: b2 :: b3 :: b4 :: b5 :: b6 :: b7
                 :: b8 :: rest ->
  len filler = 28 -> Forall (fun b => u8 b <> 0) user ->
  128 <= u8 b1 ->
  (Z.land (flags2 f0 f1) clientProtocol41 >? 0) = true ->
  (Z.land (flags4 f0 f1 f2 f3) clientPluginAuthLenEncClientData >? 0) = true ->
  handleHandshakeResponse fsm
    = (None, set_username (string_of_bytes user) (loaded fsm 1 1)).
Proof.
  intros Ep Hl0 Hl1 Hdir Hdata Hfill Huser Hb H41 Hplug.
  rewrite (handleHandshakeResponse_username p0 p1 fsm f0 f1 f2 f3 filler user
             _ Ep Hl0 Hl1 Hdir Hdata Hfill Huser H41).
  rewrite Hplug.
  destruct (BigEndian_Uint64_high b1 b2 b3 b4 b5 b6 b7 b8 rest Hb) as (n & Hn & Hr).
  assert (readLenEncUint
            (Byte.xfe :: b1 :: b2 :: b3 :: b4 :: b5 :: b6 :: b7 :: b8 :: rest)
          = Some (n, rest, true)) as ->.
  { unfold readLenEncUint.
    assert (len (Byte.xfe :: b1 :: b2 :: b3 :: b4 :: b5 :: b6 :: b7 :: b8 :: rest)
            = 9 + len rest) as Hlen.
    { change (Byte.xfe :: b1 :: b2 :: b3 :: b4 :: b5 :: b6 :: b7 :: b8 :: rest)
        with ([Byte.xfe; b1; b2; b3; b4; b5; b6; b7; b8] ++ rest).
      rewrite len_app. reflexivity. }
    pose proof (len_nonneg rest).
    rewrite Hlen.
    destruct (Z.ltb_spec (9 + len rest) 1); [lia|].
    rewrite index_cons_0. cbn [mbind option_bind].
    change (u8 Byte.xfe <? 251) with false. change (u8 Byte.xfe =? 252) with false.
    change (u8 Byte.xfe =? 253) with false. change (u8 Byte.xfe =? 254) with true.
    cbv iota.
    destruct (Z.ltb_spec (9 + len rest) 9); [lia|].
    rewrite slice_from_cons. cbn [mbind option_bind]. rewrite Hn.
    cbn [mbind option_bind].
    change (Byte.xfe :: b1 :: b2 :: b3 :: b4 :: b5 :: b6 :: b7 :: b8 :: rest)
      with ([Byte.xfe; b1; b2; b3; b4; b5; b6; b7; b8] ++ rest).
    change 9 with (len [Byte.xfe; b1; b2; b3; b4; b5; b6; b7; b8]).
    rewrite slice_from_app. reflexivity. }
  rewrite bind_lift_Some. cbv beta iota. cbn [negb].
  rewrite (readBytesN_negative rest (wrap_int n) (wrap_int_high n Hr)).
  reflexivity.
Qed.

End Handshake.

(** A machine with the greeting of the server and the response of a client
    in its buffer; the response has the capability flags [f0 f1 f2 f3] and
    the bytes [tail] behind the user name "root". *)
Definition handshake_frames (f0 f1 f2 f3 : byte) (tail : list byte) : MySQLFSM :=
  set_packets
    [mkPacket 0 0 1 [Byte.x0a] TCPDirServerToClient;
     mkPacket 1 0 64
       ([f0; f1] ++ [f2; f3] ++ replicate 28 Byte.x00
          ++ [Byte.x72; Byte.x6f; Byte.x6f; Byte.x74] ++ Byte.x00 :: tail)
       TCPDirClientToServer]
    (set_state StateHandshake0 NewMySQLFSM).

Lemma handleHandshakeResponse_user_and_database_witness :
  exists fsm',
    handleHandshakeResponse (K := mysql_consts)
      (handshake_frames Byte.x08 Byte.x82 Byte.x00 Byte.x00
         ([Byte.x01] ++ [Byte.xaa] ++ [Byte.x64; Byte.x62] ++ Byte.x00 :: []))
      = (Some tt, fsm') /\
    state fsm' = StateHandshake1 /\
    username fsm' = "root"%string /\
    schema fsm' = "db"%string /\
    stmts fsm' = ∅.
Proof.
  apply (handleHandshakeResponse_user_and_database (K := mysql_consts)
           _ _ (handshake_frames Byte.x08 Byte.x82 Byte.x00 Byte.x00 _)
           Byte.x08 Byte.x82 Byte.x00 Byte.x00 Byte.x01 (replicate 28 Byte.x00)
           [Byte.x72; Byte.x6f; Byte.x6f; Byte.x74] [Byte.xaa]
           [Byte.x64; Byte.x62] [] eq_refl eq_refl eq_refl eq_refl eq_refl
           eq_refl eq_refl).
  - repeat constructor; vm_compute; discriminate.
  - repeat constructor; vm_compute; discriminate.
  - reflexivity.
  - reflexivity.
  - reflexivity.
  - reflexivity.
Defined.

Lemma handleHandshakeResponse_panics_on_long_auth_witness :
  fst (handleHandshakeResponse (K := mysql_consts)
         (handshake_frames Byte.x00 Byte.x02 Byte.x20 Byte.x00
            (Byte.xfe :: Byte.x80 :: Byte.x00 :: Byte.x00 :: Byte.x00 :: Byte.x00
             :: Byte.x00 :: Byte.x00 :: Byte.x00 :: []))) = None.
Proof.
  rewrite (handleHandshakeResponse_panics_on_long_auth (K := mysql_consts)
             _ _ (handshake_frames Byte.x00 Byte.x02 Byte.x20 Byte.x00 _)
             Byte.x00 Byte.x02 Byte.x20 Byte.x00
             Byte.x80 Byte.x00 Byte.x00 Byte.x00 Byte.x00 Byte.x00 Byte.x00 Byte.x00
             (replicate 28 Byte.x00) [Byte.x72; Byte.x6f; Byte.x6f; Byte.x74] []
             eq_refl eq_refl eq_refl eq_refl eq_refl eq_refl
             ltac:(repeat constructor; vm_compute; discriminate)
             ltac:(vm_compute; discriminate) eq_refl eq_refl).
  reflexivity.
Defined.

(** ** The frames of the loaded body *)

Section PacketsFacts.

Context {K : Consts}.

(** X14: after a [load(k)] that succeeds, [Packets] gives the frames from
    [k] to the frame that ends the body, and the working buffer is the
    concatenation of their payloads. *)
Theorem Packets_after_load (fsm : MySQLFSM) (k t : nat) :
  frames_ok (packets fsm) -> begins_body (packets fsm) k ->
  terminator (packets fsm) k = Some t ->
  load (Z.of_nat k) fsm = (Some true, loaded fsm k t) /\
  Packets (loaded fsm k t)
    = Some (Some (take (S t - k) (drop k (packets fsm)))) /\
  content (data (loaded fsm k t))
    = concat (Data <$> take (S t - k) (drop k (packets fsm))).
Proof.
  intros Hok Hk Ht.
  destruct (terminator_spec (packets fsm) k t Hok Ht) as ((Hkt & Htl) & _).
  split.
  { unfold load.
    rewrite (loadLoop_spec (length (packets fsm)) 0 k fsm Hok); try lia.
    - rewrite Ht. reflexivity.
    - left. reflexivity.
    - exact Hk. }
  split.
  - unfold Packets, loaded.
    destruct fsm as [ch st q sm pa sc us ss d ps sta co r].
    cbn [set_count set_start set_data start count packets] in *.
    assert (Z.of_nat k + (Z.of_nat t - Z.of_nat k + 1) = Z.of_nat (S t)) as -> by lia.
    destruct (Z.gtb_spec (Z.of_nat (S t)) (len ps)) as [H|H];
      [unfold len in H; lia|].
    rewrite slice_Some by (unfold len in *; lia).
    cbn [mbind option_bind]. do 3 f_equal. lia. rewrite Nat2Z.id. reflexivity.
  - unfold loaded. destruct fsm as [ch st q sm pa sc us ss d ps sta co r].
    cbn [set_count set_start set_data data packets].
    rewrite writeFrames_content. reflexivity.
Qed.

End PacketsFacts.

Lemma Packets_after_load_witness :
  load (K := mysql_consts) (Z.of_nat 0) two_frames
    = (Some true, loaded (K := mysql_consts) two_frames 0 1) /\
  Packets (loaded (K := mysql_consts) two_frames 0 1)
    = Some (Some (packets two_frames)) /\
  content (data (loaded (K := mysql_consts) two_frames 0 1))
    = [Byte.x03; Byte.x61; Byte.x62].
Proof.
  apply (Packets_after_load (K := mysql_consts) two_frames 0 1).
  - repeat constructor; vm_compute; congruence.
  - left. reflexivity.
  - reflexivity.
Defined.

(** ** Recognising a SELECT *)

Section IsSelect.

Local Open Scope char_scope.

(** A string of [n] spaces. *)
Fixpoint spaces (n : nat) : string :=
  match n with
  | O => EmptyString
  | S n' => String " " (spaces n')
  end.

Definition select_letters (c0 c1 c2 c3 c4 c5 : ascii) : Prop :=
  (c0 = "S" \/ c0 = "s") /\ (c1 = "E" \/ c1 = "e") /\ (c2 = "L" \/ c2 = "l") /\
  (c3 = "E" \/ c3 = "e") /\ (c4 = "C" \/ c4 = "c") /\ (c5 = "T" \/ c5 = "t").

Lemma letter_test (c u l : ascii) :
  ((c =? u) || (c =? l)) = true <-> c = u \/ c = l.
Proof.
  rewrite orb_true_iff, !Ascii.eqb_eq. reflexivity.
Qed.

Lemma select_at_spec (q : string) :
  select_at q = true <->
  exists c0 c1 c2 c3 c4 c5 rest,
    q = String c0 (String c1 (String c2 (String c3 (String c4 (String c5 rest)))))
    /\ select_letters c0 c1 c2 c3 c4 c5.
Proof.
  split.
  - destruct q as [|c0 [|c1 [|c2 [|c3 [|c4 [|c5 rest]]]]]]; try discriminate.
    cbn [select_at]. rewrite !andb_true_iff, !letter_test.
    intros (((((H0 & H1) & H2) & H3) & H4) & H5).
    exists c0, c1, c2, c3, c4, c5, rest. split; [reflexivity|].
    repeat split; assumption.
  - intros (c0 & c1 & c2 & c3 & c4 & c5 & rest & -> & H0 & H1 & H2 & H3 & H4 & H5).
    cbn [select_at]. rewrite !andb_true_iff, !letter_test. tauto.
Qed.

Lemma select_at_length (q : string) :
  select_at q = true -> (6 <= String.length q)%nat.
Proof.
  intros H. apply select_at_spec in H
    as (c0 & c1 & c2 & c3 & c4 & c5 & rest & -> & _).
  cbn [String.length]. lia.
Qed.

Lemma select_at_not_space (q : string) :
  select_at q = true -> exists c q', q = String c q' /\ c <> " ".
Proof.
  intros H. apply select_at_spec in H
    as (c0 & c1 & c2 & c3 & c4 & c5 & rest & -> & [-> | ->] & _);
    eexists _, _; (split; [reflexivity|discriminate]).
Qed.

Lemma spaces_0_app (q : string) : (spaces 0 ++ q)%string = q.
Proof. reflexivity. Qed.

Lemma spaces_S_app (n : nat) (q : string) :
  (spaces (S n) ++ q)%string = String " " (spaces n ++ q).
Proof. reflexivity. Qed.

Lemma select_scan_spec (q : string) :
  select_scan q = true <-> exists n q', q = (spaces n ++ q')%string /\ select_at q' = true.
Proof.
  split.
  - induction q as [|x q IH]; [discriminate|]. cbn [select_scan].
    destruct (Ascii.eqb_spec x " ") as [->|Hx].
    + intros H. destruct (IH H) as (n & q' & -> & Hq').
      exists (S n), q'. split; [symmetry; apply spaces_S_app|exact Hq'].
    + destruct (String.length (String x q) <? 6)%nat; [discriminate|].
      intros H. exists 0%nat, (String x q). split; [reflexivity|exact H].
  - intros (n & q' & -> & Hq'). induction n as [|n IH].
    + rewrite spaces_0_app.
      destruct (select_at_not_space q' Hq') as (c & r & -> & Hc).
      cbn [select_scan]. destruct (Ascii.eqb_spec c " "); [contradiction|].
      pose proof (select_at_length _ Hq') as Hl.
      destruct (Nat.ltb_spec (String.length (String c r)) 6); [lia|exact Hq'].
    + rewrite spaces_S_app. cbn [select_scan]. exact IH.
Qed.

Lemma length_spaces_append (n : nat) (q : string) :
  String.length (spaces n ++ q)%string = (n + String.length q)%nat.
Proof.
  induction n as [|n IH]; [reflexivity|].
  rewrite spaces_S_app. cbn [String.length]. rewrite IH. reflexivity.
Qed.

(** X15: [IsSelectStmtOrSelectPrepare] holds exactly of the queries that
    are some spaces, the six letters of "select" in either case, and
    anything behind them.  So it ignores spaces in front of a query, it does
    not skip a tab or a line break, and it asks for no word boundary behind
    the six letters. *)
Theorem IsSelectStmtOrSelectPrepare_spec (query : string) :
  (IsSelectStmtOrSelectPrepare query = true <->
   exists n c0 c1 c2 c3 c4 c5 rest,
     query = (spaces n ++
              String c0 (String c1 (String c2 (String c3 (String c4
                (String c5 rest))))))%string /\
     select_letters c0 c1 c2 c3 c4 c5) /\
  (forall n, IsSelectStmtOrSelectPrepare (spaces n ++ query)
             = IsSelectStmtOrSelectPrepare query) /\
  (forall c rest, c <> " " -> c <> "S" -> c <> "s" ->
     IsSelectStmtOrSelectPrepare (String c rest) = false).
Proof.
  assert (forall q, IsSelectStmtOrSelectPrepare q = true <->
            exists n q', q = (spaces n ++ q')%string /\ select_at q' = true) as Hspec.
  { intros q. unfold IsSelectStmtOrSelectPrepare. split.
    - destruct (String.length q <? 6)%nat; [discriminate|].
      apply select_scan_spec.
    - intros (n & q' & -> & Hq'). rewrite length_spaces_append.
      pose proof (select_at_length _ Hq').
      destruct (Nat.ltb_spec (n + String.length q') 6); [lia|].
      apply select_scan_spec. eauto. }
  split.
  { rewrite Hspec. split.
    - intros (n & q' & -> & Hq'). apply select_at_spec in Hq'
        as (c0 & c1 & c2 & c3 & c4 & c5 & rest & -> & Hl).
      exists n, c0, c1, c2, c3, c4, c5, rest. auto.
    - intros (n & c0 & c1 & c2 & c3 & c4 & c5 & rest & -> & Hl).
      eexists n, _. split; [reflexivity|]. apply select_at_spec.
      exists c0, c1, c2, c3, c4, c5, rest. auto. }
  split.
  { intros n.
    destruct (IsSelectStmtOrSelectPrepare query) eqn:E.
    - apply Hspec in E as (m & q' & -> & Hq'). apply Hspec.
      exists (n + m)%nat, q'. split; [|exact Hq'].
      clear. induction n as [|n IH]; [reflexivity|].
      rewrite spaces_S_app, IH. reflexivity.
    - destruct (IsSelectStmtOrSelectPrepare (spaces n ++ query)) eqn:E';
        [|reflexivity].
      apply Hspec in E' as (m & q' & Eq & Hq').
      assert (IsSelectStmtOrSelectPrepare query = true) as Ht; [|congruence].
      destruct (select_at_not_space q' Hq') as (c & r & -> & Hc).
      clear E. revert m Eq. induction n as [|n IH]; intros m Eq.
      + apply Hspec. exists m, (String c r). split; [exact Eq|exact Hq'].
      + rewrite spaces_S_app in Eq. destruct m as [|m].
        * rewrite spaces_0_app in Eq. injection Eq as Ec _. congruence.
        * rewrite spaces_S_app in Eq. injection Eq as Eq. apply (IH m Eq). }
  intros c rest Hsp HS Hs.
  destruct (IsSelectStmtOrSelectPrepare (String c rest)) eqn:E; [|reflexivity].
  apply Hspec in E as (n & q' & Eq & Hq').
  destruct n as [|n].
  - rewrite spaces_0_app in Eq. subst q'. apply select_at_spec in Hq'
      as (c0 & c1 & c2 & c3 & c4 & c5 & r & [= -> _] & [-> | ->] & _); congruence.
  - rewrite spaces_S_app in Eq. injection Eq as Ec _. congruence.
Qed.

End IsSelect.

Lemma IsSelectStmtOrSelectPrepare_spec_witness :
  IsSelectStmtOrSelectPrepare "  SeLeCTion" = true /\
  IsSelectStmtOrSelectPrepare (String "009"%char "select 1") = false.
Proof.
  split.
  - apply (proj1 (IsSelectStmtOrSelectPrepare_spec "  SeLeCTion")).
    exists 2%nat, "S"%char, "e"%char, "L"%char, "e"%char, "C"%char, "T"%char,
      "ion"%string.
    split; [reflexivity|]. unfold select_letters. tauto.
  - apply (proj2 (proj2 (IsSelectStmtOrSelectPrepare_spec ""))); discriminate.
Defined.

(** ** The shape of the rendered rows *)

Section RenderedRows.

Context {C : Converter}.

(** A cell that is rendered: nil, or a value that converts. *)
Definition renders (c : Value) : Prop :=
  c = Vnil \/ exists s, ConvertAssignRows c = Converted s.

Lemma convertRow_renders (cells : list Value) (acc : list string) :
  Forall renders cells ->
  exists strs, convertRow cells acc = inl (acc ++ strs) /\
               length strs = length cells.
Proof.
  intros H. revert acc. induction H as [|c cells Hc _ IH]; intros acc.
  - exists []. rewrite app_nil_r. split; reflexivity.
  - assert (exists s, convertRow (c :: cells) acc = convertRow cells (acc ++ [s]))
      as (s & ->).
    { destruct Hc as [->|(s & Hs)]; [exists ""%string; reflexivity|].
      destruct c; try (exists ""%string; reflexivity);
        exists s; cbn [convertRow]; rewrite Hs; reflexivity. }
    destruct (IH (acc ++ [s])) as (strs & E & Hl).
    exists (s :: strs). rewrite E, <- app_assoc. split; [reflexivity|cbn; lia].
Qed.

Lemma convertRow_fails (before behind : list Value) (c : Value) (e : error)
    (acc : list string) :
  Forall renders before -> c <> Vnil -> ConvertAssignRows c = NotConverted e ->
  convertRow (before ++ c :: behind) acc = inr e.
Proof.
  intros H Hc He. revert acc. induction H as [|b before Hb _ IH]; intros acc.
  - cbn [app]. destruct c; try congruence; cbn [convertRow]; rewrite He;
      reflexivity.
  - cbn [app].
    assert (exists s, convertRow (b :: before ++ c :: behind) acc
                      = convertRow (before ++ c :: behind) (acc ++ [s])) as (s & ->).
    { destruct Hb as [->|(s & Hs)]; [exists ""%string; reflexivity|].
      destruct b; try (exists ""%string; reflexivity);
        exists s; cbn [convertRow]; rewrite Hs; reflexivity. }
    apply IH.
Qed.

Lemma convertRows_renders (rows : list (list Value)) (acc : list (list string)) :
  Forall (Forall renders) rows ->
  exists out, convertRows rows acc = (Some (acc ++ out), None) /\
              Forall2 (fun row strs => length strs = length row) rows out.
Proof.
  intros H. revert acc. induction H as [|row rows Hrow _ IH]; intros acc.
  - exists []. rewrite app_nil_r. split; [reflexivity|constructor].
  - cbn [convertRows].
    destruct (convertRow_renders row [] Hrow) as (strs & E & Hl).
    rewrite E. cbn [app].
    destruct (IH (acc ++ [strs])) as (out & E' & Hf).
    exists (strs :: out). rewrite E', <- app_assoc.
    split; [reflexivity|]. constructor; assumption.
Qed.

Lemma convertRows_fails (above below : list (list Value))
    (before behind : list Value) (c : Value) (e : error) (acc : list (list string)) :
  Forall (Forall renders) above -> Forall renders before ->
  c <> Vnil -> ConvertAssignRows c = NotConverted e ->
  convertRows (above ++ (before ++ c :: behind) :: below) acc = (None, Some e).
Proof.
  intros H Hb Hc He. revert acc. induction H as [|row above Hrow _ IH]; intros acc.
  - cbn [app convertRows].
    rewrite (convertRow_fails before behind c e [] Hb Hc He). reflexivity.
  - cbn [app convertRows].
    destruct (convertRow_renders row [] Hrow) as (strs & E & _).
    rewrite E. apply IH.
Qed.

(** X16: [ConvertResToStr] renders all the rows or none.  When every cell
    is nil or converts, it gives as many rows as it was given, each with as
    many strings as the row has cells.  When a cell does not convert, it
    gives nil and the error of the first such cell, in the order of the rows
    and of the cells in a row; no row is given with a cell left out. *)
Theorem ConvertResToStr_all_or_nothing (rows : list (list Value)) :
  (Forall (Forall renders) rows ->
   exists out,
     ConvertResToStr rows = (Some out, None) /\
     Forall2 (fun row strs => length strs = length row) rows out) /\
  (forall above below before behind c e,
     rows = above ++ (before ++ c :: behind) :: below ->
     Forall (Forall renders) above -> Forall renders before ->
     c <> Vnil -> ConvertAssignRows c = NotConverted e ->
     ConvertResToStr rows = (None, Some e)).
Proof.
  split.
  - intros H. destruct (convertRows_renders rows [] H) as (out & E & Hf).
    exists out. split; [exact E|exact Hf].
  - intros above below before behind c e -> Ha Hb Hc He.
    apply convertRows_fails; assumption.
Qed.

End RenderedRows.

Lemma ConvertResToStr_all_or_nothing_witness :
  (exists out,
     ConvertResToStr (C := sample_converter) [[Vint64 1; Vnil]; [Vstring "a"]]
       = (Some out, None) /\
     Forall2 (fun row strs => length strs = length row)
       [[Vint64 1; Vnil]; [Vstring "a"]] out) /\
  ConvertResToStr (C := sample_converter)
    ([[Vint64 1]] ++ ([Vnil] ++ Vother 0 :: [Vint64 2]) :: [])
    = (None, Some (errors_New "unsupported Scan")).
Proof.
  split.
  - apply (proj1 (ConvertResToStr_all_or_nothing (C := sample_converter)
             [[Vint64 1; Vnil]; [Vstring "a"]])).
    constructor; [|constructor; [|constructor]].
    + constructor; [right; eexists; reflexivity|].
      constructor; [left; reflexivity|constructor].
    + constructor; [right; eexists; reflexivity|constructor].
  - apply (proj2 (ConvertResToStr_all_or_nothing (C := sample_converter)
             ([[Vint64 1]] ++ ([Vnil] ++ Vother 0 :: [Vint64 2]) :: []))
             [[Vint64 1]] [] [Vnil] [Vint64 2] (Vother 0)
             (errors_New "unsupported Scan") eq_refl).
    + constructor; [|constructor].
      constructor; [right; eexists; reflexivity|constructor].
    + constructor; [left; reflexivity|constructor].
    + discriminate.
    + reflexivity.
Defined.

(** ** The final state *)

Section QuitIsFinal.

Context {K : Consts} {R : Readers}.

(** The machine after the frames [pkts], handled in turn. *)
Definition after_frames (pkts : list MySQLPacket) (fsm : MySQLFSM) : MySQLFSM :=
  foldl (fun s pkt => snd (Handle pkt s)) fsm pkts.

(** X17: the state Quit is final.  Whatever frames follow, each call of
    [Handle] returns, and the machine stays as it was in every field but the
    flag [changed], which is cleared. *)
Theorem Handle_quit_is_final (pkts : list MySQLPacket) (fsm : MySQLFSM) :
  state fsm = StateComQuit ->
  after_frames pkts fsm = (if pkts is [] then fsm else set_changed false fsm) /\
  state (after_frames pkts fsm) = StateComQuit /\
  forall pkt, fst (Handle pkt (after_frames pkts fsm)) = Some tt.
Proof.
  intros Hq.
  assert (forall l s, state s = StateComQuit ->
            after_frames l s = if l is [] then s else set_changed false s) as Hall.
  { induction l as [|p l IH]; intros s Hs; [reflexivity|].
    unfold after_frames. cbn [foldl]. fold (after_frames l (snd (Handle p s))).
    rewrite (Handle_quit p s Hs). cbn [snd].
    rewrite IH by (destruct s; exact Hs).
    destruct l; [reflexivity|]. destruct s; reflexivity. }
  assert (state (after_frames pkts fsm) = StateComQuit) as Hst.
  { rewrite (Hall pkts fsm Hq). destruct pkts; [exact Hq|].
    destruct fsm; exact Hq. }
  split; [apply Hall; exact Hq|]. split; [exact Hst|].
  intros pkt. rewrite (Handle_quit pkt _ Hst). reflexivity.
Qed.

End QuitIsFinal.

Lemma Handle_quit_is_final_witness :
  after_frames (K := mysql_consts) (R := sample_readers)
    [query_frame; reply_frame 1] (set_state StateComQuit NewMySQLFSM)
    = set_changed false (set_state StateComQuit NewMySQLFSM) /\
  state (after_frames (K := mysql_consts) (R := sample_readers)
           [query_frame; reply_frame 1] (set_state StateComQuit NewMySQLFSM))
    = StateComQuit /\
  forall pkt,
    fst (Handle (K := mysql_consts) (R := sample_readers) pkt
           (after_frames (K := mysql_consts) (R := sample_readers)
              [query_frame; reply_frame 1] (set_state StateComQuit NewMySQLFSM)))
      = Some tt.
Proof.
  apply (Handle_quit_is_final (K := mysql_consts) (R := sample_readers)
           [query_frame; reply_frame 1] (set_state StateComQuit NewMySQLFSM)).
  reflexivity.
Defined.

(** ** The replay session *)

Import sqlreplay.

Section ReplayFacts.

Context {C : Converter} (T : Target).

(** The rows that [ReadRowValues] appends, for the rows of a result. *)
Definition keptRow (z : list Value) : option (list Value) :=
  let '(rr, err) := readCells z [] None in
  match err with
  | None => Some rr
  | Some _ => None
  end.

Definition keptRows (rows : list (list Value)) : list (list Value) :=
  omap keptRow rows.

(** The world with other rows in the replay-side result of its event. *)
Definition with_ColValues (v : list (list Value)) (w : World) : World :=
  set_ev (set_Rr (set_ColValues v (Rr (ev w))) (ev w)) w.

Lemma with_ColValues_twice (u v : list (list Value)) (w : World) :
  with_ColValues u (with_ColValues v w) = with_ColValues u w.
Proof. destruct w as [? [? ? ? ? ? ? []] ? ? ? ?]. reflexivity. Qed.

Lemma with_ColValues_same (w : World) :
  with_ColValues (ColValues (Rr (ev w))) w = w.
Proof. destruct w as [? [? ? ? ? ? ? []] ? ? ? ?]. reflexivity. Qed.

Lemma ColValues_with (v : list (list Value)) (w : World) :
  ColValues (Rr (ev (with_ColValues v w))) = v.
Proof. destruct w as [? [? ? ? ? ? ? []] ? ? ? ?]. reflexivity. Qed.

Lemma ReadRowValues_run (z : list Value) (w : World) :
  ReadRowValues z w =
    (Some tt,
     match keptRow z with
     | Some rr => with_ColValues (ColValues (Rr (ev w)) ++ [rr]) w
     | None => w
     end).
Proof.
  unfold ReadRowValues, keptRow.
  destruct (readCells z [] None) as [rr [e|]]; reflexivity.
Qed.

Lemma readRows_run (rows : list (list Value)) (w : World) :
  readRows rows w =
    (Some tt, with_ColValues (ColValues (Rr (ev w)) ++ keptRows rows) w).
Proof.
  revert w. induction rows as [|z rows IH]; intros w; cbn [readRows].
  - unfold keptRows. cbn [omap list_omap]. rewrite app_nil_r, with_ColValues_same.
    reflexivity.
  - unfold bind. rewrite ReadRowValues_run, IH.
    unfold keptRows. cbn [omap list_omap]. fold (keptRows rows).
    destruct (keptRow z) as [rr|].
    + rewrite ColValues_with, with_ColValues_twice, <- app_assoc. reflexivity.
    + reflexivity.
Qed.

Lemma bind_run {S A B} (m : StateM S A) (k : A -> StateM S B) (s s' : S) (a : A) :
  m s = (Some a, s') -> bind m k s = k a s'.
Proof. intros E. unfold bind. rewrite E. reflexivity. Qed.

(** With the pool and the connection at hand, [getConn] asks nothing. *)
Lemma getConn_open (w : World) (p : string) :
  pool (h w) = Some p -> conn (h w) = true -> getConn T w = (Some None, w).
Proof.
  intros Hp Hc. unfold getConn.
  rewrite bind_get, Hp, bind_ret, bind_get, Hc. reflexivity.
Qed.

(** The world after a statement went to the target and its reply came back:
    the call is on the list, a reply and two clock readings are taken, and
    the result has the statement and the two times; [f] writes the fields
    of the result that are set before the call. *)
Definition sent (c : call) (f : Z -> ReplayRes -> ReplayRes) (w : World) : World :=
  mkWorld (h w)
    (set_Rr (set_SqlEndTime (wrap_uint64 (time_of T (S (readings w))))
               (f (wrap_uint64 (time_of T (readings w))) (Rr (ev w)))) (ev w))
    (calls w ++ [c]) (S (replies w)) (S (S (readings w))) (sink w).

(** The world after the rows of a result were read and closed. *)
Definition fetched (rows : list (list Value)) (w : World) : World :=
  set_calls (calls w ++ [rows_Close])
    (with_ColValues (ColValues (Rr (ev w)) ++ keptRows rows) w).

Definition query_fields (q : string) (t : Z) (r : ReplayRes) : ReplayRes :=
  set_SqlStatment q (set_SqlBeginTime t r).

Definition stmt_fields (q : string) (params : list param) (t : Z) (r : ReplayRes)
  : ReplayRes :=
  set_SqlBeginTime t (set_Values params (set_SqlStatment q r)).

Lemma execute_run (q : string) (w : World) (p : string) :
  pool (h w) = Some p -> conn (h w) = true ->
  execute T q w =
    match reply_of T (replies w) with
    | Failed e => (Some (Some e), sent (conn_QueryContext q) (query_fields q) w)
    | Done rows =>
        (Some None, fetched rows (sent (conn_QueryContext q) (query_fields q) w))
    end.
Proof.
  intros Hp Hc. unfold execute.
  rewrite (bind_run _ _ _ _ _ (getConn_open w p Hp Hc)).
  unfold time_Now, ask, tell, modify_Rr, bind at 1 2 3 4 5 6, modify at 1 2 3.
  destruct w as [hh [ty tm qq id ps db rr] cl rp rd sk]. cbn [readings replies calls ev h Rr
    set_ev set_Rr set_replies set_calls set_readings].
  destruct (reply_of T rp) as [rows|e]; [|reflexivity].
  unfold bind. rewrite readRows_run. reflexivity.
Qed.

Lemma getStmt_live (id : string) (w : World) (text q : string) :
  stmts (h w) !! id = Some (mkStatement text (Some q)) ->
  getStmt T id w = (Some (Some q, None), w).
Proof.
  intros Hs. unfold getStmt. rewrite bind_get, Hs. reflexivity.
Qed.

Lemma stmtExecute_run (id : string) (params : list param) (w : World) (text q : string) :
  stmts (h w) !! id = Some (mkStatement text (Some q)) ->
  stmtExecute T id params w =
    match reply_of T (replies w) with
    | Failed e =>
        (Some (Some e), sent (stmt_QueryContext q params) (stmt_fields q params) w)
    | Done rows =>
        (Some None,
         fetched rows (sent (stmt_QueryContext q params) (stmt_fields q params) w))
    end.
Proof.
  intros Hs. unfold stmtExecute.
  rewrite (bind_run _ _ _ _ _ (getStmt_live id w text q Hs)).
  unfold time_Now, ask, tell, modify_Rr, bind at 1 2 3 4 5 6 7, modify at 1 2 3 4.
  destruct w as [hh [ty tm qq i ps db rr] cl rp rd sk]. cbn [readings replies calls ev h Rr
    set_ev set_Rr set_replies set_calls set_readings].
  destruct (reply_of T rp) as [rows|e]; [|reflexivity].
  unfold bind. rewrite readRows_run. reflexivity.
Qed.

(** *** The lock-wait retry loops *)

(** The two loops are one loop around an attempt. *)
Fixpoint retryLoop (attempt : W (option error)) (fuel : nat) : W (option error) :=
  match fuel with
  | O => panic
  | S fuel' =>
      err <- attempt;;
      match err with
      | Some e =>
          if lockWaitTimeout e then
            modify_Rr (set_ColValues []);;
            retryLoop attempt fuel'
          else ret (Some e)
      | None => ret None
      end
  end.

Lemma retryComQuery_retryLoop (fuel : nat) (q : string) :
  retryComQuery T fuel q = retryLoop (execute T q) fuel.
Proof. induction fuel as [|fuel IH]; cbn; [|rewrite IH]; reflexivity. Qed.

Lemma retryComStmtExecute_retryLoop (fuel : nat) (id : string) (params : list param) :
  retryComStmtExecute T fuel id params = retryLoop (stmtExecute T id params) fuel.
Proof. induction fuel as [|fuel IH]; cbn; [|rewrite IH]; reflexivity. Qed.

(** The reply is the lock-wait timeout. *)
Definition lockWaitReply (r : reply) : bool :=
  match r with
  | Failed e => lockWaitTimeout e
  | Done _ => false
  end.

(** The world after an attempt that met the lock-wait timeout: the rows are
    cleared for the retry. *)
Definition retried (c : call) (f : Z -> ReplayRes -> ReplayRes) (w : World) : World :=
  with_ColValues [] (sent c f w).

Lemma retried_facts (c : call) (f : Z -> ReplayRes -> ReplayRes) (n : nat) (w : World) :
  let w' := Nat.iter n (retried c f) w in
  h w' = h w /\
  replies w' = (replies w + n)%nat /\
  calls w' = calls w ++ repeat c n /\
  sink w' = sink w /\
  Type_ (ev w') = Type_ (ev w) /\
  (0 < n -> ColValues (Rr (ev w')) = [])%nat.
Proof.
  cbv zeta. induction n as [|n IH].
  - change (Nat.iter 0 (retried c f) w) with w.
    rewrite app_nil_r, Nat.add_0_r. repeat split; auto. lia.
  - destruct IH as (H1 & H2 & H3 & H4 & H5 & _).
    rewrite !Nat.iter_succ.
    set (w' := Nat.iter n (retried c f) w) in *.
    unfold retried. rewrite ColValues_with.
    destruct w' as [hh [ty tm qq i ps db rr] cl rp rd sk].
    cbn in *. subst. rewrite <- app_assoc.
    rewrite repeat_cons.
    repeat split; auto; lia.
Qed.

Section Loop.

Variables (attempt : W (option error)) (c : call) (f : Z -> ReplayRes -> ReplayRes)
  (h0 : ReplayEventHandler).

(** What an attempt does on a world whose handler is [h0]. *)
Hypothesis attempt_run : forall w, h w = h0 ->
  attempt w =
    match reply_of T (replies w) with
    | Failed e => (Some (Some e), sent c f w)
    | Done rows => (Some None, fetched rows (sent c f w))
    end.

Lemma sent_h (w : World) : h (sent c f w) = h w.
Proof. reflexivity. Qed.

Lemma retried_h (w : World) : h (retried c f w) = h w.
Proof. destruct w as [? [? ? ? ? ? ? []] ? ? ? ?]. reflexivity. Qed.

Lemma retried_replies (w : World) : replies (retried c f w) = S (replies w).
Proof. destruct w as [? [? ? ? ? ? ? []] ? ? ? ?]. reflexivity. Qed.

(** [n] attempts that meet the lock-wait timeout are [n] turns of the loop. *)
Lemma retryLoop_lockwait (n fuel : nat) (w : World) :
  h w = h0 ->
  (forall k, (k < n)%nat -> lockWaitReply (reply_of T (replies w + k)) = true) ->
  retryLoop attempt (n + fuel) w = retryLoop attempt fuel (Nat.iter n (retried c f) w).
Proof.
  revert w. induction n as [|n IH]; intros w Hh Hlock; [reflexivity|].
  rewrite Nat.iter_succ_r. cbn [Nat.add retryLoop].
  pose proof (Hlock 0%nat ltac:(lia)) as H0. rewrite Nat.add_0_r in H0.
  pose proof (attempt_run w Hh) as Hrun.
  destruct (reply_of T (replies w)) as [|e]; [discriminate H0|].
  rewrite (bind_run _ _ _ _ _ Hrun).
  cbn [lockWaitReply] in H0. rewrite H0.
  unfold modify_Rr. rewrite bind_modify. fold (with_ColValues [] (sent c f w)).
  fold (retried c f w).
  apply IH.
  - rewrite retried_h. exact Hh.
  - intros k Hk. rewrite retried_replies.
    replace (S (replies w) + k)%nat with (replies w + S k)%nat by lia.
    apply Hlock. lia.
Qed.

(** The attempt behind them ends the loop, with the rows of its result or
    with its error. *)
Lemma retryLoop_ends (n fuel : nat) (w : World) :
  h w = h0 ->
  (forall k, (k < n)%nat -> lockWaitReply (reply_of T (replies w + k)) = true) ->
  lockWaitReply (reply_of T (replies w + n)) = false ->
  let w' := Nat.iter n (retried c f) w in
  retryLoop attempt (n + S fuel) w =
    match reply_of T (replies w + n) with
    | Failed e => (Some (Some e), sent c f w')
    | Done rows => (Some None, fetched rows (sent c f w'))
    end.
Proof.
  intros Hh Hlock Hend w'. rewrite retryLoop_lockwait by assumption.
  fold w'. destruct (retried_facts c f n w) as (H1 & H2 & _). fold w' in H1, H2.
  cbn [retryLoop]. unfold bind. rewrite attempt_run by congruence.
  rewrite H2. destruct (reply_of T (replies w + n)) as [rows|e]; [reflexivity|].
  cbn [lockWaitReply] in Hend. rewrite Hend. reflexivity.
Qed.

End Loop.

(** *** ApplyEvent *)

Lemma ApplyEvent_configured (fuel : nat) (w : World) :
  Dsn (h w) <> "" -> ApplyEvent T fuel w = ApplyEvent_LOOP T fuel w.
Proof.
  intros Hd. unfold ApplyEvent. rewrite bind_get.
  destruct (Dsn (h w)); [congruence|reflexivity].
Qed.

Lemma ApplyEvent_not_configured (fuel : nat) (w : World) :
  Dsn (h w) = "" -> ApplyEvent T fuel w = (Some None, w).
Proof.
  intros Hd. unfold ApplyEvent. rewrite bind_get, Hd. reflexivity.
Qed.

(** One pass from the label [LOOP]: what follows the [switch]. *)
Lemma ApplyEvent_LOOP_pass (fuel : nat) (w w1 : World) (sw : switched) :
  switchType T (S fuel) w = (Some sw, w1) ->
  ApplyEvent_LOOP T (S fuel) w =
    match sw with
    | Returns err => (Some err, w1)
    | GoesOn None => (Some None, w1)
    | GoesOn (Some err) =>
        if connectionLost err then
          (quit true;;
           sch <- get (fun w => schema (h w));;
           err <- handshake T sch;;
           match err with
           | Some e => ret (Some e)
           | None => ApplyEvent_LOOP T fuel
           end) w1
        else (Some (Some err), w1)
    end.
Proof.
  intros E. cbn [ApplyEvent_LOOP]. rewrite (bind_run _ _ _ _ _ E).
  destruct sw as [[err|]|err]; try reflexivity.
  destruct (connectionLost err); reflexivity.
Qed.

(** The event is a query or an execute whose attempts go to the target as
    the call [c] without any other call: the connection is open, and for an
    execute the statement has a live handle.  [f] writes the fields of the
    replay-side result that an attempt sets before the call. *)
Definition attempts_as (w : World) (c : call) (f : Z -> ReplayRes -> ReplayRes) : Prop :=
  (Type_ (ev w) = EventQuery /\
   (exists p, pool (h w) = Some p) /\ conn (h w) = true /\
   c = conn_QueryContext (EvQuery (ev w)) /\ f = query_fields (EvQuery (ev w))) \/
  (Type_ (ev w) = EventStmtExecute /\
   exists text q, stmts (h w) !! StmtID (ev w) = Some (mkStatement text (Some q)) /\
     c = stmt_QueryContext q (Params (ev w)) /\ f = stmt_fields q (Params (ev w))).

Lemma with_ColValues_facts (v : list (list Value)) (w : World) :
  h (with_ColValues v w) = h w /\ replies (with_ColValues v w) = replies w /\
  calls (with_ColValues v w) = calls w /\ sink (with_ColValues v w) = sink w.
Proof. destruct w as [? [? ? ? ? ? ? []] ? ? ? ?]. auto. Qed.

(** The [switch] on a query or an execute, when [n] attempts meet the
    lock-wait timeout and the next one does not. *)
Lemma switchType_lockwait (n fuel : nat) (w : World) (c : call) f :
  attempts_as w c f ->
  (forall k, (k < n)%nat -> lockWaitReply (reply_of T (replies w + k)) = true) ->
  lockWaitReply (reply_of T (replies w + n)) = false ->
  let w' := Nat.iter n (retried c f) (with_ColValues [] w) in
  switchType T (n + S fuel) w =
    match reply_of T (replies w + n) with
    | Failed e => (Some (GoesOn (Some e)), sent c f w')
    | Done rows => (Some (GoesOn None), fetched rows (sent c f w'))
    end.
Proof.
  intros Hk Hlock Hend w'.
  destruct (with_ColValues_facts [] w) as (Hh & Hr & _).
  assert (forall h0 attempt,
    h0 = h w ->
    (forall w, h w = h0 -> attempt w =
       match reply_of T (replies w) with
       | Failed e => (Some (Some e), sent c f w)
       | Done rows => (Some None, fetched rows (sent c f w))
       end) ->
    (err <- retryLoop attempt (n + S fuel);; ret (GoesOn err)) (with_ColValues [] w) =
       match reply_of T (replies w + n) with
       | Failed e => (Some (GoesOn (Some e)), sent c f w')
       | Done rows => (Some (GoesOn None), fetched rows (sent c f w'))
       end) as Hloop.
  { intros h0 attempt -> Hrun. unfold bind.
    rewrite (retryLoop_ends attempt c f (h w) Hrun n fuel (with_ColValues [] w) Hh);
      rewrite ?Hr; try assumption.
    fold w'. destruct (reply_of T (replies w + n)); reflexivity. }
  unfold switchType. rewrite bind_get.
  destruct Hk as [(Ety & (p & Hp) & Hc & -> & ->)|(Ety & text & q & Hs & -> & ->)];
    rewrite Ety.
  - unfold modify_Rr. rewrite bind_modify. fold (with_ColValues [] w).
    rewrite retryComQuery_retryLoop.
    apply (Hloop (h w)); [reflexivity|].
    intros w0 Hw0. apply (execute_run (EvQuery (ev w)) w0 p); rewrite Hw0; assumption.
  - rewrite bind_get, Hs.
    unfold modify_Rr. rewrite bind_modify. fold (with_ColValues [] w).
    rewrite retryComStmtExecute_retryLoop.
    apply (Hloop (h w)); [reflexivity|].
    intros w0 Hw0. apply (stmtExecute_run _ _ w0 text q). rewrite Hw0. exact Hs.
Qed.

Lemma executions_app (l1 l2 : list call) :
  executions (l1 ++ l2) = (executions l1 + executions l2)%nat.
Proof. unfold executions. rewrite filter_app, length_app. reflexivity. Qed.

Lemma executions_repeat (c : call) (n : nat) :
  is_execution c = true -> executions (repeat c n) = n.
Proof.
  intros Hc. unfold executions. induction n as [|n IH]; [reflexivity|].
  cbn [repeat]. rewrite filter_cons_True by (rewrite Hc; exact I).
  cbn [length]. rewrite IH. reflexivity.
Qed.

Lemma executions_one (c : call) :
  executions [c] = if is_execution c then 1%nat else 0%nat.
Proof.
  unfold executions. destruct (is_execution c) eqn:E.
  - rewrite filter_cons_True by (rewrite E; exact I). reflexivity.
  - rewrite filter_cons_False by (rewrite E; exact id). reflexivity.
Qed.

Lemma attempts_as_execution (w : World) (c : call) f :
  attempts_as w c f -> is_execution c = true.
Proof.
  intros [(_ & _ & _ & -> & _)|(_ & text & q & _ & -> & _)]; reflexivity.
Qed.

Lemma attempts_as_fields (w w0 : World) (c : call) f :
  attempts_as w c f ->
  ColValues (Rr (ev (sent c f w0))) = ColValues (Rr (ev w0)).
Proof.
  intros [(_ & _ & _ & _ & ->)|(_ & text & q & _ & _ & ->)];
    destruct w0 as [? [? ? ? ? ? ? []] ? ? ? ?]; reflexivity.
Qed.

Lemma sent_facts (c : call) f (w : World) :
  h (sent c f w) = h w /\ replies (sent c f w) = S (replies w) /\
  calls (sent c f w) = calls w ++ [c] /\ sink (sent c f w) = sink w.
Proof. auto. Qed.

Lemma fetched_facts (rows : list (list Value)) (w : World) :
  h (fetched rows w) = h w /\ replies (fetched rows w) = replies w /\
  calls (fetched rows w) = calls w ++ [rows_Close] /\
  ColValues (Rr (ev (fetched rows w))) = ColValues (Rr (ev w)) ++ keptRows rows.
Proof. destruct w as [? [? ? ? ? ? ? []] ? ? ? ?]. auto. Qed.

(** What the last attempt leaves on the list of calls, and what it returns. *)
Definition closing (r : reply) : list call :=
  match r with
  | Done _ => [rows_Close]
  | Failed _ => []
  end.

Definition outcome (r : reply) : option error :=
  match r with
  | Done _ => None
  | Failed e => Some e
  end.

Definition rows_of (r : reply) : list (list Value) :=
  match r with
  | Done rows => keptRows rows
  | Failed _ => []
  end.

Lemma lock_wait_retry_run (n fuel : nat) (w : World) (c : call) f :
  Dsn (h w) <> "" ->
  (n < fuel)%nat ->
  attempts_as w c f ->
  (forall k, (k < n)%nat -> lockWaitReply (reply_of T (replies w + k)) = true) ->
  lockWaitReply (reply_of T (replies w + n)) = false ->
  match reply_of T (replies w + n) with
  | Failed e => connectionLost e = false
  | Done _ => True
  end ->
  exists w',
    ApplyEvent T fuel w = (Some (outcome (reply_of T (replies w + n))), w') /\
    calls w' = calls w ++ repeat c (S n) ++ closing (reply_of T (replies w + n)) /\
    executions (calls w') = (executions (calls w) + S n)%nat /\
    ColValues (Rr (ev w')) = rows_of (reply_of T (replies w + n)) /\
    h w' = h w /\
    replies w' = (replies w + S n)%nat.
Proof.
  intros Hd Hfuel Hk Hlock Hend Hother.
  rewrite ApplyEvent_configured by exact Hd.
  destruct fuel as [|fuel]; [lia|].
  pose proof (switchType_lockwait n (fuel - n) w c f Hk Hlock Hend) as Hsw.
  cbv zeta in Hsw. replace (n + S (fuel - n))%nat with (S fuel) in Hsw by lia.
  set (w0 := Nat.iter n (retried c f) (with_ColValues [] w)) in *.
  destruct (retried_facts c f n (with_ColValues [] w))
    as (H1 & H2 & H3 & H4 & H5 & H6). fold w0 in H1, H2, H3, H4, H5, H6.
  destruct (with_ColValues_facts [] w) as (G1 & G2 & G3 & G4).
  rewrite G1 in H1. rewrite G2 in H2. rewrite G3 in H3.
  assert (ColValues (Rr (ev w0)) = []) as Hcv.
  { destruct n as [|n]; [|apply H6; lia]. apply ColValues_with. }
  pose proof (attempts_as_execution w c f Hk) as Hc.
  destruct (reply_of T (replies w + n)) as [rows|e] eqn:Er.
  - exists (fetched rows (sent c f w0)).
    rewrite (ApplyEvent_LOOP_pass _ _ _ _ Hsw).
    destruct (fetched_facts rows (sent c f w0)) as (F1 & F2 & F3 & F4).
    rewrite F1, F2, F3, F4. cbn [sent h replies calls].
    rewrite (attempts_as_fields w w0 c f Hk), Hcv, H1, H2, H3.
    cbn [outcome closing rows_of].
    split; [reflexivity|]. split.
    { rewrite <- !app_assoc. f_equal. cbn [repeat]. rewrite repeat_cons.
      rewrite <- !app_assoc. reflexivity. }
    split.
    { rewrite !executions_app, executions_repeat by exact Hc.
      rewrite !executions_one, Hc. cbn [is_execution]. lia. }
    split; [reflexivity|]. split; [reflexivity|lia].
  - exists (sent c f w0).
    rewrite (ApplyEvent_LOOP_pass _ _ _ _ Hsw). rewrite Hother.
    cbn [sent h replies calls ev Rr].
    pose proof (attempts_as_fields w w0 c f Hk) as Hf. cbn [sent ev] in Hf.
    rewrite Hf, Hcv, H1, H2, H3.
    cbn [outcome closing rows_of].
    split; [reflexivity|]. split.
    { rewrite app_nil_r, <- !app_assoc. f_equal. cbn [repeat]. rewrite repeat_cons.
      reflexivity. }
    split.
    { rewrite !executions_app, executions_repeat by exact Hc.
      rewrite !executions_one, Hc. lia. }
    split; [reflexivity|]. split; [reflexivity|lia].
Qed.

(** *** An execute of a statement that the session does not know *)

Definition not_found (id : string) : error :=
  MySQLError 10000 (id +:+ " is not exist , maybe prepare fail").

Lemma ApplyEvent_not_found (fuel : nat) (w : World) :
  Dsn (h w) <> "" ->
  Type_ (ev w) = EventStmtExecute ->
  stmts (h w) !! StmtID (ev w) = None ->
  ApplyEvent T (S fuel) w = (Some (Some (not_found (StmtID (ev w)))), w).
Proof.
  intros Hd Ety Hs. rewrite ApplyEvent_configured by exact Hd.
  apply (ApplyEvent_LOOP_pass fuel w w (Returns (Some (not_found (StmtID (ev w)))))).
  unfold switchType. rewrite bind_get, Ety, bind_get, Hs. reflexivity.
Qed.

(** *** Reading a row *)

(** When every column of a row that is not nil converts, the row that is
    appended has an entry for each column. *)
Lemma readCells_complete (z rr : list Value) :
  Forall (fun c => c = Vnil \/ exists s, ConvertAssignRows c = Converted s) z ->
  exists rr', readCells z rr None = (rr ++ rr', None) /\ length rr' = length z.
Proof.
  intros Hz. revert rr.
  induction Hz as [|c z Hc Hz IH]; intros rr.
  - exists []. rewrite app_nil_r. split; reflexivity.
  - assert (exists v, readCells (c :: z) rr None = readCells z (rr ++ [v]) None)
      as (v & ->).
    { destruct Hc as [->|(str & Hs)]; [exists Vnil; reflexivity|].
      destruct c; try (exists Vnil; reflexivity); exists (Vstring str);
        cbn [readCells]; rewrite Hs; reflexivity. }
    destruct (IH (rr ++ [v])) as (rr' & E & Hl).
    exists (v :: rr'). rewrite E, <- app_assoc. split; [reflexivity|cbn; lia].
Qed.

(** A column that does not convert is left out of the row, and a column
    behind it that converts takes the error away: the row is appended with
    a column missing. *)
Lemma readCells_partial (a b : Value) (e : error) (s : string) :
  a <> Vnil -> b <> Vnil ->
  ConvertAssignRows a = NotConverted e ->
  ConvertAssignRows b = Converted s ->
  readCells [a; b] [] None = ([Vstring s], None).
Proof.
  intros Ha Hb Ea Eb.
  destruct a; try congruence; destruct b; try congruence;
    cbn [readCells]; rewrite ?Ea; cbn [readCells]; rewrite ?Eb; reflexivity.
Qed.

(** *** Reconnecting *)

(** The closes of the live handles of a list of statements. *)
Definition closes (l : list (string * statement)) : list call :=
  omap (fun p => stmt_Close <$> handle (snd p)) l.

Lemma closeHandles_run (l : list (string * statement)) (w : World) :
  closeHandles l w = (Some tt, set_calls (calls w ++ closes l) w).
Proof.
  revert w. induction l as [|[id st] l IH]; intros w; cbn [closeHandles].
  - unfold closes. cbn [omap list_omap]. rewrite app_nil_r.
    destruct w; reflexivity.
  - unfold closes. cbn [omap list_omap snd]. fold (closes l).
    destruct (handle st) as [q|]; cbn [fmap option_fmap option_map].
    + unfold tell. rewrite bind_modify, IH.
      destruct w; cbn. rewrite <- app_assoc. reflexivity.
    + rewrite bind_ret, IH. reflexivity.
Qed.

(** The database name of the pool that [open] opens for a schema. *)
Definition dbname_for (hd : ReplayEventHandler) (sch : string) : string :=
  if (0 <? String.length sch)%nat && bool_decide (DBName hd <> sch)
  then sch else DBName hd.

(** The world after [quit(true)]: the handles, the connection and the pool
    are closed, the statements keep their text. *)
Definition torn_down (w : World) : World :=
  mkWorld
    (mkHandler (Dsn (h w)) (DBName (h w)) (schema (h w)) None false
       ((fun st => mkStatement (query st) None) <$> stmts (h w)))
    (ev w)
    (calls w ++ closes (map_to_list (stmts (h w)))
       ++ (if conn (h w) then [conn_Close] else [])
       ++ (if pool (h w) is Some _ then [pool_Close] else []))
    (replies w) (readings w) (sink w).

Lemma quit_reconnect_run (w : World) :
  quit true w = (Some tt, torn_down w).
Proof.
  unfold quit. rewrite bind_get.
  rewrite (bind_run _ _ _ _ _ (closeHandles_run _ w)).
  unfold modify_h, tell. rewrite bind_modify, bind_get.
  destruct w as [[dsn dbn sch [p|] [|] sts] e cl rp rd sk];
    cbn; unfold torn_down; cbn; rewrite <- ?app_assoc, ?app_nil_r; reflexivity.
Qed.

(** The world after a handshake that succeeds, on a world without a
    connection: a pool for the schema and a connection. *)
Definition connected (sch : string) (w : World) : World :=
  mkWorld
    (mkHandler (Dsn (h w)) (DBName (h w)) sch (Some (dbname_for (h w) sch)) true
       (stmts (h w)))
    (ev w)
    (calls w ++ [sql_Open (dbname_for (h w) sch); pool_Conn])
    (S (S (replies w))) (readings w) (sink w).

Lemma handshake_run (sch : string) (w : World) :
  conn (h w) = false ->
  handshake T sch w =
    match reply_of T (replies w) with
    | Failed e =>
        (Some (Some e),
         set_replies (S (replies w))
           (set_calls (calls w ++ [sql_Open (dbname_for (h w) sch)]) w))
    | Done _ =>
        match reply_of T (S (replies w)) with
        | Failed e =>
            (Some (Some e),
             set_h (set_conn false (h (connected sch w))) (connected sch w))
        | Done _ => (Some None, connected sch w)
        end
    end.
Proof.
  intros Hc. unfold handshake, open, getConn, ask, modify_h.
  destruct w as [[dsn dbn sc p c sts] e cl rp rd sk]. cbn in Hc. subst c.
  unfold bind, get, modify, ret. cbn.
  fold (dbname_for (mkHandler dsn dbn sc p false sts) sch).
  destruct (reply_of T rp); [|reflexivity].
  cbn. destruct (reply_of T (S rp)); unfold connected; cbn;
    rewrite <- ?app_assoc; reflexivity.
Qed.

Lemma connectionLost_not_lockWait (e : error) :
  connectionLost e = true -> lockWaitTimeout e = false.
Proof. destruct e; try discriminate. reflexivity. Qed.

(** The session is set up to replay, with a pool and a connection. *)
Definition connected_session (w : World) : Prop :=
  Dsn (h w) <> "" /\ (exists p, pool (h w) = Some p) /\ conn (h w) = true.

(** The world after a query lost the connection and the reconnect went
    through: the attempt, the teardown and the handshake for the last known
    schema. *)
Definition reconnected (w : World) : World :=
  connected (schema (h w))
    (torn_down (sent (conn_QueryContext (EvQuery (ev w)))
                     (query_fields (EvQuery (ev w))) (with_ColValues [] w))).

(** The replies of a lost connection and a reconnect that goes through:
    the query fails with a connection-loss fault, [sql.Open] and
    [pool.Conn] succeed. *)
Definition lost_and_reconnected (n : nat) : Prop :=
  (exists e, reply_of T n = Failed e /\ connectionLost e = true) /\
  (exists r, reply_of T (S n) = Done r) /\
  (exists r, reply_of T (S (S n)) = Done r).

Lemma executions_closes (l : list (string * statement)) :
  executions (closes l) = 0%nat /\ filter is_open (closes l) = [].
Proof.
  unfold executions, closes. induction l as [|[i st] l [IH1 IH2]];
    [split; reflexivity|].
  cbn [omap list_omap snd]. destruct (handle st); cbn [fmap option_fmap option_map];
    [|split; assumption].
  rewrite !filter_cons_False by (cbn; exact id). split; assumption.
Qed.

Lemma opens_one (c : call) :
  filter is_open [c] = if is_open c then [c] else [].
Proof.
  destruct (is_open c) eqn:E.
  - rewrite filter_cons_True by (rewrite E; exact I). reflexivity.
  - rewrite filter_cons_False by (rewrite E; exact (fun x => x)). reflexivity.
Qed.

Lemma reconnected_calls (w : World) :
  connected_session w ->
  calls (reconnected w) =
    calls w ++ [conn_QueryContext (EvQuery (ev w))]
      ++ closes (map_to_list (stmts (h w))) ++ [conn_Close] ++ [pool_Close]
      ++ [sql_Open (dbname_for (h w) (schema (h w)))] ++ [pool_Conn].
Proof.
  intros (Hd & (p & Hp) & Hc).
  destruct w as [[dsn dbn sc pl c sts] [ty tm qq i ps db rr] cl rp rd sk].
  cbn in *. subst. rewrite <- !app_assoc. reflexivity.
Qed.

Lemma reconnected_facts (w : World) :
  Type_ (ev w) = EventQuery -> connected_session w ->
  connected_session (reconnected w) /\
  Type_ (ev (reconnected w)) = EventQuery /\
  EvQuery (ev (reconnected w)) = EvQuery (ev w) /\
  schema (h (reconnected w)) = schema (h w) /\
  dbname_for (h (reconnected w)) (schema (h (reconnected w)))
    = dbname_for (h w) (schema (h w)) /\
  pool (h (reconnected w)) = Some (dbname_for (h w) (schema (h w))) /\
  replies (reconnected w) = (replies w + 3)%nat /\
  executions (calls (reconnected w)) = S (executions (calls w)) /\
  filter is_open (calls (reconnected w))
    = filter is_open (calls w) ++ [sql_Open (dbname_for (h w) (schema (h w)))].
Proof.
  intros Ety Hs. pose proof (reconnected_calls w Hs) as Hcalls.
  destruct (executions_closes (map_to_list (stmts (h w)))) as [E1 E2].
  split; [|split; [|split; [|split; [|split; [|split; [|split; [|split]]]]]]].
  - destruct Hs as (Hd & _ & _). unfold connected_session.
    destruct w as [[] [? ? ? ? ? ? []] ? ? ? ?]. cbn in *. eauto.
  - destruct w as [[] [? ? ? ? ? ? []] ? ? ? ?]. exact Ety.
  - destruct w as [[] [? ? ? ? ? ? []] ? ? ? ?]. reflexivity.
  - destruct w as [[] [? ? ? ? ? ? []] ? ? ? ?]. reflexivity.
  - destruct w as [[] [? ? ? ? ? ? []] ? ? ? ?]. reflexivity.
  - destruct w as [[] [? ? ? ? ? ? []] ? ? ? ?]. reflexivity.
  - destruct w as [[] [? ? ? ? ? ? []] ? ? ? ?]. cbn. lia.
  - rewrite Hcalls, !executions_app, E1, !executions_one. cbn [is_execution]. lia.
  - rewrite Hcalls, !filter_app, E2, !opens_one. cbn [is_open app].
    reflexivity.
Qed.

(** One pass in which a query loses the connection and the reconnect goes
    through: [ApplyEvent] goes back to [LOOP] on the reconnected world. *)
Lemma ApplyEvent_LOOP_reconnect (fuel : nat) (w : World) :
  Type_ (ev w) = EventQuery -> connected_session w ->
  lost_and_reconnected (replies w) ->
  ApplyEvent_LOOP T (S fuel) w = ApplyEvent_LOOP T fuel (reconnected w).
Proof.
  intros Ety (Hd & (p & Hp) & Hc) ((e & Er & He) & (r1 & E1) & (r2 & E2)).
  pose proof (connectionLost_not_lockWait e He) as Hl.
  assert (attempts_as w (conn_QueryContext (EvQuery (ev w)))
            (query_fields (EvQuery (ev w)))) as Hk.
  { left. repeat split; eauto. }
  pose proof (switchType_lockwait 0 fuel w _ _ Hk) as Hsw.
  cbv zeta in Hsw. rewrite Nat.add_0_r, Er in Hsw.
  change (0 + S fuel)%nat with (S fuel) in Hsw.
  change (Nat.iter 0 _ ?x) with x in Hsw.
  specialize (Hsw ltac:(intros; lia) Hl).
  rewrite (ApplyEvent_LOOP_pass _ _ _ _ Hsw), He.
  rewrite (bind_run _ _ _ _ _ (quit_reconnect_run _)), bind_get.
  set (w1 := torn_down _).
  rewrite (bind_run _ _ w1 (connected (schema (h w1)) w1) None).
  - unfold reconnected. fold w1.
    replace (schema (h w1)) with (schema (h w)); [reflexivity|].
    destruct w as [[] [? ? ? ? ? ? []] ? ? ? ?]; reflexivity.
  - rewrite handshake_run by reflexivity.
    replace (replies w1) with (S (replies w))
      by (destruct w as [[] [? ? ? ? ? ? []] ? ? ? ?]; reflexivity).
    rewrite E1, E2. reflexivity.
Qed.

(** A query that loses the connection [n] times, with a reconnect that goes
    through each time, is sent [n + 1] times: there is a retry behind every
    reconnect. *)
Lemma ApplyEvent_reconnect_rounds (n fuel : nat) (w : World) :
  Type_ (ev w) = EventQuery -> connected_session w ->
  (n < fuel)%nat ->
  (forall k, (k < n)%nat -> lost_and_reconnected (replies w + 3 * k)) ->
  lockWaitReply (reply_of T (replies w + 3 * n)) = false ->
  match reply_of T (replies w + 3 * n) with
  | Failed e => connectionLost e = false
  | Done _ => True
  end ->
  exists w',
    ApplyEvent T fuel w = (Some (outcome (reply_of T (replies w + 3 * n))), w') /\
    executions (calls w') = (executions (calls w) + S n)%nat /\
    filter is_open (calls w')
      = filter is_open (calls w)
          ++ repeat (sql_Open (dbname_for (h w) (schema (h w)))) n /\
    ColValues (Rr (ev w')) = rows_of (reply_of T (replies w + 3 * n)).
Proof.
  revert fuel w. induction n as [|n IH]; intros fuel w Ety Hs Hfuel Hlost Hend Hother.
  - rewrite Nat.mul_0_r, Nat.add_0_r in *.
    destruct Hs as (Hd & Hp & Hc).
    destruct (lock_wait_retry_run 0 fuel w (conn_QueryContext (EvQuery (ev w)))
                (query_fields (EvQuery (ev w)))) as (w' & E & Hcalls & Hex & Hcv & _);
      try assumption.
    { left. repeat split; auto. }
    { intros k Hk. lia. }
    { rewrite Nat.add_0_r. exact Hend. }
    { rewrite Nat.add_0_r. exact Hother. }
    rewrite Nat.add_0_r in *.
    exists w'. split; [exact E|]. split; [exact Hex|]. split; [|exact Hcv].
    rewrite Hcalls, !filter_app. cbn [repeat]. rewrite opens_one. cbn [is_open].
    rewrite !app_nil_r. destruct (reply_of T (replies w)); cbn [closing];
      [rewrite opens_one|]; rewrite ?app_nil_r; reflexivity.
  - destruct fuel as [|fuel]; [lia|].
    pose proof Hs as (Hd & _).
    rewrite ApplyEvent_configured by exact Hd.
    rewrite ApplyEvent_LOOP_reconnect; [|exact Ety|exact Hs|].
    2:{ specialize (Hlost 0%nat ltac:(lia)).
        rewrite Nat.mul_0_r, Nat.add_0_r in Hlost. exact Hlost. }
    destruct (reconnected_facts w Ety Hs)
      as (Hs' & Ety' & Eq' & Esch & Edb & Epool & Erep & Eex & Eop).
    destruct (IH fuel (reconnected w) Ety' Hs') as (w' & E & Hex & Hop & Hcv).
    { lia. }
    { intros k Hk. rewrite Erep.
      replace (replies w + 3 + 3 * k)%nat with (replies w + 3 * S k)%nat by lia.
      apply Hlost. lia. }
    { rewrite Erep.
      replace (replies w + 3 + 3 * n)%nat with (replies w + 3 * S n)%nat by lia.
      exact Hend. }
    { rewrite Erep.
      replace (replies w + 3 + 3 * n)%nat with (replies w + 3 * S n)%nat by lia.
      exact Hother. }
    rewrite Erep in E, Hcv.
    replace (replies w + 3 + 3 * n)%nat with (replies w + 3 * S n)%nat in E, Hcv by lia.
    destruct Hs' as (Hd' & _).
    rewrite ApplyEvent_configured in E by exact Hd'.
    exists w'. split; [exact E|]. split; [rewrite Hex, Eex; lia|].
    split; [|exact Hcv].
    rewrite Hop, Eop, Edb, <- app_assoc. reflexivity.
Qed.

(** The error of a reconnect: of [sql.Open], or of [pool.Conn] behind it. *)
Definition reconnect_error (n : nat) : option error :=
  match reply_of T n with
  | Failed e => Some e
  | Done _ =>
      match reply_of T (S n) with
      | Failed e => Some e
      | Done _ => None
      end
  end.

Lemma calls_set_h (x : ReplayEventHandler) (w : World) :
  calls (set_h x w) = calls w.
Proof. destruct w. reflexivity. Qed.

Lemma calls_set_replies (n : nat) (l : list call) (w : World) :
  calls (set_replies n (set_calls l w)) = l.
Proof. destruct w. reflexivity. Qed.

(** When the reconnect fails, its error is what [ApplyEvent] returns; the
    query is not sent again. *)
Lemma ApplyEvent_reconnect_fails (fuel : nat) (w : World) (e e' : error) :
  Type_ (ev w) = EventQuery -> connected_session w ->
  reply_of T (replies w) = Failed e -> connectionLost e = true ->
  reconnect_error (S (replies w)) = Some e' ->
  exists w',
    ApplyEvent T (S fuel) w = (Some (Some e'), w') /\
    executions (calls w') = S (executions (calls w)).
Proof.
  intros Ety (Hd & (p & Hp) & Hc) Er He Hrec.
  pose proof (connectionLost_not_lockWait e He) as Hl.
  assert (attempts_as w (conn_QueryContext (EvQuery (ev w)))
            (query_fields (EvQuery (ev w)))) as Hk.
  { left. repeat split; eauto. }
  pose proof (switchType_lockwait 0 fuel w _ _ Hk) as Hsw.
  cbv zeta in Hsw. rewrite Nat.add_0_r, Er in Hsw.
  change (0 + S fuel)%nat with (S fuel) in Hsw.
  change (Nat.iter 0 _ ?x) with x in Hsw.
  specialize (Hsw ltac:(intros; lia) Hl).
  rewrite ApplyEvent_configured by exact Hd.
  rewrite (ApplyEvent_LOOP_pass _ _ _ _ Hsw), He.
  rewrite (bind_run _ _ _ _ _ (quit_reconnect_run _)), bind_get.
  set (w1 := torn_down _).
  assert (replies w1 = S (replies w)) as Hr1
    by (destruct w as [[] [? ? ? ? ? ? []] ? ? ? ?]; reflexivity).
  assert (calls w1 = calls w ++ [conn_QueryContext (EvQuery (ev w))]
            ++ closes (map_to_list (stmts (h w))) ++ [conn_Close] ++ [pool_Close])
    as Hc1.
  { destruct w as [[dsn dbn sc pl c sts] [ty tm qq i ps db rr] cl rp rd sk].
    cbn in *. subst. unfold w1. cbn. rewrite <- !app_assoc. reflexivity. }
  destruct (executions_closes (map_to_list (stmts (h w)))) as [E1 _].
  unfold bind. rewrite handshake_run by reflexivity. rewrite Hr1.
  unfold reconnect_error in Hrec.
  destruct (reply_of T (S (replies w))) as [r|e1].
  - destruct (reply_of T (S (S (replies w)))) as [r'|e2]; [discriminate|].
    injection Hrec as <-. eexists. split; [reflexivity|].
    rewrite calls_set_h. unfold connected. cbn [calls].
    rewrite Hc1, !executions_app, E1, !executions_one. cbn [is_execution].
    change (executions [_; pool_Conn]) with 0%nat. lia.
  - injection Hrec as <-. eexists. split; [reflexivity|].
    rewrite calls_set_replies.
    rewrite Hc1, !executions_app, E1, !executions_one. cbn [is_execution]. lia.
Qed.

End ReplayFacts.

(** ** Null columns and empty strings *)

Section NullAndEmpty.

Context {C : Converter}.

(** A null column written as the empty string. *)
Definition null_as_empty (v : Value) : Value :=
  match v with
  | Vnil => Vstring ""
  | _ => v
  end.

Lemma convertRow_null_as_empty (cells : list Value) (rowStr : list string) :
  ConvertAssignRows (Vstring "") = Converted ""%string ->
  convertRow (null_as_empty <$> cells) rowStr = convertRow cells rowStr.
Proof.
  intros He. revert rowStr. induction cells as [|c cells IH]; intros rowStr;
    [reflexivity|].
  destruct c; cbn [fmap list_fmap null_as_empty convertRow];
    [rewrite He; apply IH|..];
    match goal with
    | |- context [ConvertAssignRows ?x] => destruct (ConvertAssignRows x)
    end; solve [apply IH | reflexivity].
Qed.

Lemma convertRows_null_as_empty (rows : list (list Value)) (resSet : list (list string)) :
  ConvertAssignRows (Vstring "") = Converted ""%string ->
  convertRows ((fun row : list Value => null_as_empty <$> row) <$> rows) resSet
    = convertRows rows resSet.
Proof.
  intros He. revert resSet. induction rows as [|row rows IH]; intros resSet;
    [reflexivity|].
  cbn [fmap list_fmap convertRows].
  pose proof (convertRow_null_as_empty row [] He) as Hr.
  cbn [fmap] in Hr. rewrite Hr.
  destruct (convertRow row []); [apply IH|reflexivity].
Qed.

End NullAndEmpty.

(** ** The replay session: retries, reconnects and rows *)

(** A session that replays on a target, with a pool and a connection for
    the schema test, and the events of the examples. *)
Definition no_result : ReplayRes := mkReplayRes 0 "" "" [] 0 0 0 [] [].

Definition a_query : MySQLEvent :=
  mkEvent EventQuery 0 "SELECT 1" "" [] "" no_result.

Definition an_execute : MySQLEvent :=
  mkEvent EventStmtExecute 0 "" "99" [] "" no_result.

Definition a_session (e : MySQLEvent) : World :=
  mkWorld (mkHandler "dsn" "test" "test" (Some "test") true ∅) e [] 0 0 [].

Definition lock_wait : reply :=
  Failed (MySQLError 1205 "Lock wait timeout exceeded; try restarting transaction").

Definition lost : reply := Failed (Wrapped "query" ErrInvalidConn).

(** C3: for a query on an open connection, or an execute of a statement
    with a live handle, whose attempts meet the lock-wait timeout (error
    number 1205) [n] times and whose next attempt succeeds or fails with
    another error (one that is not a lost connection), [ApplyEvent] sends
    the statement [n + 1] times, whatever [n] is, and nothing else.  Every
    attempt after the first starts with no rows in the replay-side result,
    and [ApplyEvent] returns the outcome of the last attempt, with its rows
    alone in the result. *)
Theorem ApplyEvent_lock_wait_retries {C : Converter} (T : Target)
    (n fuel : nat) (w : World) (c : call) (f : Z -> ReplayRes -> ReplayRes) :
  Dsn (h w) <> "" ->
  (n < fuel)%nat ->
  attempts_as w c f ->
  (forall k, (k < n)%nat -> lockWaitReply (reply_of T (replies w + k)) = true) ->
  lockWaitReply (reply_of T (replies w + n)) = false ->
  match reply_of T (replies w + n) with
  | Failed e => connectionLost e = false
  | Done _ => True
  end ->
  (exists w',
     ApplyEvent T fuel w = (Some (outcome (reply_of T (replies w + n))), w') /\
     calls w' = calls w ++ repeat c (S n) ++ closing (reply_of T (replies w + n)) /\
     executions (calls w') = (executions (calls w) + S n)%nat /\
     ColValues (Rr (ev w')) = rows_of (reply_of T (replies w + n)) /\
     h w' = h w /\
     replies w' = (replies w + S n)%nat) /\
  (forall k, (k <= n)%nat ->
     ColValues (Rr (ev (Nat.iter k (retried T c f) (with_ColValues [] w)))) = []) /\
  (forall fuel',
     switchType T (n + S fuel') w =
       match reply_of T (replies w + n) with
       | Failed e =>
           (Some (GoesOn (Some e)),
            sent T c f (Nat.iter n (retried T c f) (with_ColValues [] w)))
       | Done rows =>
           (Some (GoesOn None),
            fetched rows
              (sent T c f (Nat.iter n (retried T c f) (with_ColValues [] w))))
       end).
Proof.
  intros Hd Hfuel Hk Hlock Hend Hother.
  split; [apply (lock_wait_retry_run T n fuel w c f); assumption|].
  split.
  - intros [|k] _.
    + change (Nat.iter 0 (retried T c f) (with_ColValues [] w))
        with (with_ColValues [] w).
      apply ColValues_with.
    + pose proof (retried_facts T c f (S k) (with_ColValues [] w)) as H.
      cbv zeta in H. apply H. lia.
  - intros fuel'. apply (switchType_lockwait T n fuel' w c f); assumption.
Qed.

Lemma ApplyEvent_lock_wait_retries_witness :
  exists w',
    ApplyEvent (C := sample_converter)
      (scripted [lock_wait; lock_wait; Done [[Vint64 1; Vnil]]]) 3
      (a_session a_query) = (Some None, w') /\
    calls w' = [conn_QueryContext "SELECT 1"; conn_QueryContext "SELECT 1";
                conn_QueryContext "SELECT 1"; rows_Close] /\
    executions (calls w') = 3%nat /\
    ColValues (Rr (ev w')) = [[Vstring "1"; Vnil]] /\
    h w' = h (a_session a_query) /\
    replies w' = 3%nat.
Proof.
  apply (ApplyEvent_lock_wait_retries (C := sample_converter)
           (scripted [lock_wait; lock_wait; Done [[Vint64 1; Vnil]]]) 2 3
           (a_session a_query) (conn_QueryContext "SELECT 1")
           (query_fields "SELECT 1")).
  - discriminate.
  - lia.
  - left. repeat split; eauto.
  - intros [|[|k]] Hk; [reflexivity|reflexivity|lia].
  - reflexivity.
  - exact I.
Defined.

(** C5: an execute of a statement that the session does not have, on a
    session that replays on a target, makes [ApplyEvent] return the error
    with the number 10000 and touch nothing: no call goes to the target.
    [ReplayEventAndWriteRes] writes the number and the message of that error
    into the replay-side result of the event and hands the event to the
    outcome sink. *)
Theorem ApplyEvent_statement_not_found {C : Converter} (T : Target)
    (fuel : nat) (e : MySQLEvent) (w : World) :
  Dsn (h w) <> "" ->
  Type_ e = EventStmtExecute ->
  stmts (h w) !! StmtID e = None ->
  let recorded :=
    set_Rr (set_ErrDesc (StmtID e +:+ " is not exist , maybe prepare fail")
              (set_ErrNO 10000 (Rr e))) e in
  ApplyEvent T (S fuel) (set_ev e w)
    = (Some (Some (MySQLError 10000
                     (StmtID e +:+ " is not exist , maybe prepare fail"))),
       set_ev e w) /\
  ReplayEventAndWriteRes T (S fuel) e w
    = (Some tt, set_sink (sink w ++ [recorded]) (set_ev recorded w)) /\
  calls (snd (ReplayEventAndWriteRes T (S fuel) e w)) = calls w /\
  replies (snd (ReplayEventAndWriteRes T (S fuel) e w)) = replies w /\
  h (snd (ReplayEventAndWriteRes T (S fuel) e w)) = h w.
Proof.
  intros Hd Ety Hs recorded.
  assert (ApplyEvent T (S fuel) (set_ev e w)
          = (Some (Some (not_found (StmtID e))), set_ev e w)) as Happly.
  { pose proof (ApplyEvent_not_found T fuel (set_ev e w)) as H.
    destruct w as [hh e0 cl rp rd sk]. cbn [set_ev h ev] in *.
    apply H; assumption. }
  assert (ReplayEventAndWriteRes T (S fuel) e w
          = (Some tt, set_sink (sink w ++ [recorded]) (set_ev recorded w))) as Hrun.
  { unfold ReplayEventAndWriteRes. rewrite bind_modify.
    rewrite (bind_run _ _ _ _ _ Happly). unfold not_found, modify_Rr.
    subst recorded.
    destruct w as [hh e0 cl rp rd sk], e as [ty tm qq i ps db rr].
    reflexivity. }
  split; [exact Happly|].
  split; [exact Hrun|].
  rewrite Hrun. destruct w; repeat split; reflexivity.
Qed.

Lemma ApplyEvent_statement_not_found_witness :
  ApplyEvent (C := sample_converter) (scripted []) 1
    (set_ev an_execute (a_session a_query))
    = (Some (Some (MySQLError 10000 "99 is not exist , maybe prepare fail")),
       set_ev an_execute (a_session a_query)) /\
  ReplayEventAndWriteRes (C := sample_converter) (scripted []) 1 an_execute
    (a_session a_query)
    = (Some tt,
       set_sink
         [set_Rr (set_ErrDesc "99 is not exist , maybe prepare fail"
                    (set_ErrNO 10000 no_result)) an_execute]
         (set_ev
            (set_Rr (set_ErrDesc "99 is not exist , maybe prepare fail"
                       (set_ErrNO 10000 no_result)) an_execute)
            (a_session a_query))) /\
  calls (snd (ReplayEventAndWriteRes (C := sample_converter) (scripted []) 1
                an_execute (a_session a_query))) = [] /\
  replies (snd (ReplayEventAndWriteRes (C := sample_converter) (scripted []) 1
                  an_execute (a_session a_query))) = 0%nat /\
  h (snd (ReplayEventAndWriteRes (C := sample_converter) (scripted []) 1
            an_execute (a_session a_query))) = h (a_session a_query).
Proof.
  apply (ApplyEvent_statement_not_found (C := sample_converter) (scripted []) 0
           an_execute (a_session a_query)).
  - discriminate.
  - reflexivity.
  - reflexivity.
Defined.

(** C2: a row whose columns are all nil or converted is appended by
    [ReadRowValues] with one entry for each column of the source row.  A
    row with a column that does not convert before a column that converts
    is appended too, without the column that did not convert: the error
    that is tested after the loop is the one of the last conversion. *)
Theorem ReadRowValues_rows {C : Converter} (w : World) :
  (forall z,
     Forall (fun c => c = Vnil \/ exists s, ConvertAssignRows c = Converted s) z ->
     exists rr,
       ReadRowValues z w
         = (Some tt, with_ColValues (ColValues (Rr (ev w)) ++ [rr]) w) /\
       length rr = length z) /\
  (forall a b e s,
     a <> Vnil -> b <> Vnil ->
     ConvertAssignRows a = NotConverted e ->
     ConvertAssignRows b = Converted s ->
     ReadRowValues [a; b] w
       = (Some tt, with_ColValues (ColValues (Rr (ev w)) ++ [[Vstring s]]) w)).
Proof.
  split.
  - intros z Hz. destruct (readCells_complete z [] Hz) as (rr & E & Hl).
    exists rr. split; [|exact Hl].
    rewrite ReadRowValues_run. unfold keptRow. rewrite E. reflexivity.
  - intros a b e s Ha Hb Ea Eb.
    rewrite ReadRowValues_run. unfold keptRow.
    rewrite (readCells_partial a b e s Ha Hb Ea Eb). reflexivity.
Qed.

Lemma ReadRowValues_rows_witness :
  (exists rr,
     ReadRowValues (C := sample_converter) [Vint64 1; Vnil] (a_session a_query)
       = (Some tt, with_ColValues [rr] (a_session a_query)) /\
     length rr = 2%nat) /\
  ReadRowValues (C := sample_converter) [Vother 0; Vint64 1] (a_session a_query)
    = (Some tt, with_ColValues [[Vstring "1"]] (a_session a_query)).
Proof.
  split.
  - apply (proj1 (ReadRowValues_rows (C := sample_converter) (a_session a_query))
             [Vint64 1; Vnil]).
    constructor; [right; exists "1"%string; reflexivity|].
    constructor; [left; reflexivity|constructor].
  - apply (proj2 (ReadRowValues_rows (C := sample_converter) (a_session a_query))
             (Vother 0) (Vint64 1) (errors_New "unsupported Scan") "1"%string).
    + discriminate.
    + discriminate.
    + reflexivity.
    + reflexivity.
Defined.

(** C9: with a conversion that gives the empty string for the empty string,
    [ConvertResToStr] gives the same for rows and for the rows in which
    every nil is replaced by the empty string: a nil column and an empty
    string both come out as the empty string.  In the rows that
    [ReadRowValues] keeps they are different values: a nil column is kept as
    nil and an empty string as the string. *)
Theorem ConvertResToStr_null_as_empty {C : Converter} (rows : list (list Value)) :
  ConvertAssignRows (Vstring "") = Converted ""%string ->
  ConvertResToStr ((fun row : list Value => null_as_empty <$> row) <$> rows)
    = ConvertResToStr rows /\
  ConvertResToStr [[Vnil]] = (Some [[""%string]], None) /\
  ConvertResToStr [[Vstring ""]] = (Some [[""%string]], None) /\
  readCells [Vnil] [] None = ([Vnil], None) /\
  readCells [Vstring ""] [] None = ([Vstring ""], None) /\
  Vnil <> Vstring "".
Proof.
  intros He.
  split; [apply convertRows_null_as_empty; exact He|].
  split; [reflexivity|].
  split; [unfold ConvertResToStr; cbn [convertRows convertRow]; rewrite He;
          reflexivity|].
  split; [reflexivity|].
  split; [cbn [readCells]; rewrite He; reflexivity|].
  discriminate.
Qed.

Lemma ConvertResToStr_null_as_empty_witness :
  ConvertResToStr (C := sample_converter) [[Vstring ""; Vstring "a"]]
    = ConvertResToStr (C := sample_converter) [[Vnil; Vstring "a"]] /\
  ConvertResToStr (C := sample_converter) [[Vnil]] = (Some [[""%string]], None) /\
  ConvertResToStr (C := sample_converter) [[Vstring ""]]
    = (Some [[""%string]], None) /\
  readCells (C := sample_converter) [Vnil] [] None = ([Vnil], None) /\
  readCells (C := sample_converter) [Vstring ""] [] None = ([Vstring ""], None) /\
  Vnil <> Vstring "".
Proof.
  apply (ConvertResToStr_null_as_empty (C := sample_converter)
           [[Vnil; Vstring "a"]]).
  reflexivity.
Defined.

(** The three errors that the test behind the [switch] of [ApplyEvent]
    names, as [database/sql], [context] and the driver return them: the
    values themselves, which carry no cause. *)
Definition sentinel (e : error) : Prop :=
  e = DeadlineExceeded \/ e = ErrConnDone \/ e = ErrInvalidConn.

Lemma sentinel_not_lost (e : error) :
  sentinel e -> connectionLost e = false /\ lockWaitTimeout e = false.
Proof. intros [->|[->| ->]]; split; reflexivity. Qed.

Lemma attempts_as_not_open (w : World) (c : call) f :
  attempts_as w c f -> is_open c = false.
Proof.
  intros [(_ & _ & _ & -> & _)|(_ & text & q & _ & -> & _)]; reflexivity.
Qed.

(** C1: what [ApplyEvent] does with a lost connection.  The test behind the
    [switch] compares [errors.Unwrap(err)] with the three errors, not [err].
    So when the dispatch of an event, whatever its type, ends in one of the
    three errors itself, [ApplyEvent] returns it and leaves the world as the
    dispatch left it; for a query on an open connection, or an execute of a
    statement with a live handle, that is one call of the statement and
    nothing else: no teardown (pool, connection and handles are as they
    were), no [sql.Open], no retry.  When the error carries one of the three
    as its cause, [ApplyEvent] tears down, reconnects and starts over, and
    it does so after every loss: a query that loses the connection [n]
    times, with reconnects that go through, is sent [n + 1] times over [n]
    reconnects.  When a reconnect fails, its error is the outcome and the
    query is not sent again. *)
Theorem ApplyEvent_connection_loss {C : Converter} (T : Target) :
  (forall fuel w w1 e,
     Dsn (h w) <> "" -> sentinel e ->
     switchType T (S fuel) w = (Some (GoesOn (Some e)), w1) ->
     ApplyEvent T (S fuel) w = (Some (Some e), w1)) /\
  (forall fuel w c f e,
     Dsn (h w) <> "" -> attempts_as w c f -> sentinel e ->
     reply_of T (replies w) = Failed e ->
     exists w',
       ApplyEvent T (S fuel) w = (Some (Some e), w') /\
       calls w' = calls w ++ [c] /\
       executions (calls w') = S (executions (calls w)) /\
       opens (calls w') = opens (calls w) /\
       h w' = h w /\
       replies w' = S (replies w)) /\
  (forall n fuel w,
     Type_ (ev w) = EventQuery -> connected_session w ->
     (n < fuel)%nat ->
     (forall k, (k < n)%nat -> lost_and_reconnected T (replies w + 3 * k)) ->
     lockWaitReply (reply_of T (replies w + 3 * n)) = false ->
     match reply_of T (replies w + 3 * n) with
     | Failed e => connectionLost e = false
     | Done _ => True
     end ->
     exists w',
       ApplyEvent T fuel w = (Some (outcome (reply_of T (replies w + 3 * n))), w') /\
       executions (calls w') = (executions (calls w) + S n)%nat /\
       filter is_open (calls w')
         = filter is_open (calls w)
             ++ repeat (sql_Open (dbname_for (h w) (schema (h w)))) n /\
       ColValues (Rr (ev w')) = rows_of (reply_of T (replies w + 3 * n))) /\
  (forall fuel w e e',
     Type_ (ev w) = EventQuery -> connected_session w ->
     reply_of T (replies w) = Failed e -> connectionLost e = true ->
     reconnect_error T (S (replies w)) = Some e' ->
     exists w',
       ApplyEvent T (S fuel) w = (Some (Some e'), w') /\
       executions (calls w') = S (executions (calls w))).
Proof.
  split.
  { intros fuel w w1 e Hd He Hsw.
    rewrite ApplyEvent_configured by exact Hd.
    rewrite (ApplyEvent_LOOP_pass T fuel w w1 _ Hsw).
    destruct (sentinel_not_lost e He) as [-> _]. reflexivity. }
  split.
  { intros fuel w c f e Hd Hk He Er.
    destruct (sentinel_not_lost e He) as [Hlost Hlock].
    destruct (lock_wait_retry_run T 0 (S fuel) w c f Hd) as
      (w' & E & Hcalls & Hex & _ & Hh & Hr); try assumption.
    { lia. }
    { intros k Hlt. lia. }
    { rewrite Nat.add_0_r, Er. exact Hlock. }
    { rewrite Nat.add_0_r, Er. exact Hlost. }
    rewrite Nat.add_0_r, Er in *. cbn [outcome closing repeat] in *.
    rewrite app_nil_r in Hcalls.
    exists w'. split; [exact E|]. split; [exact Hcalls|].
    split; [lia|]. split; [|split; [exact Hh|lia]].
    unfold opens. rewrite Hcalls, filter_app, opens_one.
    rewrite (attempts_as_not_open w c f Hk), app_nil_r. reflexivity. }
  split.
  { intros n fuel w. apply ApplyEvent_reconnect_rounds. }
  intros fuel w e e'. apply ApplyEvent_reconnect_fails.
Qed.

(** A query whose connection is closed: the error of the target is
    [sql.ErrConnDone] itself. *)
Definition conn_done : reply := Failed ErrConnDone.

Lemma ApplyEvent_connection_loss_witness :
  (exists w',
     ApplyEvent (C := sample_converter) (scripted [conn_done; Done [[Vint64 1]]]) 3
       (a_session a_query) = (Some (Some ErrConnDone), w') /\
     calls w' = [conn_QueryContext "SELECT 1"] /\
     executions (calls w') = 1%nat /\
     opens (calls w') = 0%nat /\
     h w' = h (a_session a_query) /\
     replies w' = 1%nat) /\
  (exists w',
     ApplyEvent (C := sample_converter)
       (scripted [lost; Done []; Done []; lost; Done []; Done [];
                  Done [[Vint64 1]]]) 3 (a_session a_query)
       = (Some None, w') /\
     executions (calls w') = 3%nat /\
     filter is_open (calls w') = [sql_Open "test"; sql_Open "test"] /\
     ColValues (Rr (ev w')) = [[Vstring "1"]]) /\
  (exists w',
     ApplyEvent (C := sample_converter)
       (scripted [lost; Failed (errors_New "dial tcp: connection refused")]) 1
       (a_session a_query)
       = (Some (Some (errors_New "dial tcp: connection refused")), w') /\
     executions (calls w') = 1%nat).
Proof.
  split; [|split].
  - apply (proj1 (proj2 (ApplyEvent_connection_loss (C := sample_converter)
             (scripted [conn_done; Done [[Vint64 1]]])))
             2%nat (a_session a_query) (conn_QueryContext "SELECT 1")
             (query_fields "SELECT 1") ErrConnDone).
    + discriminate.
    + left. repeat split; eauto.
    + right. left. reflexivity.
    + reflexivity.
  - apply (proj1 (proj2 (proj2 (ApplyEvent_connection_loss (C := sample_converter)
             (scripted [lost; Done []; Done []; lost; Done []; Done [];
                        Done [[Vint64 1]]]))))
             2%nat 3%nat (a_session a_query)).
    + reflexivity.
    + split; [discriminate|]. split; [eauto|reflexivity].
    + lia.
    + intros [|[|k]] Hk; [| |lia].
      * split; [eexists; split; reflexivity|]. split; eexists; reflexivity.
      * split; [eexists; split; reflexivity|]. split; eexists; reflexivity.
    + reflexivity.
    + exact I.
  - apply (proj2 (proj2 (proj2 (ApplyEvent_connection_loss (C := sample_converter)
             (scripted [lost; Failed (errors_New "dial tcp: connection refused")]))))
             0%nat (a_session a_query) (Wrapped "query" ErrInvalidConn)
             (errors_New "dial tcp: connection refused")).
    + reflexivity.
    + split; [discriminate|]. split; [eauto|reflexivity].
    + reflexivity.
    + reflexivity.
    + reflexivity.
Defined.

(** ** Further properties of the replay session *)

(** ** The statement cache *)

Section StatementCache.

Context {C : Converter} (T : Target).

(** The close of the live handle of a cached statement, if there is one. *)
Definition close_of (o : option statement) : list call :=
  match o with
  | Some (mkStatement _ (Some q)) => [stmt_Close q]
  | _ => []
  end.

Lemma stmtPrepare_run (id q : string) (w : World) (p : string) :
  pool (h w) = Some p -> conn (h w) = true ->
  stmtPrepare T id q w =
    (Some (outcome (reply_of T (replies w))),
     mkWorld
       (set_stmts
          (match reply_of T (replies w) with
           | Done _ => <[id := mkStatement q (Some q)]> (delete id (stmts (h w)))
           | Failed _ => delete id (stmts (h w))
           end) (h w))
       (ev w)
       (calls w ++ close_of (stmts (h w) !! id) ++ [conn_PrepareContext q])
       (S (replies w)) (readings w) (sink w)).
Proof.
  intros Hp Hc.
  destruct w as [[dsn dbn sch pl c sts] e cl rp rd sk]. cbn [h pool conn stmts] in *.
  subst pl c. unfold stmtPrepare, getConn, ask, tell, modify_h.
  unfold bind, get, modify, ret. cbn [h stmts calls replies readings sink ev].
  destruct (sts !! id) as [[text [q0|]]|];
    cbn [fmap option_fmap option_map handle close_of];
    cbn; destruct (reply_of T rp); cbn; rewrite <- ?app_assoc; reflexivity.
Qed.

Lemma stmtClose_run (id : string) (w : World) :
  stmtClose id w =
    (Some tt,
     set_calls (calls w ++ close_of (stmts (h w) !! id))
       (set_h (set_stmts (delete id (stmts (h w))) (h w)) w)).
Proof.
  destruct w as [[dsn dbn sch pl c sts] e cl rp rd sk].
  unfold stmtClose, tell, modify_h, bind, get, modify, ret.
  cbn [h stmts calls].
  destruct (sts !! id) as [[text [q0|]]|] eqn:E; cbn.
  - reflexivity.
  - rewrite app_nil_r. reflexivity.
  - rewrite app_nil_r, delete_id by exact E. reflexivity.
Qed.

Lemma switchType_prepare (fuel : nat) (w : World) (p : string) :
  Type_ (ev w) = EventStmtPrepare ->
  pool (h w) = Some p -> conn (h w) = true ->
  exists w',
    switchType T fuel w = (Some (GoesOn (outcome (reply_of T (replies w)))), w') /\
    h w' = h (snd (stmtPrepare T (StmtID (ev w)) (EvQuery (ev w)) w)) /\
    calls w' = calls (snd (stmtPrepare T (StmtID (ev w)) (EvQuery (ev w)) w)) /\
    replies w' = S (replies w) /\
    sink w' = sink w.
Proof.
  intros Ety Hp Hc.
  assert (switchType T fuel w =
          (err <- stmtPrepare T (StmtID (ev w)) (EvQuery (ev w));;
           match err with
           | None | Some (MySQLError _ _) => ret tt
           | Some _ =>
               modify_Rr (set_ErrNO 20000);;
               modify_Rr (set_ErrDesc
                 "exec sql fail and covert  to mysql error struct err")
           end;;
           ret (GoesOn err)) w) as ->.
  { unfold switchType. rewrite bind_get, Ety. reflexivity. }
  rewrite (bind_run _ _ _ _ _ (stmtPrepare_run _ _ w p Hp Hc)).
  rewrite (stmtPrepare_run _ _ w p Hp Hc). cbn [snd].
  destruct (reply_of T (replies w)) as [rows|e]; cbn [outcome].
  - eexists. split; [reflexivity|]. auto.
  - destruct e; (eexists; split; [reflexivity|]);
      destruct w as [hh [ty tm qq i ps db rr] cl rp rd sk]; auto.
Qed.

(** X18: a prepare on a session with a connection.  The live handle that
    the cache holds under the id, if any, is closed first, and the text of
    the event is prepared on the connection.  When that succeeds the cache
    holds the new statement under the id; when it fails (with an error that
    is not a lost connection) [ApplyEvent] returns the error and the cache
    holds nothing under the id any more, so that an execute of the id is
    answered with the error 10000 even if a statement was cached under it
    before.  The other statements are left. *)
Theorem ApplyEvent_prepare (fuel : nat) (w : World) :
  Type_ (ev w) = EventStmtPrepare -> connected_session w ->
  match reply_of T (replies w) with
  | Failed e => connectionLost e = false
  | Done _ => True
  end ->
  exists w',
    ApplyEvent T (S fuel) w = (Some (outcome (reply_of T (replies w))), w') /\
    calls w' = calls w ++ close_of (stmts (h w) !! StmtID (ev w))
                 ++ [conn_PrepareContext (EvQuery (ev w))] /\
    stmts (h w') !! StmtID (ev w)
      = match reply_of T (replies w) with
        | Done _ => Some (mkStatement (EvQuery (ev w)) (Some (EvQuery (ev w))))
        | Failed _ => None
        end /\
    (forall j, j <> StmtID (ev w) -> stmts (h w') !! j = stmts (h w) !! j) /\
    (forall e2 fuel',
       Type_ e2 = EventStmtExecute -> StmtID e2 = StmtID (ev w) ->
       (exists e, reply_of T (replies w) = Failed e) ->
       ApplyEvent T (S fuel') (set_ev e2 w')
         = (Some (Some (not_found (StmtID e2))), set_ev e2 w')).
Proof.
  intros Ety (Hd & (p & Hp) & Hc) Hother.
  destruct (switchType_prepare (S fuel) w p Ety Hp Hc) as (w' & Esw & Hh & Hcalls & _).
  rewrite (stmtPrepare_run _ _ w p Hp Hc) in Hh, Hcalls. cbn [snd h calls] in Hh, Hcalls.
  exists w'. rewrite ApplyEvent_configured by exact Hd.
  rewrite (ApplyEvent_LOOP_pass T fuel w w' _ Esw).
  assert (stmts (h w') !! StmtID (ev w)
          = match reply_of T (replies w) with
            | Done _ => Some (mkStatement (EvQuery (ev w)) (Some (EvQuery (ev w))))
            | Failed _ => None
            end) as Hid.
  { rewrite Hh. destruct (h w); cbn [set_stmts stmts].
    destruct (reply_of T (replies w));
      [apply lookup_insert_eq|apply lookup_delete_eq]. }
  split.
  { destruct (reply_of T (replies w)) as [rows|e]; cbn [outcome]; [reflexivity|].
    rewrite Hother. reflexivity. }
  split; [exact Hcalls|]. split; [exact Hid|]. split.
  { intros j Hj. rewrite Hh. destruct (h w); cbn [set_stmts stmts].
    destruct (reply_of T (replies w)).
    - rewrite lookup_insert_ne by congruence. apply lookup_delete_ne. congruence.
    - apply lookup_delete_ne. congruence. }
  intros e2 fuel' Ety2 Eid (e & Er).
  pose proof (ApplyEvent_not_found T fuel' (set_ev e2 w')) as H.
  assert (h (set_ev e2 w') = h w' /\ ev (set_ev e2 w') = e2) as [Eh Eev]
    by (destruct w'; split; reflexivity).
  rewrite Eh, Eev in H. apply H; [|exact Ety2|].
  - rewrite Hh. destruct (h w); exact Hd.
  - rewrite Eid, Hid, Er. reflexivity.
Qed.

(** X19: a close takes the statement out of the cache and closes its live
    handle; nothing is asked of the target.  A close of an id that the
    cache does not hold changes nothing.  An execute of the id after the
    close is answered with the error 10000. *)
Theorem ApplyEvent_close (fuel : nat) (w : World) :
  Type_ (ev w) = EventStmtClose -> Dsn (h w) <> "" ->
  exists w',
    ApplyEvent T (S fuel) w = (Some None, w') /\
    calls w' = calls w ++ close_of (stmts (h w) !! StmtID (ev w)) /\
    replies w' = replies w /\
    stmts (h w') = delete (StmtID (ev w)) (stmts (h w)) /\
    (stmts (h w) !! StmtID (ev w) = None -> w' = w) /\
    (forall e2 fuel',
       Type_ e2 = EventStmtExecute -> StmtID e2 = StmtID (ev w) ->
       ApplyEvent T (S fuel') (set_ev e2 w')
         = (Some (Some (not_found (StmtID e2))), set_ev e2 w')).
Proof.
  intros Ety Hd. eexists.
  rewrite ApplyEvent_configured by exact Hd.
  assert (switchType T (S fuel) w
          = (Some (GoesOn None),
             set_calls (calls w ++ close_of (stmts (h w) !! StmtID (ev w)))
               (set_h (set_stmts (delete (StmtID (ev w)) (stmts (h w))) (h w)) w)))
    as Esw.
  { unfold switchType. rewrite bind_get, Ety.
    rewrite (bind_run _ _ _ _ _ (stmtClose_run _ w)). reflexivity. }
  rewrite (ApplyEvent_LOOP_pass T fuel w _ _ Esw).
  split; [reflexivity|].
  destruct w as [[dsn dbn sch pl c sts] e cl rp rd sk].
  cbn [h ev calls replies stmts set_calls set_h set_stmts] in *.
  split; [reflexivity|]. split; [reflexivity|]. split; [reflexivity|]. split.
  { intros Hn. rewrite Hn. cbn [close_of]. rewrite app_nil_r, delete_id by exact Hn.
    reflexivity. }
  intros e2 fuel' Ety2 Eid.
  apply (ApplyEvent_not_found T fuel'); cbn [h ev set_ev stmts Dsn];
    [exact Hd|exact Ety2|].
  rewrite Eid. apply lookup_delete_eq.
Qed.

End StatementCache.

(** ** Leaving and entering a session *)

Section Sessions.

Context {C : Converter} (T : Target).

(** The world after [quit(false)]: the handles, the connection and the pool
    are closed and the cache is empty. *)
Definition shut_down (w : World) : World :=
  mkWorld
    (mkHandler (Dsn (h w)) (DBName (h w)) (schema (h w)) None false ∅)
    (ev w)
    (calls w ++ closes (map_to_list (stmts (h w)))
       ++ (if conn (h w) then [conn_Close] else [])
       ++ (if pool (h w) is Some _ then [pool_Close] else []))
    (replies w) (readings w) (sink w).

Lemma quit_run (w : World) : quit false w = (Some tt, shut_down w).
Proof.
  unfold quit. rewrite bind_get.
  rewrite (bind_run _ _ _ _ _ (closeHandles_run _ w)).
  unfold modify_h, tell. rewrite bind_modify, bind_get.
  destruct w as [[dsn dbn sch [p|] [|] sts] e cl rp rd sk];
    cbn; unfold shut_down; cbn; rewrite <- ?app_assoc, ?app_nil_r; reflexivity.
Qed.

(** Without a pool and a connection, [getConn] opens a pool for the last
    known schema and takes a connection from it. *)
Lemma getConn_closed (w : World) :
  pool (h w) = None -> conn (h w) = false ->
  (exists r, reply_of T (replies w) = Done r) ->
  (exists r, reply_of T (S (replies w)) = Done r) ->
  getConn T w = (Some None, connected (schema (h w)) w).
Proof.
  intros Hp Hc (r1 & E1) (r2 & E2).
  destruct w as [[dsn dbn sc p c sts] e cl rp rd sk]. cbn in Hp, Hc, E1, E2. subst p c.
  unfold getConn, open, ask, modify_h, bind, get, modify, ret. cbn.
  fold (dbname_for (mkHandler dsn dbn sc None false sts) sc).
  rewrite E1. cbn. rewrite E2. unfold connected. cbn.
  rewrite <- ?app_assoc. reflexivity.
Qed.

Lemma connected_facts (sch : string) (w : World) :
  pool (h (connected sch w)) = Some (dbname_for (h w) sch) /\
  conn (h (connected sch w)) = true /\
  Dsn (h (connected sch w)) = Dsn (h w) /\
  ev (connected sch w) = ev w /\
  replies (connected sch w) = S (S (replies w)) /\
  calls (connected sch w) = calls w ++ [sql_Open (dbname_for (h w) sch); pool_Conn].
Proof. repeat split. Qed.

(** A query on a session without a pool goes to the target behind the
    opening of a pool and a connection. *)
Lemma execute_connects (q : string) (w : World) :
  pool (h w) = None -> conn (h w) = false ->
  (exists r, reply_of T (replies w) = Done r) ->
  (exists r, reply_of T (S (replies w)) = Done r) ->
  execute T q w = execute T q (connected (schema (h w)) w).
Proof.
  intros Hp Hc H1 H2. unfold execute.
  rewrite (bind_run _ _ _ _ _ (getConn_closed w Hp Hc H1 H2)).
  rewrite (bind_run _ _ _ _ _
             (getConn_open T (connected (schema (h w)) w) _ eq_refl eq_refl)).
  reflexivity.
Qed.

Lemma bind_eq {S A B} (m m' : StateM S A) (k : A -> StateM S B) (s s' : S) :
  m s = m' s' -> bind m k s = bind m' k s'.
Proof. intros E. unfold bind. rewrite E. reflexivity. Qed.

Lemma ApplyEvent_LOOP_connects (fuel : nat) (w : World) :
  Type_ (ev w) = EventQuery ->
  pool (h w) = None -> conn (h w) = false ->
  (exists r, reply_of T (replies w) = Done r) ->
  (exists r, reply_of T (S (replies w)) = Done r) ->
  ApplyEvent_LOOP T (S fuel) w
    = ApplyEvent_LOOP T (S fuel) (connected (schema (h w)) w).
Proof.
  intros Ety Hp Hc H1 H2.
  cbn [ApplyEvent_LOOP]. apply bind_eq.
  unfold switchType. rewrite !bind_get.
  replace (ev (connected (schema (h w)) w)) with (ev w) by reflexivity.
  rewrite Ety. unfold modify_Rr. rewrite !bind_modify.
  set (w0 := set_ev _ w).
  assert (set_ev (set_Rr (set_ColValues [] (Rr (ev (connected (schema (h w)) w))))
                    (ev (connected (schema (h w)) w)))
            (connected (schema (h w)) w)
          = connected (schema (h w0)) w0) as ->.
  { subst w0. destruct w as [[] [? ? ? ? ? ? []] ? ? ? ?]. reflexivity. }
  assert (pool (h w0) = None /\ conn (h w0) = false /\ replies w0 = replies w)
    as (Hp0 & Hc0 & Hr0).
  { subst w0. destruct w as [[] [? ? ? ? ? ? []] ? ? ? ?]. auto. }
  apply bind_eq. cbn [retryComQuery]. apply bind_eq.
  apply execute_connects; rewrite ?Hr0; assumption.
Qed.

(** X20: a quit closes the live handles, the connection and the pool and
    empties the cache; nothing is asked of the target, and the last known
    schema stays.  Every execute after it is answered with the error 10000.
    A query after it opens a pool for the last known schema and a
    connection, and goes to the target behind them. *)
Theorem ApplyEvent_quit (fuel : nat) (w : World) :
  Type_ (ev w) = EventQuit -> Dsn (h w) <> "" ->
  ApplyEvent T (S fuel) w = (Some None, shut_down w) /\
  stmts (h (shut_down w)) = ∅ /\
  pool (h (shut_down w)) = None /\
  conn (h (shut_down w)) = false /\
  schema (h (shut_down w)) = schema (h w) /\
  replies (shut_down w) = replies w /\
  calls (shut_down w)
    = calls w ++ closes (map_to_list (stmts (h w)))
        ++ (if conn (h w) then [conn_Close] else [])
        ++ (if pool (h w) is Some _ then [pool_Close] else []) /\
  (forall e2 fuel',
     Type_ e2 = EventStmtExecute ->
     ApplyEvent T (S fuel') (set_ev e2 (shut_down w))
       = (Some (Some (not_found (StmtID e2))), set_ev e2 (shut_down w))) /\
  (forall e2 fuel',
     Type_ e2 = EventQuery ->
     (exists r, reply_of T (replies w) = Done r) ->
     (exists r, reply_of T (S (replies w)) = Done r) ->
     lockWaitReply (reply_of T (S (S (replies w)))) = false ->
     match reply_of T (S (S (replies w))) with
     | Failed e => connectionLost e = false
     | Done _ => True
     end ->
     exists w',
       ApplyEvent T (S fuel') (set_ev e2 (shut_down w))
         = (Some (outcome (reply_of T (S (S (replies w))))), w') /\
       calls w'
         = calls (shut_down w)
             ++ [sql_Open (dbname_for (h w) (schema (h w))); pool_Conn;
                 conn_QueryContext (EvQuery e2)]
             ++ closing (reply_of T (S (S (replies w))))).
Proof.
  intros Ety Hd.
  split.
  { rewrite ApplyEvent_configured by exact Hd.
    apply (ApplyEvent_LOOP_pass T fuel w (shut_down w) (GoesOn None)).
    unfold switchType. rewrite bind_get, Ety.
    rewrite (bind_run _ _ _ _ _ (quit_run w)). reflexivity. }
  do 6 (split; [reflexivity|]).
  split.
  { intros e2 fuel' Ety2.
    pose proof (ApplyEvent_not_found T fuel' (set_ev e2 (shut_down w))) as H.
    cbn [set_ev shut_down h ev Dsn stmts] in H. apply H; [exact Hd|exact Ety2|].
    apply lookup_empty. }
  intros e2 fuel' Ety2 H1 H2 Hl Hother.
  set (w0 := set_ev e2 (shut_down w)).
  assert (Dsn (h w0) <> "") as Hd0 by exact Hd.
  rewrite ApplyEvent_configured by exact Hd0.
  rewrite (ApplyEvent_LOOP_connects fuel' w0 Ety2 eq_refl eq_refl H1 H2).
  set (w1 := connected (schema (h w0)) w0).
  destruct (lock_wait_retry_run T 0 (S fuel') w1 (conn_QueryContext (EvQuery e2))
              (query_fields (EvQuery e2))) as (w' & E & Hcalls & _).
  - exact Hd.
  - lia.
  - left. subst w1 w0. cbn. repeat split; eauto.
  - intros k Hk. lia.
  - rewrite Nat.add_0_r. exact Hl.
  - rewrite Nat.add_0_r. exact Hother.
  - rewrite Nat.add_0_r in E, Hcalls.
    change (replies w1) with (S (S (replies w))) in E, Hcalls.
    assert (Dsn (h w1) <> "") as Hd1 by exact Hd.
    rewrite ApplyEvent_configured in E by exact Hd1.
    exists w'. split; [exact E|]. rewrite Hcalls. cbn [repeat].
    subst w1 w0. cbn [connected calls set_ev shut_down h schema DBName].
    unfold dbname_for. cbn [DBName]. rewrite <- !app_assoc. reflexivity.
Qed.

Lemma dbname_for_schema (hd : ReplayEventHandler) (sch : string) :
  dbname_for hd sch = if decide (sch = "") then DBName hd else sch.
Proof.
  unfold dbname_for. destruct (decide (sch = "")) as [->|Hn]; [reflexivity|].
  destruct sch as [|c sch]; [congruence|]. cbn [String.length Nat.ltb Nat.leb andb].
  destruct (decide (DBName hd = String c sch)) as [E|E].
  - rewrite bool_decide_eq_false_2 by (intros H; apply H; exact E). exact E.
  - rewrite bool_decide_eq_true_2 by exact E. reflexivity.
Qed.

(** X21: a handshake event leaves the session as a quit does and opens a
    pool and a connection for the schema of the event: for the database of
    that name, or for the database of the configuration when the name is
    empty.  When both are opened the schema of the event is the last known
    schema and the cache is empty.  When the pool cannot be opened (with an
    error that is not a lost connection) the error is returned, and the
    session has no pool, no connection and the schema it had. *)
Theorem ApplyEvent_handshake (fuel : nat) (w : World) :
  Type_ (ev w) = EventHandshake -> Dsn (h w) <> "" ->
  ((exists r, reply_of T (replies w) = Done r) ->
   (exists r, reply_of T (S (replies w)) = Done r) ->
   ApplyEvent T (S fuel) w = (Some None, connected (DB (ev w)) (shut_down w)) /\
   schema (h (connected (DB (ev w)) (shut_down w))) = DB (ev w) /\
   stmts (h (connected (DB (ev w)) (shut_down w))) = ∅ /\
   pool (h (connected (DB (ev w)) (shut_down w)))
     = Some (if decide (DB (ev w) = "") then DBName (h w) else DB (ev w)) /\
   calls (connected (DB (ev w)) (shut_down w))
     = calls (shut_down w)
         ++ [sql_Open (if decide (DB (ev w) = "") then DBName (h w) else DB (ev w));
             pool_Conn]) /\
  (forall e, reply_of T (replies w) = Failed e -> connectionLost e = false ->
   exists w',
     ApplyEvent T (S fuel) w = (Some (Some e), w') /\
     schema (h w') = schema (h w) /\ pool (h w') = None /\ conn (h w') = false /\
     stmts (h w') = ∅ /\
     calls w'
       = calls (shut_down w)
           ++ [sql_Open (if decide (DB (ev w) = "") then DBName (h w) else DB (ev w))]).
Proof.
  intros Ety Hd.
  assert (switchType T (S fuel) w
          = (err <- handshake T (DB (ev w));; ret (GoesOn err)) (shut_down w)) as Esw.
  { unfold switchType. rewrite bind_get, Ety.
    rewrite (bind_run _ _ _ _ _ (quit_run w)). reflexivity. }
  pose proof (handshake_run T (DB (ev w)) (shut_down w) eq_refl) as Hh.
  change (replies (shut_down w)) with (replies w) in Hh.
  pose proof (dbname_for_schema (h (shut_down w)) (DB (ev w))) as Hdb.
  change (DBName (h (shut_down w))) with (DBName (h w)) in Hdb.
  rewrite ApplyEvent_configured by exact Hd.
  split.
  - intros (r1 & E1) (r2 & E2). rewrite E1, E2 in Hh.
    rewrite (bind_run _ _ _ _ _ Hh) in Esw.
    rewrite (ApplyEvent_LOOP_pass T fuel w _ _ Esw).
    split; [reflexivity|]. split; [reflexivity|]. split; [reflexivity|].
    destruct (connected_facts (DB (ev w)) (shut_down w)) as (Fp & _ & _ & _ & _ & Fc).
    rewrite Fp, Fc, Hdb. split; reflexivity.
  - intros e E1 Hl. rewrite E1 in Hh.
    rewrite (bind_run _ _ _ _ _ Hh) in Esw.
    rewrite (ApplyEvent_LOOP_pass T fuel w _ _ Esw), Hl.
    rewrite <- Hdb. eexists. split; [reflexivity|].
    repeat split; reflexivity.
Qed.

End Sessions.

(** ** An execute without a live handle *)

Section Reprepare.

Context {C : Converter} (T : Target).

(** The world after the statement [id] was prepared again from its text. *)
Definition reprepared (id text : string) (w : World) : World :=
  mkWorld
    (set_stmts (<[id := mkStatement text (Some text)]> (stmts (h w))) (h w))
    (ev w) (calls w ++ [conn_PrepareContext text]) (S (replies w))
    (readings w) (sink w).

Lemma getStmt_reprepare (id text : string) (w : World) (p : string) :
  pool (h w) = Some p -> conn (h w) = true ->
  stmts (h w) !! id = Some (mkStatement text None) ->
  getStmt T id w =
    match reply_of T (replies w) with
    | Done _ => (Some (Some text, None), reprepared id text w)
    | Failed e =>
        (Some (None, Some e),
         set_replies (S (replies w))
           (set_calls (calls w ++ [conn_PrepareContext text]) w))
    end.
Proof.
  intros Hp Hc Hs. unfold getStmt. rewrite bind_get, Hs.
  rewrite (bind_run _ _ _ _ _ (getConn_open T w p Hp Hc)).
  unfold ask, modify_h, bind, modify, ret.
  destruct w as [[dsn dbn sch pl c sts] e cl rp rd sk]. cbn.
  destruct (reply_of T rp); reflexivity.
Qed.

Lemma stmtExecute_reprepare (id text : string) (params : list param) (w : World)
    (p : string) :
  pool (h w) = Some p -> conn (h w) = true ->
  stmts (h w) !! id = Some (mkStatement text None) ->
  stmtExecute T id params w =
    match reply_of T (replies w) with
    | Done _ => stmtExecute T id params (reprepared id text w)
    | Failed e =>
        (Some (Some e),
         set_replies (S (replies w))
           (set_calls (calls w ++ [conn_PrepareContext text]) w))
    end.
Proof.
  intros Hp Hc Hs. unfold stmtExecute.
  pose proof (getStmt_reprepare id text w p Hp Hc Hs) as Hg.
  destruct (reply_of T (replies w)) as [r|e].
  - rewrite (bind_run _ _ _ _ _ Hg).
    assert (stmts (h (reprepared id text w)) !! id
            = Some (mkStatement text (Some text))) as Hl.
    { destruct w as [[] ? ? ? ? ?]. cbn. apply lookup_insert_eq. }
    rewrite (bind_run _ _ _ _ _
               (getStmt_live T id (reprepared id text w) text text Hl)).
    reflexivity.
  - rewrite (bind_run _ _ _ _ _ Hg). reflexivity.
Qed.

(** X22: an execute of a statement that the cache holds without a live
    handle, as a reconnect leaves it, on a session with a connection.  The
    statement is prepared again from its text first.  When that fails (with
    an error that is neither the lock-wait timeout nor a lost connection)
    the error is the outcome, nothing is executed and the session is as it
    was.  When it succeeds the cache holds the live handle and the execute
    goes to the target with the parameters of the event. *)
Theorem ApplyEvent_execute_reprepares (fuel : nat) (w : World) (text : string) :
  Type_ (ev w) = EventStmtExecute -> connected_session w ->
  stmts (h w) !! StmtID (ev w) = Some (mkStatement text None) ->
  (forall e,
     reply_of T (replies w) = Failed e ->
     lockWaitTimeout e = false -> connectionLost e = false ->
     exists w',
       ApplyEvent T (S fuel) w = (Some (Some e), w') /\
       calls w' = calls w ++ [conn_PrepareContext text] /\
       executions (calls w') = executions (calls w) /\
       h w' = h w) /\
  ((exists r, reply_of T (replies w) = Done r) ->
   lockWaitReply (reply_of T (S (replies w))) = false ->
   match reply_of T (S (replies w)) with
   | Failed e => connectionLost e = false
   | Done _ => True
   end ->
   exists w',
     ApplyEvent T (S fuel) w = (Some (outcome (reply_of T (S (replies w)))), w') /\
     calls w'
       = calls w ++ [conn_PrepareContext text;
                     stmt_QueryContext text (Params (ev w))]
           ++ closing (reply_of T (S (replies w))) /\
     executions (calls w') = S (executions (calls w)) /\
     stmts (h w') !! StmtID (ev w) = Some (mkStatement text (Some text))).
Proof.
  intros Ety (Hd & (p & Hp) & Hc) Hs.
  rewrite ApplyEvent_configured by exact Hd.
  set (w0 := with_ColValues [] w).
  assert (pool (h w0) = Some p /\ conn (h w0) = true /\
          stmts (h w0) !! StmtID (ev w) = Some (mkStatement text None) /\
          replies w0 = replies w) as (Hp0 & Hc0 & Hs0 & Hr0).
  { subst w0. destruct w as [[] [? ? ? ? ? ? []] ? ? ? ?]. auto. }
  assert (switchType T (S fuel) w
          = (err <- retryComStmtExecute T (S fuel) (StmtID (ev w)) (Params (ev w));;
             ret (GoesOn err)) w0) as Esw.
  { unfold switchType. rewrite bind_get, Ety, bind_get, Hs.
    unfold modify_Rr. rewrite bind_modify. reflexivity. }
  split.
  - intros e Er Hlock Hlost.
    assert (switchType T (S fuel) w
            = (Some (GoesOn (Some e)),
               set_replies (S (replies w))
                 (set_calls (calls w0 ++ [conn_PrepareContext text]) w0))) as Esw'.
    { pose proof (stmtExecute_reprepare (StmtID (ev w)) text (Params (ev w)) w0 p
                    Hp0 Hc0 Hs0) as Hx.
      rewrite Hr0, Er in Hx.
      rewrite Esw. cbn [retryComStmtExecute]. unfold bind. rewrite Hx, Hlock.
      reflexivity. }
    rewrite (ApplyEvent_LOOP_pass T fuel w _ _ Esw'), Hlost.
    eexists. split; [reflexivity|].
    subst w0. destruct w as [[] [? ? ? ? ? ? []] ? ? ? ?].
    unfold with_ColValues.
    cbn [set_ev set_replies set_calls calls h ev Rr set_Rr set_ColValues].
    split; [reflexivity|]. split; [|reflexivity].
    rewrite executions_app, executions_one. cbn [is_execution]. lia.
  - intros (r & Er) Hlock Hother.
    set (w1 := reprepared (StmtID (ev w)) text w).
    assert (ApplyEvent_LOOP T (S fuel) w = ApplyEvent_LOOP T (S fuel) w1) as ->.
    { cbn [ApplyEvent_LOOP]. apply bind_eq. rewrite Esw.
      unfold switchType. rewrite bind_get.
      replace (ev w1) with (ev w) by reflexivity. rewrite Ety, bind_get.
      replace (stmts (h w1) !! StmtID (ev w))
        with (Some (mkStatement text (Some text)))
        by (subst w1; destruct w as [[] ? ? ? ? ?]; cbn; symmetry;
            apply lookup_insert_eq).
      unfold modify_Rr. rewrite bind_modify.
      apply bind_eq. cbn [retryComStmtExecute]. apply bind_eq.
      rewrite (stmtExecute_reprepare _ text _ w0 p Hp0 Hc0 Hs0), Hr0, Er.
      subst w0 w1. destruct w as [[] [? ? ? ? ? ? []] ? ? ? ?]. reflexivity. }
    assert (stmts (h w1) !! StmtID (ev w1) = Some (mkStatement text (Some text)))
      as Hs1.
    { subst w1. destruct w as [[] ? ? ? ? ?]. cbn. apply lookup_insert_eq. }
    assert (Dsn (h w1) <> "") as Hd1.
    { subst w1. destruct w as [[] ? ? ? ? ?]. exact Hd. }
    destruct (lock_wait_retry_run T 0 (S fuel) w1
                (stmt_QueryContext text (Params (ev w)))
                (stmt_fields text (Params (ev w))) Hd1)
      as (w' & E & Hcalls & Hex & _ & Hh & _).
    + lia.
    + right. split; [exact Ety|]. exists text, text. split; [exact Hs1|].
      split; reflexivity.
    + intros k Hk. lia.
    + rewrite Nat.add_0_r. exact Hlock.
    + rewrite Nat.add_0_r. exact Hother.
    + rewrite Nat.add_0_r in E, Hcalls.
      change (replies w1) with (S (replies w)) in E, Hcalls.
      rewrite ApplyEvent_configured in E by exact Hd1.
      exists w'. split; [exact E|]. split.
      { rewrite Hcalls. cbn [repeat]. subst w1. cbn [reprepared calls].
        rewrite <- !app_assoc. reflexivity. }
      split.
      { rewrite Hex. subst w1. cbn [reprepared calls].
        rewrite executions_app, executions_one. cbn. lia. }
      rewrite Hh. exact Hs1.
Qed.

End Reprepare.

(** The events and the session of the examples: a session that holds the
    statement 7 with a live handle, and one that holds it without. *)
Definition a_prepare : MySQLEvent :=
  mkEvent EventStmtPrepare 0 "SELECT ?" "7" [] "" no_result.

Definition a_close : MySQLEvent :=
  mkEvent EventStmtClose 0 "" "7" [] "" no_result.

Definition a_quit : MySQLEvent :=
  mkEvent EventQuit 0 "" "" [] "" no_result.

Definition a_handshake : MySQLEvent :=
  mkEvent EventHandshake 0 "" "" [] "shop" no_result.

Definition execute_7 : MySQLEvent :=
  mkEvent EventStmtExecute 0 "" "7" [Pint64 1] "" no_result.

Definition with_statement (handle : option string) (e : MySQLEvent) : World :=
  mkWorld
    (mkHandler "dsn" "test" "test" (Some "test") true
       {[ "7"%string := mkStatement "SELECT 1" handle ]})
    e [] 0 0 [].

Definition syntax_error : reply := Failed (MySQLError 1064 "syntax error").

Lemma ApplyEvent_prepare_witness :
  exists w',
    ApplyEvent (C := sample_converter) (scripted [syntax_error]) 1
      (with_statement (Some "SELECT 1"%string) a_prepare)
      = (Some (Some (MySQLError 1064 "syntax error")), w') /\
    calls w' = [stmt_Close "SELECT 1"; conn_PrepareContext "SELECT ?"] /\
    stmts (h w') !! "7"%string = None /\
    ApplyEvent (C := sample_converter) (scripted [syntax_error]) 1
      (set_ev execute_7 w')
      = (Some (Some (MySQLError 10000 "7 is not exist , maybe prepare fail")),
         set_ev execute_7 w').
Proof.
  destruct (ApplyEvent_prepare (C := sample_converter) (scripted [syntax_error]) 0
              (with_statement (Some "SELECT 1"%string) a_prepare))
    as (w' & E & Hc & Hs & _ & Hx).
  - reflexivity.
  - split; [discriminate|]. split; [eauto|reflexivity].
  - reflexivity.
  - exists w'. split; [exact E|]. split; [exact Hc|]. split; [exact Hs|].
    apply (Hx execute_7 0%nat); [reflexivity|reflexivity|].
    eexists. reflexivity.
Defined.

Lemma ApplyEvent_close_witness :
  exists w',
    ApplyEvent (C := sample_converter) (scripted []) 1
      (with_statement (Some "SELECT 1"%string) a_close) = (Some None, w') /\
    calls w' = [stmt_Close "SELECT 1"] /\
    replies w' = 0%nat /\
    stmts (h w') !! "7"%string = None /\
    ApplyEvent (C := sample_converter) (scripted []) 1 (set_ev execute_7 w')
      = (Some (Some (MySQLError 10000 "7 is not exist , maybe prepare fail")),
         set_ev execute_7 w').
Proof.
  destruct (ApplyEvent_close (C := sample_converter) (scripted []) 0
              (with_statement (Some "SELECT 1"%string) a_close))
    as (w' & E & Hc & Hr & Hs & _ & Hx).
  - reflexivity.
  - discriminate.
  - exists w'. split; [exact E|]. split; [exact Hc|]. split; [exact Hr|].
    split; [rewrite Hs; apply lookup_delete_eq|].
    apply (Hx execute_7 0%nat); reflexivity.
Defined.

Lemma ApplyEvent_quit_witness :
  ApplyEvent (C := sample_converter) (scripted [Done []; Done []; Done [[Vint64 1]]]) 1
    (with_statement (Some "SELECT 1"%string) a_quit)
    = (Some None, shut_down (with_statement (Some "SELECT 1"%string) a_quit)) /\
  calls (shut_down (with_statement (Some "SELECT 1"%string) a_quit))
    = [stmt_Close "SELECT 1"; conn_Close; pool_Close] /\
  exists w',
    ApplyEvent (C := sample_converter)
      (scripted [Done []; Done []; Done [[Vint64 1]]]) 1
      (set_ev a_query (shut_down (with_statement (Some "SELECT 1"%string) a_quit)))
      = (Some None, w') /\
    calls w'
      = [stmt_Close "SELECT 1"; conn_Close; pool_Close; sql_Open "test"; pool_Conn;
         conn_QueryContext "SELECT 1"; rows_Close].
Proof.
  destruct (ApplyEvent_quit (C := sample_converter)
              (scripted [Done []; Done []; Done [[Vint64 1]]]) 0
              (with_statement (Some "SELECT 1"%string) a_quit))
    as (E & _ & _ & _ & _ & _ & Hc & _ & Hq).
  - reflexivity.
  - discriminate.
  - split; [exact E|]. split; [rewrite Hc; vm_compute; reflexivity|].
    destruct (Hq a_query 0%nat) as (w' & E' & Hc').
    + reflexivity.
    + eexists. reflexivity.
    + eexists. reflexivity.
    + reflexivity.
    + exact I.
    + exists w'. split; [exact E'|]. rewrite Hc', Hc. vm_compute. reflexivity.
Defined.

Lemma ApplyEvent_handshake_witness :
  ApplyEvent (C := sample_converter) (scripted []) 1
    (with_statement (Some "SELECT 1"%string) a_handshake)
    = (Some None,
       connected "shop" (shut_down (with_statement (Some "SELECT 1"%string)
                                      a_handshake))) /\
  schema (h (connected "shop"
               (shut_down (with_statement (Some "SELECT 1"%string) a_handshake))))
    = "shop"%string /\
  stmts (h (connected "shop"
              (shut_down (with_statement (Some "SELECT 1"%string) a_handshake))))
    = ∅ /\
  pool (h (connected "shop"
             (shut_down (with_statement (Some "SELECT 1"%string) a_handshake))))
    = Some "shop"%string /\
  calls (connected "shop"
           (shut_down (with_statement (Some "SELECT 1"%string) a_handshake)))
    = [stmt_Close "SELECT 1"; conn_Close; pool_Close; sql_Open "shop"; pool_Conn].
Proof.
  destruct (proj1 (ApplyEvent_handshake (C := sample_converter) (scripted []) 0
              (with_statement (Some "SELECT 1"%string) a_handshake)
              eq_refl ltac:(discriminate)))
    as (E & Hs & Hst & Hp & Hc).
  - eexists. reflexivity.
  - eexists. reflexivity.
  - split; [exact E|]. split; [exact Hs|]. split; [exact Hst|].
    split; [exact Hp|]. etransitivity; [exact Hc|]. vm_compute. reflexivity.
Defined.

Lemma ApplyEvent_execute_reprepares_witness :
  (exists w',
     ApplyEvent (C := sample_converter) (scripted [Done []; Done [[Vint64 1]]]) 1
       (with_statement None execute_7) = (Some None, w') /\
     calls w' = [conn_PrepareContext "SELECT 1";
                 stmt_QueryContext "SELECT 1" [Pint64 1]; rows_Close] /\
     executions (calls w') = 1%nat /\
     stmts (h w') !! "7"%string = Some (mkStatement "SELECT 1" (Some "SELECT 1"%string))) /\
  (exists w',
     ApplyEvent (C := sample_converter) (scripted [syntax_error]) 1
       (with_statement None execute_7)
       = (Some (Some (MySQLError 1064 "syntax error")), w') /\
     calls w' = [conn_PrepareContext "SELECT 1"] /\
     executions (calls w') = 0%nat /\
     h w' = h (with_statement None execute_7)).
Proof.
  split.
  - apply (proj2 (ApplyEvent_execute_reprepares (C := sample_converter)
             (scripted [Done []; Done [[Vint64 1]]]) 0
             (with_statement None execute_7) "SELECT 1" eq_refl
             ltac:(split; [discriminate|split; [eauto|reflexivity]]) eq_refl)).
    + eexists. reflexivity.
    + reflexivity.
    + exact I.
  - apply (proj1 (ApplyEvent_execute_reprepares (C := sample_converter)
             (scripted [syntax_error]) 0
             (with_statement None execute_7) "SELECT 1" eq_refl
             ltac:(split; [discriminate|split; [eauto|reflexivity]]) eq_refl)
             (MySQLError 1064 "syntax error")); reflexivity.
Defined.
